(** * Timetable generator: a shallow embedding of [TimetableGenerator]

    The development follows the generator class of the scheduling action
    (the file holding [generateTimetable] and [class TimetableGenerator]):
    the slot grid builder, the constraint checker, the conflict detector,
    the fitness evaluator, the gap-filling optimiser, the genetic operators
    and the constraint-first strategy.

    Conventions of the embedding.
    - JavaScript integers are [Z]; fractional numbers are exact rationals
      [Q] (the IEEE rounding of doubles is not modelled).
    - A JavaScript object is an association list in insertion order with
      first-match lookup; writing an existing key keeps its position and
      writing a new key appends, as property creation does.  Keys are
      assumed not to be canonical array indices (day names and slot labels
      never are), so that insertion order is enumeration order.
    - Reading a property of [undefined] raises a [TypeError]; computations
      that can do so return a [Result].
    - [Math.random] is an explicit list of the successive values it
      returns, threaded through the randomised operations. *)

From Stdlib Require Import List String Ascii ZArith QArith Qround Qminmax Lia Bool Arith.
From Stdlib Require Import DecimalString Permutation Lqa FinFun.
From Equations Require Import Equations.
Import ListNotations.

Set Implicit Arguments.
Open Scope string_scope.
Open Scope list_scope.
Open Scope Z_scope.

(** ** Results of computations that may throw *)

Inductive Result (A : Type) : Type :=
| Ok (a : A)
| TypeError.
Arguments Ok {A} a.
Arguments TypeError {A}.

Definition bind {A B} (m : Result A) (k : A -> Result B) : Result B :=
  match m with
  | Ok a => k a
  | TypeError => TypeError
  end.

Declare Scope result_scope.
Delimit Scope result_scope with result.
Notation "x <- m ;; k" := (bind m (fun x => k))
  (at level 100, m at next level, right associativity) : result_scope.
Notation "' p <- m ;; k" := (bind m (fun p => k))
  (at level 100, p pattern, m at next level, right associativity) : result_scope.
Open Scope result_scope.

(** [arr.forEach] with an accumulator for the variables the callback
    updates; a throwing callback aborts the loop. *)
Fixpoint forEach {A S} (l : list A) (f : S -> A -> Result S) (s : S) : Result S :=
  match l with
  | [] => Ok s
  | x :: l' => s' <- f s x ;; forEach l' f s'
  end.

(** [arr.forEach((x, index) => ...)]. *)
Fixpoint forEachFrom {A S} (i : nat) (l : list A) (f : S -> nat -> A -> Result S)
  (s : S) : Result S :=
  match l with
  | [] => Ok s
  | x :: l' => s' <- f s i x ;; forEachFrom (Datatypes.S i) l' f s'
  end.

Definition forEachIndexed {A S} (l : list A) (f : S -> nat -> A -> Result S)
  (s : S) : Result S :=
  forEachFrom 0 l f s.

(** ** JavaScript objects keyed by strings *)

Definition JsObj (V : Type) : Type := list (string * V).

Fixpoint obj_get {V} (k : string) (o : JsObj V) : option V :=
  match o with
  | [] => None
  | (k', v) :: o' => if String.eqb k k' then Some v else obj_get k o'
  end.

Fixpoint obj_set {V} (k : string) (v : V) (o : JsObj V) : JsObj V :=
  match o with
  | [] => [(k, v)]
  | (k', v') :: o' =>
      if String.eqb k k' then (k', v) :: o' else (k', v') :: obj_set k v o'
  end.

Definition obj_keys {V} (o : JsObj V) : list string := map fst o.

(** [Object.values(o)]: the values in key order. *)
Definition obj_values {V} (o : JsObj V) : list V := map snd o.

(** ** Numbers and strings *)

(** [n.toString()] for a non-negative integer. *)
Definition toString (n : Z) : string :=
  NilZero.string_of_uint (N.to_uint (Z.to_N n)).

Fixpoint repeat_string (n : nat) (c : ascii) : string :=
  match n with
  | O => EmptyString
  | Datatypes.S n' => String c (repeat_string n' c)
  end.

(** [s.padStart(n, c)] for a one-character filler. *)
Definition padStart (n : nat) (c : ascii) (s : string) : string :=
  (repeat_string (n - String.length s) c ++ s)%string.

Definition is_digit (c : ascii) : bool :=
  let n := nat_of_ascii c in (48 <=? n)%nat && (n <=? 57)%nat.

Definition digit_value (c : ascii) : Z := Z.of_nat (nat_of_ascii c) - 48.

Fixpoint digits_value (acc : Z) (s : string) : option Z :=
  match s with
  | EmptyString => Some acc
  | String c s' =>
      if is_digit c then digits_value (10 * acc + digit_value c) s' else None
  end.

(** [Number(s)] on a non-empty string of decimal digits; other strings are
    outside the modelled inputs ([None]). *)
Definition jsNumber (s : string) : option Z :=
  match s with
  | EmptyString => None
  | _ => digits_value 0 s
  end.

(** [s.split(sep)] for a one-character separator. *)
Fixpoint split_on (sep : ascii) (cur : string) (s : string) : list string :=
  match s with
  | EmptyString => [cur]
  | String c s' =>
      if Ascii.eqb c sep then cur :: split_on sep EmptyString s'
      else split_on sep (cur ++ String c EmptyString)%string s'
  end.

Definition js_split (sep : ascii) (s : string) : list string :=
  split_on sep EmptyString s.

(** [const [hour, minute] = time.split(':').map(Number)]. *)
Definition parseClock (time : string) : option (Z * Z) :=
  match js_split ":" time with
  | h :: m :: _ =>
      match jsNumber h, jsNumber m with
      | Some hour, Some minute => Some (hour, minute)
      | _, _ => None
      end
  | _ => None
  end.

(** [s.includes(t)]. *)
Fixpoint includes (t s : string) : bool :=
  String.prefix t s ||
  match s with
  | EmptyString => false
  | String _ s' => includes t s'
  end.

(** [arr.slice(0, n)], with JavaScript's reading of a negative end. *)
Definition slice0 {A} (n : Z) (l : list A) : list A :=
  if n <? 0 then firstn (Z.to_nat (Z.of_nat (List.length l) + n)) l
  else firstn (Z.to_nat n) l.

(** ** Generator configuration *)

Module Parameters.
Record t : Type := {
  classrooms : Z;
  batches : Z;
  subjects : Z;
  maxClasses : Z;
  frequency : Z;
  faculty : Z;
  leaveRequests : Z;
  algorithm : string;
  startTime : string;
  endTime : string;
  workingDays : list string
}.
End Parameters.

Module CourseData.
Record t : Type := {
  subjects : list string;
  faculty : list string
}.
End CourseData.

(** ** Slot grid builder *)

(** The label of the hourly slot that starts at [minutes]. *)
Definition timeSlot (minutes : Z) : string :=
  let currentHour := minutes / 60 in
  let currentMinute := Z.rem minutes 60 in
  let nextHour := (minutes + 60) / 60 in
  let nextMinute := Z.rem (minutes + 60) 60 in
  (padStart 2 "0" (toString currentHour) ++ ":" ++
   padStart 2 "0" (toString currentMinute) ++ "-" ++
   padStart 2 "0" (toString nextHour) ++ ":" ++
   padStart 2 "0" (toString nextMinute))%string.

(** The [for] loop of [generateTimeSlots]: [minutes] is the loop variable,
    [slots] the array built so far. *)
Equations? generateTimeSlots_loop (maxClasses endTotalMinutes minutes : Z)
  (slots : list string) : list string
  by wf (Z.to_nat (endTotalMinutes - minutes)) lt :=
  generateTimeSlots_loop maxClasses endTotalMinutes minutes slots
    with Z_lt_dec minutes endTotalMinutes => {
    | right _ := slots;
    | left _ with Z_lt_dec (Z.of_nat (List.length slots)) maxClasses => {
      | right _ := slots;
      | left _ :=
          generateTimeSlots_loop maxClasses endTotalMinutes (minutes + 60)
            (slots ++ [timeSlot minutes]) } }.
Proof. lia. Qed.

Definition generateTimeSlots (p : Parameters.t)
  (startTime endTime : string) : option (list string) :=
  match parseClock startTime, parseClock endTime with
  | Some (startHour, startMinute), Some (endHour, endMinute) =>
      let startTotalMinutes := startHour * 60 + startMinute in
      let endTotalMinutes := endHour * 60 + endMinute in
      Some (generateTimeSlots_loop (Parameters.maxClasses p) endTotalMinutes
              startTotalMinutes [])
  | _, _ => None
  end.


(** ** Data model *)

(** A string-valued property; [None] is [undefined] (an array read out of
    range, a missing key). *)
Definition JsString : Type := option string.

Definition jsstring_eqb (a b : JsString) : bool :=
  match a, b with
  | Some x, Some y => String.eqb x y
  | None, None => true
  | _, _ => false
  end.

(** The text a template literal or a property key makes of the value. *)
Definition jsstring_text (a : JsString) : string :=
  match a with
  | Some x => x
  | None => "undefined"
  end.

Module ClassInfo.
Record t : Type := {
  subject : JsString;
  faculty : JsString;
  room : JsString;
  color : JsString
}.
End ClassInfo.

(** What a schedule holds at a slot: [ClassInfo | null], or [undefined]
    when the key is missing or was written with an undefined value. *)
Inductive Cell : Type :=
| CUndefined
| CNull
| CClass (c : ClassInfo.t).

Definition truthy (c : Cell) : bool :=
  match c with
  | CClass _ => true
  | _ => false
  end.

Definition DaySchedule : Type := JsObj Cell.
Definition Schedule : Type := JsObj DaySchedule.

Module Batch.
Record t : Type := {
  id : Z;
  name : string;
  schedule : Schedule
}.
End Batch.

Inductive ConflictType : Type := faculty_conflict | room_conflict.
Inductive Severity : Type := high | medium.

Module Conflict.
Record t : Type := {
  type : ConflictType;
  description : string;
  details : string;
  day : string;
  slot : string;
  batches : nat * nat;
  faculty : JsString;   (* present on faculty conflicts *)
  room : JsString;      (* present on room conflicts *)
  severity : Severity
}.
End Conflict.

Module Timetable.
Record t : Type := {
  batches : list Batch.t;
  fitness : option Q;
  conflicts : option (list Conflict.t);
  algorithm : option string
}.
End Timetable.

(** The candidate handed to the constraint checker. *)
Module Assignment.
Record t : Type := {
  subject : JsString;
  faculty : JsString;
  room : JsString;
  batch : Z;
  day : string;
  slot : string
}.
End Assignment.

Record TimetableGenerator : Type := {
  courseData : CourseData.t;
  parameters : Parameters.t;
  timeSlots : list string;
  days : list string;
  rooms : list string;
  subjectColors : JsObj string
}.

(** [day[slot]]. *)
Definition day_get (d : DaySchedule) (slot : string) : Cell :=
  match obj_get slot d with
  | Some c => c
  | None => CUndefined
  end.

(** [schedule[day][slot]]; throws when [schedule[day]] is undefined. *)
Definition schedule_get (s : Schedule) (day slot : string) : Result Cell :=
  match obj_get day s with
  | Some d => Ok (day_get d slot)
  | None => TypeError
  end.

(** [schedule[day][slot] = v]. *)
Definition schedule_set (s : Schedule) (day slot : string) (v : Cell)
  : Result Schedule :=
  match obj_get day s with
  | Some d => Ok (obj_set day (obj_set slot v d) s)
  | None => TypeError
  end.

(** [arr[i]] for an integer index. *)
Definition arr_get {A} (l : list A) (i : Z) : option A :=
  if i <? 0 then None else nth_error l (Z.to_nat i).

(** [arr[i % m]]: the remainder takes the sign of [i], and is [NaN] when
    [m] is zero. *)
Definition arr_get_rem {A} (l : list A) (i m : Z) : option A :=
  if m =? 0 then None else arr_get l (Z.rem i m).

(** [arr[i] = x] for an index in range. *)
Fixpoint arr_set {A} (l : list A) (i : nat) (x : A) : list A :=
  match l, i with
  | [], _ => []
  | _ :: l', O => x :: l'
  | y :: l', Datatypes.S i' => y :: arr_set l' i' x
  end.

(** ** Constraint checker *)

Fixpoint isValidAssignment_loop (bs : list Batch.t) (assignment : Assignment.t)
  : Result bool :=
  match bs with
  | [] => Ok true
  | batch :: rest =>
      if Batch.id batch =? Assignment.batch assignment
      then isValidAssignment_loop rest assignment
      else
        existingClass <- schedule_get (Batch.schedule batch)
                           (Assignment.day assignment)
                           (Assignment.slot assignment) ;;
        match existingClass with
        | CClass c =>
            if jsstring_eqb (ClassInfo.faculty c) (Assignment.faculty assignment)
            then Ok false
            else if jsstring_eqb (ClassInfo.room c) (Assignment.room assignment)
            then
              match Assignment.room assignment with
              | Some r =>
                  if negb (includes "Lab" r) then Ok false
                  else isValidAssignment_loop rest assignment
              | None => TypeError
              end
            else isValidAssignment_loop rest assignment
        | _ => isValidAssignment_loop rest assignment
        end
  end.

Definition isValidAssignment (timetable : Timetable.t)
  (assignment : Assignment.t) : Result bool :=
  isValidAssignment_loop (Timetable.batches timetable) assignment.

(** ** Conflict detector *)

Definition facultyConflict (day slot : string) (batchIndex otherBatchIndex : nat)
  (class1 : ClassInfo.t) : Conflict.t :=
  {| Conflict.type := faculty_conflict;
     Conflict.description :=
       ("Faculty " ++ jsstring_text (ClassInfo.faculty class1)
        ++ " assigned to multiple batches")%string;
     Conflict.details :=
       (day ++ " " ++ slot ++ ": Batch " ++ toString (Z.of_nat batchIndex + 1)
        ++ " and Batch " ++ toString (Z.of_nat otherBatchIndex + 1))%string;
     Conflict.day := day;
     Conflict.slot := slot;
     Conflict.batches := (batchIndex, otherBatchIndex);
     Conflict.faculty := ClassInfo.faculty class1;
     Conflict.room := None;
     Conflict.severity := high |}.

Definition roomConflict (day slot : string) (batchIndex otherBatchIndex : nat)
  (class1 class2 : ClassInfo.t) : Conflict.t :=
  {| Conflict.type := room_conflict;
     Conflict.description :=
       ("Room " ++ jsstring_text (ClassInfo.room class1)
        ++ " double-booked")%string;
     Conflict.details :=
       (day ++ " " ++ slot ++ ": " ++ jsstring_text (ClassInfo.subject class1)
        ++ " and " ++ jsstring_text (ClassInfo.subject class2))%string;
     Conflict.day := day;
     Conflict.slot := slot;
     Conflict.batches := (batchIndex, otherBatchIndex);
     Conflict.faculty := None;
     Conflict.room := ClassInfo.room class1;
     Conflict.severity := medium |}.

(** The body of the inner [timetable.batches.forEach]: [class1] of batch
    [batchIndex] against the same coordinate of [otherBatch]. *)
Definition detectConflicts_pair (day slot : string) (batchIndex : nat)
  (class1 : ClassInfo.t) (conflicts : list Conflict.t)
  (otherBatchIndex : nat) (otherBatch : Batch.t) : Result (list Conflict.t) :=
  if Nat.eqb batchIndex otherBatchIndex then Ok conflicts
  else
    class2 <- schedule_get (Batch.schedule otherBatch) day slot ;;
    match class2 with
    | CClass class2 =>
        let conflicts :=
          if jsstring_eqb (ClassInfo.faculty class1) (ClassInfo.faculty class2)
          then conflicts ++ [facultyConflict day slot batchIndex otherBatchIndex class1]
          else conflicts in
        if jsstring_eqb (ClassInfo.room class1) (ClassInfo.room class2)
        then
          match ClassInfo.room class1 with
          | Some r =>
              if negb (includes "Lab" r)
              then Ok (conflicts ++
                       [roomConflict day slot batchIndex otherBatchIndex class1 class2])
              else Ok conflicts
          | None => TypeError
          end
        else Ok conflicts
    | _ => Ok conflicts
    end.

Definition detectConflicts_slot (timetable : Timetable.t) (batchIndex : nat)
  (batch : Batch.t) (day : string) (conflicts : list Conflict.t)
  (slot : string) : Result (list Conflict.t) :=
  class1 <- schedule_get (Batch.schedule batch) day slot ;;
  match class1 with
  | CClass class1 =>
      forEachIndexed (Timetable.batches timetable)
        (detectConflicts_pair day slot batchIndex class1) conflicts
  | _ => Ok conflicts
  end.

Definition detectConflicts_day (timetable : Timetable.t) (batchIndex : nat)
  (batch : Batch.t) (conflicts : list Conflict.t) (day : string)
  : Result (list Conflict.t) :=
  match obj_get day (Batch.schedule batch) with
  | Some daySchedule =>
      forEach (obj_keys daySchedule)
        (detectConflicts_slot timetable batchIndex batch day) conflicts
  | None => TypeError
  end.

Definition detectConflicts (timetable : Timetable.t) : Result (list Conflict.t) :=
  forEachIndexed (Timetable.batches timetable)
    (fun conflicts batchIndex batch =>
       forEach (obj_keys (Batch.schedule batch))
         (detectConflicts_day timetable batchIndex batch) conflicts)
    [].

(** ** Fitness evaluator *)

Fixpoint calculateGapPenalty_loop (daySchedule : list Cell) (inSequence : bool)
  (penalty : Z) : Z :=
  match daySchedule with
  | [] => penalty
  | c :: rest =>
      if truthy c then calculateGapPenalty_loop rest true penalty
      else if inSequence then
        (* the inner scan for a class after the gap *)
        let hasClassesAfter := existsb truthy rest in
        if hasClassesAfter then calculateGapPenalty_loop rest inSequence (penalty + 2)
        else calculateGapPenalty_loop rest inSequence penalty
      else calculateGapPenalty_loop rest inSequence penalty
  end.

Definition calculateGapPenalty (daySchedule : list Cell) : Z :=
  calculateGapPenalty_loop daySchedule false 0.

(** [subjectCounts[slot.subject] = (subjectCounts[slot.subject] || 0) + 1],
    guarded by [slot && slot.subject]. *)
Definition countSubject (subjectCounts : JsObj Z) (slot : Cell) : JsObj Z :=
  match slot with
  | CClass c =>
      match ClassInfo.subject c with
      | Some s =>
          if String.eqb s "" then subjectCounts
          else
            let old := match obj_get s subjectCounts with
                       | Some n => n
                       | None => 0
                       end in
            obj_set s (old + 1) subjectCounts
      | None => subjectCounts
      end
  | _ => subjectCounts
  end.

Definition subjectCounts (timetable : Timetable.t) : JsObj Z :=
  fold_left
    (fun counts batch =>
       fold_left
         (fun counts day => fold_left countSubject (obj_values day) counts)
         (obj_values (Batch.schedule batch)) counts)
    (Timetable.batches timetable) [].

Definition Qsum (l : list Q) : Q := fold_left Qplus l 0%Q.

Definition mean (counts : list Q) : Q :=
  (Qsum counts / inject_Z (Z.of_nat (List.length counts)))%Q.

Definition variance (counts : list Q) : Q :=
  (fold_left (fun acc count => acc + (count - mean counts) ^ 2) counts 0
   / inject_Z (Z.of_nat (List.length counts)))%Q.

Definition calculateSubjectDistribution (timetable : Timetable.t) : Q :=
  let counts := map inject_Z (obj_values (subjectCounts timetable)) in
  match counts with
  | [] => 0%Q
  | _ => Qmax 0 (15 - variance counts)
  end.

(** The three running totals of [calculateFitness]. *)
Record Tally : Type := {
  filledSlots : Z;
  totalSlots : Z;
  gapPenalty : Z
}.

Definition tally_day (g : TimetableGenerator) (acc : Tally) (day : DaySchedule)
  : Tally :=
  let daySlots := obj_values day in
  let daySchedule :=
    map (day_get day)
        (slice0 (Parameters.maxClasses (parameters g)) (timeSlots g)) in
  {| totalSlots := totalSlots acc + Z.of_nat (List.length daySlots);
     filledSlots :=
       filledSlots acc + Z.of_nat (List.length (filter truthy daySlots));
     gapPenalty := gapPenalty acc + calculateGapPenalty daySchedule |}.

Definition tally (g : TimetableGenerator) (timetable : Timetable.t) : Tally :=
  fold_left
    (fun acc batch => fold_left (tally_day g) (obj_values (Batch.schedule batch)) acc)
    (Timetable.batches timetable)
    {| filledSlots := 0; totalSlots := 0; gapPenalty := 0 |}.

Definition fillRatio (t : Tally) : Q :=
  if totalSlots t >? 0
  then (inject_Z (filledSlots t) / inject_Z (totalSlots t))%Q
  else 0%Q.

(** [a < b] on numbers. *)
Definition Qlt_bool (a b : Q) : bool := negb (Qle_bool b a).

Definition optimalUtilization : Q := 85 # 100.

Definition utilizationScore (fillRatio : Q) : Q :=
  if Qle_bool fillRatio optimalUtilization
  then (fillRatio * 50)%Q
  else (optimalUtilization * 50 - (fillRatio - optimalUtilization) * 20)%Q.

Definition calculateFitness (g : TimetableGenerator) (timetable : Timetable.t)
  : Result Q :=
  conflicts <- detectConflicts timetable ;;
  let fitness := 100%Q in
  let fitness := (fitness - inject_Z (Z.of_nat (List.length conflicts)) * 25)%Q in
  let t := tally g timetable in
  let fillRatio := fillRatio t in
  let fitness := (fitness + utilizationScore fillRatio)%Q in
  let fitness := (fitness - inject_Z (gapPenalty t) * 5)%Q in
  let subjectDistribution := calculateSubjectDistribution timetable in
  let fitness := (fitness + subjectDistribution * 8)%Q in
  let fitness :=
    if Qlt_bool (8 # 10) fillRatio
    then (fitness + (fillRatio - (8 # 10)) * 100)%Q
    else fitness in
  Ok (Qmax 0 fitness).

(** ** Schedule construction *)

Definition generateSubjectColors (subjects : list string) : JsObj string :=
  let colors :=
    ["#3B82F6"; "#EF4444"; "#10B981"; "#F59E0B"; "#8B5CF6";
     "#EC4899"; "#06B6D4"; "#84CC16"; "#F97316"; "#6366F1";
     "#14B8A6"; "#F43F5E"; "#8B5A2B"; "#059669"; "#7C3AED"] in
  snd (fold_left
         (fun '(index, colorMap) subject =>
            (Datatypes.S index,
             obj_set subject (nth (index mod 15) colors "") colorMap))
         subjects (O, [])).

(** The constructor; [None] when the times are not of the decimal
    ["HH:MM"] shape that [parseClock] models. *)
Definition newTimetableGenerator (courseData : CourseData.t)
  (parameters : Parameters.t) : option TimetableGenerator :=
  match generateTimeSlots parameters (Parameters.startTime parameters)
          (Parameters.endTime parameters) with
  | Some slots =>
      Some {| courseData := courseData;
              parameters := parameters;
              days := Parameters.workingDays parameters;
              rooms := ["Room-101"; "Room-102"; "Room-103"; "Lab-A"; "Lab-B";
                        "Hall-1"; "Hall-2"; "Auditorium"];
              timeSlots := slots;
              subjectColors :=
                generateSubjectColors (CourseData.subjects courseData) |}
  | None => None
  end.

(** The slots of one day of the grid: [timeSlots.slice(0, maxClasses)]. *)
Definition gridSlots (g : TimetableGenerator) : list string :=
  slice0 (Parameters.maxClasses (parameters g)) (timeSlots g).

Definition emptyDay (g : TimetableGenerator) : DaySchedule :=
  fold_left (fun day slot => obj_set slot CNull day) (gridSlots g) [].

(** [batch.schedule[day] = {}] followed by the nulls of that day. *)
Definition emptySchedule (g : TimetableGenerator) : Schedule :=
  fold_left (fun schedule day => obj_set day (emptyDay g) schedule) (days g) [].

Definition createEmptyTimetable (g : TimetableGenerator) : Timetable.t :=
  {| Timetable.batches :=
       map (fun b =>
              {| Batch.id := Z.of_nat b;
                 Batch.name := ("Batch " ++ toString (Z.of_nat b + 1))%string;
                 Batch.schedule := emptySchedule g |})
           (seq 0 (Z.to_nat (Parameters.batches (parameters g))));
     Timetable.fitness := None;
     Timetable.conflicts := None;
     Timetable.algorithm := None |}.

(** ** Randomised computations *)

(** The values [Math.random()] is going to return, in call order; once the
    list is used up the source keeps returning [0]. *)
Definition Rng : Type := list Q.

Definition Rand (A : Type) : Type := Rng -> Result (A * Rng).

Definition ret {A} (a : A) : Rand A := fun rng => Ok (a, rng).

Definition bindR {A B} (m : Rand A) (k : A -> Rand B) : Rand B :=
  fun rng =>
    match m rng with
    | Ok (a, rng') => k a rng'
    | TypeError => TypeError
    end.

Definition lift {A} (m : Result A) : Rand A :=
  fun rng =>
    match m with
    | Ok a => Ok (a, rng)
    | TypeError => TypeError
    end.

Declare Scope rand_scope.
Delimit Scope rand_scope with rand.
Notation "x <~ m ;; k" := (bindR m (fun x => k))
  (at level 100, m at next level, right associativity) : rand_scope.
Open Scope rand_scope.

(** [Math.random()]. *)
Definition random : Rand Q :=
  fun rng =>
    match rng with
    | [] => Ok (0%Q, [])
    | u :: rng' => Ok (u, rng')
    end.

(** [Math.floor(Math.random() * n)]. *)
Definition randomIndex (n : nat) : Rand Z :=
  u <~ random ;; ret (Qfloor (u * inject_Z (Z.of_nat n))).

Fixpoint forEachR {A S} (l : list A) (f : S -> A -> Rand S) (s : S) : Rand S :=
  match l with
  | [] => ret s
  | x :: l' => s' <~ f s x ;; forEachR l' f s'
  end.

Fixpoint forEachFromR {A S} (i : nat) (l : list A) (f : S -> nat -> A -> Rand S)
  (s : S) : Rand S :=
  match l with
  | [] => ret s
  | x :: l' => s' <~ f s i x ;; forEachFromR (Datatypes.S i) l' f s'
  end.

Definition forEachIndexedR {A S} (l : list A) (f : S -> nat -> A -> Rand S)
  (s : S) : Rand S :=
  forEachFromR 0 l f s.

(** ** Deep copy and in-place updates *)

(** [JSON.parse(JSON.stringify(x))]: a property holding [undefined] is not
    serialised; everything else a timetable holds comes back unchanged. *)
Definition json_day (d : DaySchedule) : DaySchedule :=
  filter (fun kv => match snd kv with CUndefined => false | _ => true end) d.

Definition json_schedule (s : Schedule) : Schedule :=
  map (fun kd => (fst kd, json_day (snd kd))) s.

Definition json_batch (b : Batch.t) : Batch.t :=
  {| Batch.id := Batch.id b;
     Batch.name := Batch.name b;
     Batch.schedule := json_schedule (Batch.schedule b) |}.

Definition json_copy (t : Timetable.t) : Timetable.t :=
  {| Timetable.batches := map json_batch (Timetable.batches t);
     Timetable.fitness := Timetable.fitness t;
     Timetable.conflicts := Timetable.conflicts t;
     Timetable.algorithm := Timetable.algorithm t |}.

Definition with_batches (t : Timetable.t) (bs : list Batch.t) : Timetable.t :=
  {| Timetable.batches := bs;
     Timetable.fitness := Timetable.fitness t;
     Timetable.conflicts := Timetable.conflicts t;
     Timetable.algorithm := Timetable.algorithm t |}.

Definition with_schedule (b : Batch.t) (s : Schedule) : Batch.t :=
  {| Batch.id := Batch.id b; Batch.name := Batch.name b; Batch.schedule := s |}.

(** [t.batches[i]], the batch object the callbacks alias. *)
Definition batch_at (t : Timetable.t) (i : nat) : Result Batch.t :=
  match nth_error (Timetable.batches t) i with
  | Some b => Ok b
  | None => TypeError
  end.

(** [t.batches[i].schedule[day][slot]]. *)
Definition cell_at (t : Timetable.t) (i : nat) (day slot : string) : Result Cell :=
  b <- batch_at t i ;; schedule_get (Batch.schedule b) day slot.

(** [t.batches[i].schedule[day][slot] = v], in place. *)
Definition set_cell (t : Timetable.t) (i : nat) (day slot : string) (v : Cell)
  : Result Timetable.t :=
  b <- batch_at t i ;;
  s <- schedule_set (Batch.schedule b) day slot v ;;
  Ok (with_batches t (arr_set (Timetable.batches t) i (with_schedule b s))).

(** ** Gap-filling optimiser *)

(** The first pass over a batch: [currentFilledSlots] and [emptySlots]. *)
Definition fillGaps_scan (g : TimetableGenerator) (batch : Batch.t)
  : Result (Z * list (string * string)) :=
  forEach (days g)
    (fun acc day =>
       forEach (gridSlots g)
         (fun acc slot =>
            c <- schedule_get (Batch.schedule batch) day slot ;;
            if truthy c then Ok (fst acc + 1, snd acc)
            else Ok (fst acc, snd acc ++ [(day, slot)]))
         acc)
    (0, []).

(** [subjectCounts] of a batch: zero for every subject, then one per class
    whose subject is a key. *)
Definition fillGaps_subjectCounts (g : TimetableGenerator)
  (subjects : list string) (batch : Batch.t) : Result (JsObj Z) :=
  forEach (days g)
    (fun counts day =>
       forEach (timeSlots g)
         (fun counts slot =>
            classInfo <- schedule_get (Batch.schedule batch) day slot ;;
            match classInfo with
            | CClass c =>
                let key := jsstring_text (ClassInfo.subject c) in
                match obj_get key counts with
                | Some n => Ok (obj_set key (n + 1) counts)
                | None => Ok counts
                end
            | _ => Ok counts
            end)
         counts)
    (fold_left (fun counts subject => obj_set subject 0 counts) subjects []).

(** [Math.min(...values)]; [None] is the [Infinity] of an empty list. *)
Definition minOf (values : list Z) : option Z :=
  match values with
  | [] => None
  | v :: vs => Some (fold_left Z.min vs v)
  end.

Definition option_Z_eqb (a b : option Z) : bool :=
  match a, b with
  | Some x, Some y => x =? y
  | None, None => true
  | _, _ => false
  end.

(** [subjects.indexOf(s)]. *)
Fixpoint indexOf_from (i : Z) (subjects : list string) (s : JsString) : Z :=
  match subjects with
  | [] => -1
  | x :: rest =>
      if jsstring_eqb (Some x) s then i else indexOf_from (i + 1) rest s
  end.

Definition indexOf (subjects : list string) (s : JsString) : Z :=
  indexOf_from 0 subjects s.

(** [rooms[id % Math.min(rooms.length, classrooms)]]. *)
Definition roomFor (g : TimetableGenerator) (id : Z) : JsString :=
  arr_get_rem (rooms g) id
    (Z.min (Z.of_nat (List.length (rooms g)))
           (Parameters.classrooms (parameters g))).

Definition classOf (g : TimetableGenerator) (subject faculty room : JsString)
  : Cell :=
  CClass {| ClassInfo.subject := subject;
            ClassInfo.faculty := faculty;
            ClassInfo.room := room;
            ClassInfo.color := obj_get (jsstring_text subject) (subjectColors g) |}.

(** The callback run on one empty slot of batch [i]. *)
Definition fillGaps_fill (g : TimetableGenerator) (subjects : list string)
  (i : nat) (optimized : Timetable.t) (emptySlot : string * string)
  : Rand Timetable.t :=
  batch <~ lift (batch_at optimized i) ;;
  subjectCounts <~ lift (fillGaps_subjectCounts g subjects batch) ;;
  let minCount := minOf (obj_values subjectCounts) in
  let candidateSubjects :=
    filter (fun subject => option_Z_eqb (obj_get subject subjectCounts) minCount)
           subjects in
  k <~ randomIndex (List.length candidateSubjects) ;;
  let selectedSubject := arr_get candidateSubjects k in
  let faculty := CourseData.faculty (courseData g) in
  let assignment :=
    {| Assignment.subject := selectedSubject;
       Assignment.faculty :=
         arr_get_rem faculty (indexOf subjects selectedSubject)
                     (Z.of_nat (List.length faculty));
       Assignment.room := roomFor g (Batch.id batch);
       Assignment.batch := Batch.id batch;
       Assignment.day := fst emptySlot;
       Assignment.slot := snd emptySlot |} in
  valid <~ lift (isValidAssignment optimized assignment) ;;
  if (valid : bool)
  then lift (set_cell optimized i (fst emptySlot) (snd emptySlot)
               (classOf g (Assignment.subject assignment)
                        (Assignment.faculty assignment)
                        (Assignment.room assignment)))
  else ret optimized.

(** The callback of [optimized.batches.forEach] for the batch at index [i]. *)
Definition fillGaps_batch (g : TimetableGenerator) (subjects : list string)
  (optimized : Timetable.t) (i : nat) : Rand Timetable.t :=
  batch <~ lift (batch_at optimized i) ;;
  scan <~ lift (fillGaps_scan g batch) ;;
  let currentFilledSlots := fst scan in
  let emptySlots := snd scan in
  let totalSlots :=
    Z.of_nat (List.length (days g)) * Parameters.maxClasses (parameters g) in
  let maxAllowedClasses := totalSlots - 1 in
  let slotsToFill :=
    Z.min (Z.of_nat (List.length emptySlots))
          (maxAllowedClasses - currentFilledSlots) in
  forEachR (slice0 (Z.max 0 slotsToFill) emptySlots)
           (fillGaps_fill g subjects i) optimized.

(** The updates [fillGaps] makes to its working copy [optimized]. *)
Definition fillGaps_inplace (g : TimetableGenerator) (optimized : Timetable.t)
  : Rand Timetable.t :=
  let subjects :=
    slice0 (Parameters.subjects (parameters g))
           (CourseData.subjects (courseData g)) in
  forEachR (seq 0 (List.length (Timetable.batches optimized)))
           (fillGaps_batch g subjects) optimized.

Definition fillGaps (g : TimetableGenerator) (timetable : Timetable.t)
  : Rand Timetable.t :=
  let optimized := json_copy timetable in
  fillGaps_inplace g optimized.

(** ** Conflict repair *)

(** [{ ...class1, batch, day, slot }]. *)
Definition testAssignment (class1 : Cell) (batch : Z) (day slot : string)
  : Assignment.t :=
  match class1 with
  | CClass c =>
      {| Assignment.subject := ClassInfo.subject c;
         Assignment.faculty := ClassInfo.faculty c;
         Assignment.room := ClassInfo.room c;
         Assignment.batch := batch;
         Assignment.day := day;
         Assignment.slot := slot |}
  | _ =>
      {| Assignment.subject := None;
         Assignment.faculty := None;
         Assignment.room := None;
         Assignment.batch := batch;
         Assignment.day := day;
         Assignment.slot := slot |}
  end.

(** The two nested [for] loops with their [moved] flag: the coordinates are
    tried in day-major order up to the first successful move. *)
Fixpoint resolve_move (optimized : Timetable.t) (conflict : Conflict.t)
  (class1 : Cell) (coords : list (string * string)) : Result Timetable.t :=
  match coords with
  | [] => Ok optimized
  | (day, slot) :: rest =>
      let i := fst (Conflict.batches conflict) in
      here <- cell_at optimized i day slot ;;
      if truthy here then resolve_move optimized conflict class1 rest
      else
        valid <- isValidAssignment optimized
                   (testAssignment class1 (Z.of_nat i) day slot) ;;
        if (valid : bool) then
          o <- set_cell optimized i day slot class1 ;;
          set_cell o i (Conflict.day conflict) (Conflict.slot conflict) CNull
        else resolve_move optimized conflict class1 rest
  end.

Definition resolve_conflict (g : TimetableGenerator) (optimized : Timetable.t)
  (conflict : Conflict.t) : Result Timetable.t :=
  match Conflict.type conflict with
  | faculty_conflict =>
      class1 <- cell_at optimized (fst (Conflict.batches conflict))
                  (Conflict.day conflict) (Conflict.slot conflict) ;;
      class2 <- cell_at optimized (snd (Conflict.batches conflict))
                  (Conflict.day conflict) (Conflict.slot conflict) ;;
      resolve_move optimized conflict class1 (list_prod (days g) (gridSlots g))
  | room_conflict => Ok optimized
  end.

Definition resolveConflictsBySwapping_inplace (g : TimetableGenerator)
  (optimized : Timetable.t) : Result Timetable.t :=
  conflicts <- detectConflicts optimized ;;
  forEach conflicts (resolve_conflict g) optimized.

Definition resolveConflictsBySwapping (g : TimetableGenerator)
  (timetable : Timetable.t) : Result Timetable.t :=
  let optimized := json_copy timetable in
  resolveConflictsBySwapping_inplace g optimized.

(** One turn of the loop of [intensiveGapFilling]. *)
Definition intensiveGapFilling_step (g : TimetableGenerator)
  (optimized : Timetable.t) : Rand Timetable.t :=
  optimized <~ fillGaps g optimized ;;
  lift (resolveConflictsBySwapping g optimized).

Definition intensiveGapFilling (g : TimetableGenerator) (timetable : Timetable.t)
  : Rand Timetable.t :=
  let optimized := json_copy timetable in
  forEachR (seq 0 3) (fun optimized _ => intensiveGapFilling_step g optimized)
           optimized.

(** ** Genetic operators *)

(** [Object.keys(schedule[day])]. *)
Definition keys_of_day (s : Schedule) (day : string) : Result (list string) :=
  match obj_get day s with
  | Some d => Ok (obj_keys d)
  | None => TypeError
  end.


(** [JSON.parse(JSON.stringify(cell))] of a truthy cell. *)
Definition json_cell (c : Cell) : Cell := c.

Definition crossover_slot (parent2 : Timetable.t) (batchIndex : nat)
  (day : string) (offspring : Timetable.t) (slot : string) : Result Timetable.t :=
  parent2Batch <- batch_at parent2 batchIndex ;;
  theirs <- schedule_get (Batch.schedule parent2Batch) day slot ;;
  if truthy theirs then
    ours <- cell_at offspring batchIndex day slot ;;
    if negb (truthy ours)
    then set_cell offspring batchIndex day slot (json_cell theirs)
    else Ok offspring
  else Ok offspring.

Definition crossover_day (g : TimetableGenerator) (parent2 : Timetable.t)
  (batchIndex : nat) (offspring : Timetable.t) (dayIndex : nat) (day : string)
  : Result Timetable.t :=
  (* dayIndex >= this.days.length / 2 *)
  if (List.length (days g) <=? 2 * dayIndex)%nat then
    batch <- batch_at offspring batchIndex ;;
    slots <- keys_of_day (Batch.schedule batch) day ;;
    forEach slots (crossover_slot parent2 batchIndex day) offspring
  else Ok offspring.

Definition crossover_batch (g : TimetableGenerator) (parent2 : Timetable.t)
  (offspring : Timetable.t) (batchIndex : nat) : Result Timetable.t :=
  batch <- batch_at offspring batchIndex ;;
  forEachIndexed (obj_keys (Batch.schedule batch))
    (crossover_day g parent2 batchIndex) offspring.

(** The updates [crossover] makes to [offspring], its copy of [parent1]. *)
Definition crossover_inplace (g : TimetableGenerator) (parent2 : Timetable.t)
  (offspring : Timetable.t) : Result Timetable.t :=
  forEach (seq 0 (List.length (Timetable.batches offspring)))
    (crossover_batch g parent2) offspring.

Definition crossover (g : TimetableGenerator) (parent1 parent2 : Timetable.t)
  : Result Timetable.t :=
  let offspring := json_copy parent1 in
  crossover_inplace g parent2 offspring.

(** [emptySlots] and [filledSlots] of the batch chosen by [mutate]. *)
Definition mutate_scan (batch : Batch.t)
  : Result (list (string * string) * list (string * string)) :=
  forEach (obj_keys (Batch.schedule batch))
    (fun acc day =>
       match obj_get day (Batch.schedule batch) with
       | Some daySchedule =>
           forEach (obj_keys daySchedule)
             (fun acc slot =>
                if truthy (day_get daySchedule slot)
                then Ok (fst acc, snd acc ++ [(day, slot)])
                else Ok (fst acc ++ [(day, slot)], snd acc))
             acc
       | None => TypeError
       end)
    ([], []).

(** [arr[k]] used as a property key: [undefined] reads as that word. *)
Definition key_at (keys : list string) (k : Z) : string :=
  jsstring_text (arr_get keys k).

(** The updates [mutate] makes to the batch it has drawn: a move of a class
    to a free slot when the batch has both, a swap of two slots otherwise. *)
Definition mutate_batch (mutated : Timetable.t) (b : Z) : Rand Timetable.t :=
  match arr_get (Timetable.batches mutated) b with
  | None => lift TypeError
  | Some batch =>
      let i := Z.to_nat b in
      let days := obj_keys (Batch.schedule batch) in
      scan <~ lift (mutate_scan batch) ;;
      let emptySlots := fst scan in
      let filledSlots := snd scan in
      if negb (Nat.eqb (List.length emptySlots) 0)
         && negb (Nat.eqb (List.length filledSlots) 0)
      then
        e <~ randomIndex (List.length emptySlots) ;;
        f <~ randomIndex (List.length filledSlots) ;;
        match arr_get emptySlots e, arr_get filledSlots f with
        | Some randomEmpty, Some randomFilled =>
            lift (moving <- cell_at mutated i (fst randomFilled) (snd randomFilled) ;;
                  m <- set_cell mutated i (fst randomEmpty) (snd randomEmpty) moving ;;
                  set_cell m i (fst randomFilled) (snd randomFilled) CNull)
        | _, _ => lift TypeError
        end
      else
        d1 <~ randomIndex (List.length days) ;;
        d2 <~ randomIndex (List.length days) ;;
        let day1 := key_at days d1 in
        let day2 := key_at days d2 in
        slots1 <~ lift (keys_of_day (Batch.schedule batch) day1) ;;
        slots2 <~ lift (keys_of_day (Batch.schedule batch) day2) ;;
        s1 <~ randomIndex (List.length slots1) ;;
        s2 <~ randomIndex (List.length slots2) ;;
        let slot1 := key_at slots1 s1 in
        let slot2 := key_at slots2 s2 in
        lift (temp <- cell_at mutated i day1 slot1 ;;
              other <- cell_at mutated i day2 slot2 ;;
              m <- set_cell mutated i day1 slot1 other ;;
              set_cell m i day2 slot2 temp)
  end.

(** The updates [mutate] makes to [mutated], its copy of [individual]. *)
Definition mutate_inplace (mutated : Timetable.t) : Rand Timetable.t :=
  b <~ randomIndex (List.length (Timetable.batches mutated)) ;;
  mutate_batch mutated b.

Definition mutate (individual : Timetable.t) : Rand Timetable.t :=
  let mutated := json_copy individual in
  mutate_inplace mutated.

(** ** Constraint-first strategy *)

Definition calculateOptimalClassCount (g : TimetableGenerator) : Z :=
  let totalSlotsPerBatch :=
    Z.of_nat (List.length (days g)) * Parameters.maxClasses (parameters g) in
  let minFreePeriods := 1 in
  let maxClassesPerBatch := totalSlotsPerBatch - minFreePeriods in
  let targetUtilization := (82 # 100)%Q in
  let targetClassesPerBatch :=
    Qfloor (inject_Z totalSlotsPerBatch * targetUtilization) in
  let optimalClassesPerBatch := Z.min targetClassesPerBatch maxClassesPerBatch in
  optimalClassesPerBatch * Parameters.batches (parameters g).

Definition getOptimalSlotOrder (g : TimetableGenerator)
  : list (string * string) :=
  list_prod (days g)
    (firstn (Z.to_nat (Z.min (Z.of_nat (List.length (timeSlots g)))
                             (Parameters.maxClasses (parameters g))))
            (timeSlots g)).

(** An entry of the [assignments] array. *)
Record Request : Type := {
  req_subject : string;
  req_faculty : JsString;
  req_batch : Z;
  req_room : JsString;
  req_priority : Q
}.

(** The [assignments.push] of one [(subject, freq, batch)]. *)
Definition request (g : TimetableGenerator) (subjectIndex : nat)
  (subject : string) (freq batch : Z) : Rand Request :=
  u <~ random ;;
  let faculty := CourseData.faculty (courseData g) in
  ret {| req_subject := subject;
         req_faculty :=
           arr_get_rem faculty (Z.of_nat subjectIndex)
                       (Z.of_nat (List.length faculty));
         req_batch := batch;
         req_room := roomFor g batch;
         req_priority :=
           (u + (if freq <? Parameters.frequency (parameters g)
                 then 1 else 1 # 2))%Q |}.

(** The integers [0, 1, ..., n - 1] of a counting [for] loop. *)
Definition upto (n : Z) : list Z := map Z.of_nat (seq 0 (Z.to_nat n)).

(** The callback of [subjects.forEach]: the two counting loops. *)
Definition requests_subject (g : TimetableGenerator) (actualFrequency : Z)
  (assignments : list Request) (subjectIndex : nat) (subject : string)
  : Rand (list Request) :=
  forEachR (list_prod (upto actualFrequency)
                      (upto (Parameters.batches (parameters g))))
    (fun assignments fb =>
       r <~ request g subjectIndex subject (fst fb) (snd fb) ;;
       ret (assignments ++ [r]))
    assignments.

(** [assignments.sort((a, b) => b.priority - a.priority)]: a stable sort
    by decreasing priority. *)
Fixpoint insert_request (r : Request) (sorted : list Request) : list Request :=
  match sorted with
  | [] => [r]
  | r' :: rest =>
      if Qle_bool (req_priority r) (req_priority r')
      then r' :: insert_request r rest
      else r :: r' :: rest
  end.

Definition sort_requests (assignments : list Request) : list Request :=
  fold_left (fun sorted r => insert_request r sorted) assignments [].

(** The inner [for (const attempt of attempts)] with its [break]. *)
Fixpoint place (timetable : Timetable.t) (assignment : Request)
  (g : TimetableGenerator) (attempts : list (string * string))
  : Result Timetable.t :=
  match attempts with
  | [] => Ok timetable
  | (day, slot) :: rest =>
      match arr_get (Timetable.batches timetable) (req_batch assignment) with
      | None => TypeError
      | Some batch =>
          let i := Z.to_nat (req_batch assignment) in
          here <- schedule_get (Batch.schedule batch) day slot ;;
          if truthy here then place timetable assignment g rest
          else
            valid <- isValidAssignment timetable
                       {| Assignment.subject := Some (req_subject assignment);
                          Assignment.faculty := req_faculty assignment;
                          Assignment.room := req_room assignment;
                          Assignment.batch := req_batch assignment;
                          Assignment.day := day;
                          Assignment.slot := slot |} ;;
            if (valid : bool) then
              set_cell timetable i day slot
                (classOf g (Some (req_subject assignment))
                         (req_faculty assignment) (req_room assignment))
            else place timetable assignment g rest
      end
  end.

Definition finish (g : TimetableGenerator) (name : string) (t : Timetable.t)
  : Result Timetable.t :=
  fitness <- calculateFitness g t ;;
  conflicts <- detectConflicts t ;;
  Ok {| Timetable.batches := Timetable.batches t;
        Timetable.fitness := Some fitness;
        Timetable.conflicts := Some conflicts;
        Timetable.algorithm := Some name |}.

Definition constraintProgramming (g : TimetableGenerator) : Rand Timetable.t :=
  let timetable := createEmptyTimetable g in
  let totalClassesNeeded := calculateOptimalClassCount g in
  let subjects :=
    slice0 (Parameters.subjects (parameters g))
           (CourseData.subjects (courseData g)) in
  let extraFrequency :=
    Qceiling (inject_Z totalClassesNeeded
              / inject_Z (Z.of_nat (List.length subjects)
                          * Parameters.batches (parameters g))) in
  let actualFrequency :=
    Z.max (Parameters.frequency (parameters g)) extraFrequency in
  assignments <~
    forEachIndexedR subjects (requests_subject g actualFrequency) [] ;;
  let assignments := sort_requests assignments in
  timetable <~
    lift (forEach assignments
            (fun timetable assignment =>
               place timetable assignment g (getOptimalSlotOrder g))
            timetable) ;;
  optimizedTimetable <~ fillGaps g timetable ;;
  lift (finish g "constraint" optimizedTimetable).

(** ** The operators on timetable objects held by reference

    The optimiser and the genetic operators receive references to timetable
    objects.  Here every timetable object lives in a store, a [ref] is its
    address, [JSON.parse(JSON.stringify(x))] allocates a new object, and the
    in-place updates of an operator are applied to the object its working
    variable points to. *)

Module Heap.

Definition ref : Type := nat.

Record State : Type := {
  objects : list Timetable.t;
  rng : Rng
}.

Definition Eff (A : Type) : Type := State -> Result (A * State).

Definition pure {A} (a : A) : Eff A := fun st => Ok (a, st).

Definition bindE {A B} (m : Eff A) (k : A -> Eff B) : Eff B :=
  fun st =>
    match m st with
    | Ok (a, st') => k a st'
    | TypeError => TypeError
    end.

(** The object behind a reference. *)
Definition deref (r : ref) : Eff Timetable.t :=
  fun st =>
    match nth_error (objects st) r with
    | Some t => Ok (t, st)
    | None => TypeError
    end.

(** A new object, at an address no existing reference has. *)
Definition alloc (t : Timetable.t) : Eff ref :=
  fun st =>
    Ok (List.length (objects st),
        {| objects := objects st ++ [t]; rng := rng st |}).

(** [JSON.parse(JSON.stringify(r))]. *)
Definition json_clone (r : ref) : Eff ref :=
  bindE (deref r) (fun t => alloc (json_copy t)).

(** Run in-place updates on the object at [r]; the updates may read the
    other objects of the store and draw random numbers. *)
Definition update (r : ref)
  (f : list Timetable.t -> Timetable.t -> Rand Timetable.t) : Eff unit :=
  fun st =>
    match nth_error (objects st) r with
    | Some t =>
        match f (objects st) t (rng st) with
        | Ok (t', rng') =>
            Ok (tt, {| objects := arr_set (objects st) r t'; rng := rng' |})
        | TypeError => TypeError
        end
    | None => TypeError
    end.

Definition fillGaps (g : TimetableGenerator) (timetable : ref) : Eff ref :=
  bindE (json_clone timetable) (fun optimized =>
  bindE (update optimized (fun _ => fillGaps_inplace g)) (fun _ =>
  pure optimized)).

Definition mutate (individual : ref) : Eff ref :=
  bindE (json_clone individual) (fun mutated =>
  bindE (update mutated (fun _ => mutate_inplace)) (fun _ =>
  pure mutated)).

(** [parent2] is only read, through its reference, while [offspring] is
    being written. *)
Definition crossover (g : TimetableGenerator) (parent1 parent2 : ref) : Eff ref :=
  bindE (json_clone parent1) (fun offspring =>
  bindE (update offspring
           (fun objs o =>
              match nth_error objs parent2 with
              | Some p2 => lift (crossover_inplace g p2 o)
              | None => lift TypeError
              end)) (fun _ =>
  pure offspring)).

Definition resolveConflictsBySwapping (g : TimetableGenerator) (timetable : ref)
  : Eff ref :=
  bindE (json_clone timetable) (fun optimized =>
  bindE (update optimized
           (fun _ o => lift (resolveConflictsBySwapping_inplace g o))) (fun _ =>
  pure optimized)).

Fixpoint intensiveGapFilling_loop (g : TimetableGenerator) (iterations : nat)
  (optimized : ref) : Eff ref :=
  match iterations with
  | O => pure optimized
  | Datatypes.S n =>
      bindE (fillGaps g optimized) (fun optimized =>
      bindE (resolveConflictsBySwapping g optimized) (fun optimized =>
      intensiveGapFilling_loop g n optimized))
  end.

Definition intensiveGapFilling (g : TimetableGenerator) (timetable : ref)
  : Eff ref :=
  bindE (json_clone timetable) (fun optimized =>
  intensiveGapFilling_loop g 3 optimized).

End Heap.

(** ** Well-formed timetables *)

(** Every batch has a day object for each working day, in the configured
    order, as [createEmptyTimetable] builds them. *)
Definition grid_ok (g : TimetableGenerator) (t : Timetable.t) : Prop :=
  Forall (fun b => obj_keys (Batch.schedule b) = days g) (Timetable.batches t).

(** A property of every class of a timetable. *)
Definition all_classes (P : ClassInfo.t -> Prop) (t : Timetable.t) : Prop :=
  forall b day d slot c,
    In b (Timetable.batches t) ->
    In (day, d) (Batch.schedule b) ->
    In (slot, CClass c) d ->
    P c.

(** Every class names its room. *)
Definition rooms_ok (t : Timetable.t) : Prop :=
  all_classes (fun c => ClassInfo.room c <> None) t.

(** No property of a schedule holds [undefined]: the timetable is what a
    JSON round trip returns. *)
Definition json_clean (t : Timetable.t) : Prop :=
  forall b day d slot,
    In b (Timetable.batches t) ->
    In (day, d) (Batch.schedule b) ->
    ~ In (slot, CUndefined) d.

(** Objects have each key once. *)
Definition keys_ok (t : Timetable.t) : Prop :=
  forall b, In b (Timetable.batches t) ->
    NoDup (obj_keys (Batch.schedule b)) /\
    forall day d, In (day, d) (Batch.schedule b) -> NoDup (obj_keys d).

(** The values [Math.random] may return. *)
Definition rng_ok (rng : Rng) : Prop :=
  Forall (fun u => (0 <= u)%Q /\ (u < 1)%Q) rng.

(** A computation returns normally, with a result in [P]. *)
Definition returns {A} (m : Result A) (P : A -> Prop) : Prop :=
  exists a, m = Ok a /\ P a.

(** A randomised computation returns normally whatever [Math.random]
    yields, with a result in [P]. *)
Definition returnsR {A} (m : Rand A) (P : A -> Prop) : Prop :=
  forall rng, rng_ok rng ->
    exists a rng', m rng = Ok (a, rng') /\ rng_ok rng' /\ P a.

(** ** Vocabulary of the properties *)

(** A time of day written ["HH:MM"]. *)
Definition isClock (s : string) : bool :=
  match s with
  | String a (String b (String c (String d (String e EmptyString)))) =>
      is_digit a && is_digit b && Ascii.eqb c ":" && is_digit d && is_digit e
  | _ => false
  end.

(** Minutes since midnight, as [generateTimeSlots] computes them. *)
Definition clockMinutes (s : string) : Z :=
  match parseClock s with
  | Some (hour, minute) => hour * 60 + minute
  | None => 0
  end.

(** The number of slots the specification announces: whole hours only. *)
Definition spec_slotCount (p : Parameters.t) (startTime endTime : string) : Z :=
  Z.min (Parameters.maxClasses p)
        ((clockMinutes endTime - clockMinutes startTime) / 60).

(** The number of slots the loop produces: every hour that starts before
    the end time, up to the daily maximum. *)
Definition slotCount (p : Parameters.t) (startTime endTime : string) : nat :=
  Z.to_nat (Z.min (Parameters.maxClasses p)
                  ((clockMinutes endTime - clockMinutes startTime + 59) / 60)).

(** The [k]-th hourly interval from [start]: first minute and end minute. *)
Definition slotInterval (start : Z) (k : nat) : Z * Z :=
  (start + 60 * Z.of_nat k, start + 60 * Z.of_nat k + 60).

Definition parameters_with_maxClasses (maxClasses : Z) : Parameters.t :=
  {| Parameters.classrooms := 5; Parameters.batches := 3;
     Parameters.subjects := 6; Parameters.maxClasses := maxClasses;
     Parameters.frequency := 4; Parameters.faculty := 8;
     Parameters.leaveRequests := 0; Parameters.algorithm := "hybrid";
     Parameters.startTime := "09:00"; Parameters.endTime := "17:00";
     Parameters.workingDays :=
       ["Monday"; "Tuesday"; "Wednesday"; "Thursday"; "Friday"] |}.

(** What makes the checker reject a candidate against a class of another
    batch at the same coordinate. *)
Definition clashes (assignment : Assignment.t) (c : ClassInfo.t) : Prop :=
  ClassInfo.faculty c = Assignment.faculty assignment \/
  (ClassInfo.room c = Assignment.room assignment /\
   exists r, Assignment.room assignment = Some r /\ includes "Lab" r = false).

(** Some batch other than the candidate's holds a clashing class at the
    candidate's coordinate. *)
Definition blocked (timetable : Timetable.t) (assignment : Assignment.t) : Prop :=
  exists batch c,
    In batch (Timetable.batches timetable) /\
    Batch.id batch <> Assignment.batch assignment /\
    schedule_get (Batch.schedule batch) (Assignment.day assignment)
                 (Assignment.slot assignment) = Ok (CClass c) /\
    clashes assignment c.

(** The list the conflict detector builds, written as nested
    comprehensions over the same enumeration. *)
Definition indexed {A} (l : list A) : list (nat * A) :=
  combine (seq 0 (List.length l)) l.

Definition pair_conflicts (day slot : string) (batchIndex : nat)
  (class1 : ClassInfo.t) (other : nat * Batch.t) : list Conflict.t :=
  if Nat.eqb batchIndex (fst other) then []
  else
    match schedule_get (Batch.schedule (snd other)) day slot with
    | Ok (CClass class2) =>
        (if jsstring_eqb (ClassInfo.faculty class1) (ClassInfo.faculty class2)
         then [facultyConflict day slot batchIndex (fst other) class1]
         else [])
        ++
        (if jsstring_eqb (ClassInfo.room class1) (ClassInfo.room class2)
            && negb (includes "Lab" (jsstring_text (ClassInfo.room class1)))
         then [roomConflict day slot batchIndex (fst other) class1 class2]
         else [])
    | _ => []
    end.

Definition slot_conflicts (timetable : Timetable.t) (batchIndex : nat)
  (batch : Batch.t) (day slot : string) : list Conflict.t :=
  match schedule_get (Batch.schedule batch) day slot with
  | Ok (CClass class1) =>
      flat_map (pair_conflicts day slot batchIndex class1)
               (indexed (Timetable.batches timetable))
  | _ => []
  end.

Definition day_conflicts (timetable : Timetable.t) (batchIndex : nat)
  (batch : Batch.t) (day : string) : list Conflict.t :=
  match obj_get day (Batch.schedule batch) with
  | Some d => flat_map (slot_conflicts timetable batchIndex batch day) (obj_keys d)
  | None => []
  end.

Definition batch_conflicts (timetable : Timetable.t) (ib : nat * Batch.t)
  : list Conflict.t :=
  flat_map (day_conflicts timetable (fst ib) (snd ib))
           (obj_keys (Batch.schedule (snd ib))).

Definition conflictsOf (timetable : Timetable.t) : list Conflict.t :=
  flat_map (batch_conflicts timetable) (indexed (Timetable.batches timetable)).

Definition ConflictType_eqb (a b : ConflictType) : bool :=
  match a, b with
  | faculty_conflict, faculty_conflict => true
  | room_conflict, room_conflict => true
  | _, _ => false
  end.

(** The entry reports a collision of kind [kind] between batch [i] and
    batch [j], in this order, at [(day, slot)]. *)
Definition is_report (kind : ConflictType) (i j : nat) (day slot : string)
  (c : Conflict.t) : bool :=
  ConflictType_eqb (Conflict.type c) kind
  && Nat.eqb (fst (Conflict.batches c)) i
  && Nat.eqb (snd (Conflict.batches c)) j
  && String.eqb (Conflict.day c) day
  && String.eqb (Conflict.slot c) slot.

Definition reports (kind : ConflictType) (i j : nat) (day slot : string)
  (cs : list Conflict.t) : nat :=
  List.length (filter (is_report kind i j day slot) cs).

(** Two classes collide: same faculty, or same room that is not a lab. *)
Definition collide (kind : ConflictType) (class1 class2 : ClassInfo.t) : bool :=
  match kind with
  | faculty_conflict =>
      jsstring_eqb (ClassInfo.faculty class1) (ClassInfo.faculty class2)
  | room_conflict =>
      jsstring_eqb (ClassInfo.room class1) (ClassInfo.room class2)
      && negb (includes "Lab" (jsstring_text (ClassInfo.room class1)))
  end.

(** Batches [i] and [j] are distinct and their classes at [(day, slot)]
    collide. *)
Definition collision (kind : ConflictType) (t : Timetable.t) (i j : nat)
  (day slot : string) : bool :=
  negb (Nat.eqb i j) &&
  match cell_at t i day slot, cell_at t j day slot with
  | Ok (CClass class1), Ok (CClass class2) => collide kind class1 class2
  | _, _ => false
  end.

(** The entries of one kind. *)
Definition ofType (kind : ConflictType) (cs : list Conflict.t) : list Conflict.t :=
  filter (fun c => ConflictType_eqb (Conflict.type c) kind) cs.

(** Sample data. *)
Definition classInfo (subject faculty room : string) : ClassInfo.t :=
  {| ClassInfo.subject := Some subject;
     ClassInfo.faculty := Some faculty;
     ClassInfo.room := Some room;
     ClassInfo.color := Some "#3B82F6" |}.

Definition batchOf (id : Z) (schedule : Schedule) : Batch.t :=
  {| Batch.id := id;
     Batch.name := ("Batch " ++ toString (id + 1))%string;
     Batch.schedule := schedule |}.

Definition timetableOf (batches : list Batch.t) : Timetable.t :=
  {| Timetable.batches := batches;
     Timetable.fitness := None;
     Timetable.conflicts := None;
     Timetable.algorithm := None |}.

(** Two batches, one day, one slot, the same teacher in both. *)
Definition sameFaculty : Timetable.t :=
  timetableOf
    [ batchOf 0 [("Monday", [("09:00-10:00",
                              CClass (classInfo "Maths" "Dr. Rao" "Room-101"))])];
      batchOf 1 [("Monday", [("09:00-10:00",
                              CClass (classInfo "Physics" "Dr. Rao" "Room-102"))])] ].

(** The parameters of a request: the counts that matter here, the daily
    time window and the working days. *)
Definition parametersOf (batches subjects maxClasses frequency : Z)
  (startTime endTime : string) (workingDays : list string) : Parameters.t :=
  {| Parameters.classrooms := 5; Parameters.batches := batches;
     Parameters.subjects := subjects; Parameters.maxClasses := maxClasses;
     Parameters.frequency := frequency; Parameters.faculty := 8;
     Parameters.leaveRequests := 0; Parameters.algorithm := "constraint";
     Parameters.startTime := startTime; Parameters.endTime := endTime;
     Parameters.workingDays := workingDays |}.

(** The generator the constructor builds once the slot labels are known. *)
Definition generatorOf (subjects faculty : list string) (p : Parameters.t)
  (slots : list string) : TimetableGenerator :=
  {| courseData := {| CourseData.subjects := subjects; CourseData.faculty := faculty |};
     parameters := p;
     timeSlots := slots;
     days := Parameters.workingDays p;
     rooms := ["Room-101"; "Room-102"; "Room-103"; "Lab-A"; "Lab-B";
               "Hall-1"; "Hall-2"; "Auditorium"];
     subjectColors := generateSubjectColors subjects |}.

(** Two batches, Monday only, one slot from 09:00 to 10:00. *)
Definition oneByOne : TimetableGenerator :=
  generatorOf ["Maths"; "Physics"] ["Dr. Rao"]
              (parametersOf 2 2 1 1 "09:00" "10:00" ["Monday"])
              ["09:00-10:00"].

(** Every entry of a comprehension carries the coordinates it was built
    from. *)
Definition tagged (i : nat) (day slot : option string) (j : option nat)
  (c : Conflict.t) : Prop :=
  fst (Conflict.batches c) = i /\
  (forall d, day = Some d -> Conflict.day c = d) /\
  (forall s, slot = Some s -> Conflict.slot c = s) /\
  (forall k, j = Some k -> snd (Conflict.batches c) = k).

(** The occurrence counts [calculateSubjectDistribution] averages. *)
Definition subjectCountList (t : Timetable.t) : list Q :=
  map inject_Z (obj_values (subjectCounts t)).

(** The distribution score as the code computes it: nothing when no class
    with a named subject is placed. *)
Definition distributionScore (counts : list Q) : Q :=
  match counts with
  | [] => 0%Q
  | _ => Qmax 0 (15 - variance counts)
  end.

(** The scores in the words of the specification. *)
Definition spec_utilizationScore (r : Q) : Q :=
  if Qle_bool r (85 # 100) then (50 * r)%Q
  else ((85 # 100) * 50 - (r - (85 # 100)) * 20)%Q.


Definition spec_bonus (r : Q) : Q := (Qmax 0 (r - (8 # 10)) * 100)%Q.


(** The same formula with the distribution score of the code. *)
Definition fitness_formula (conflictCount : nat) (r : Q) (gapPenalty : Z)
  (counts : list Q) : Q :=
  Qmax 0 (100 - 25 * inject_Z (Z.of_nat conflictCount)
          + spec_utilizationScore r
          - 5 * inject_Z gapPenalty
          + 8 * distributionScore counts
          + spec_bonus r)%Q.




(** A day whose first [n] slots hold [c] and whose other slots are free. *)
Definition dayOf (slots : list string) (n : nat) (c : ClassInfo.t) : DaySchedule :=
  map (fun slot => (slot, CClass c)) (firstn n slots)
  ++ map (fun slot => (slot, CNull)) (skipn n slots).

Definition fiveSlots : list string :=
  ["09:00-10:00"; "10:00-11:00"; "11:00-12:00"; "12:00-13:00"; "13:00-14:00"].

Definition fourDays : list string := ["Monday"; "Tuesday"; "Wednesday"; "Thursday"].

(** One batch, four days of five slots, seventeen classes of one subject
    packed from the first slot of each day: 85% of the grid. *)
Definition seventeenOfTwenty : Timetable.t :=
  let c := classInfo "Maths" "Dr. Rao" "Room-101" in
  timetableOf
    [ batchOf 0 [("Monday", dayOf fiveSlots 5 c);
                 ("Tuesday", dayOf fiveSlots 5 c);
                 ("Wednesday", dayOf fiveSlots 5 c);
                 ("Thursday", dayOf fiveSlots 2 c)] ].

Definition fourByFive : TimetableGenerator :=
  generatorOf ["Maths"] ["Dr. Rao"]
              (parametersOf 1 1 5 4 "09:00" "14:00" fourDays) fiveSlots.

(** The classes a timetable holds, in enumeration order. *)
Definition classesOfDay (d : DaySchedule) : list ClassInfo.t :=
  flat_map (fun kv => match snd kv with CClass c => [c] | _ => [] end) d.

Definition classesOf (t : Timetable.t) : list ClassInfo.t :=
  flat_map (fun b => flat_map (fun kd => classesOfDay (snd kd)) (Batch.schedule b))
           (Timetable.batches t).

(** The part of a timetable that no in-place update changes: the
    identifiers of the batches and the day keys of their schedules. *)
Definition shape (b : Batch.t) : Z * list string :=
  (Batch.id b, obj_keys (Batch.schedule b)).

Definition same_shape (t t' : Timetable.t) : Prop :=
  map shape (Timetable.batches t) = map shape (Timetable.batches t').

(** A cell that is not a class without a room. *)
Definition cell_room_ok (v : Cell) : Prop :=
  match v with
  | CClass c => ClassInfo.room c <> None
  | _ => True
  end.

(** What [crossover] maintains while it updates [offspring]: the classes
    of [parent1] stay where they are, and a coordinate that changed was
    free and now holds the class [parent2] has there. *)
Definition crossover_inv (parent1 parent2 offspring : Timetable.t) : Prop :=
  same_shape parent1 offspring /\
  (forall i day slot c,
     cell_at parent1 i day slot = Ok (CClass c) ->
     cell_at offspring i day slot = Ok (CClass c)) /\
  (forall i day slot,
     cell_at offspring i day slot = cell_at (json_copy parent1) i day slot \/
     exists ours theirs,
       cell_at (json_copy parent1) i day slot = Ok ours /\ truthy ours = false /\
       cell_at parent2 i day slot = Ok theirs /\ truthy theirs = true /\
       cell_at offspring i day slot = Ok theirs).

(** Two parents on a grid of two days and one slot. *)
Definition twoDays : TimetableGenerator :=
  generatorOf ["Maths"; "Physics"] ["Dr. Rao"; "Dr. Iyer"]
              (parametersOf 1 2 1 1 "09:00" "10:00" ["Monday"; "Tuesday"])
              ["09:00-10:00"].

Definition parentA : Timetable.t :=
  timetableOf
    [ batchOf 0
        [("Monday", [("09:00-10:00", CClass (classInfo "Maths" "Dr. Rao" "Room-101"))]);
         ("Tuesday", [("09:00-10:00", CNull)])] ].

Definition parentB : Timetable.t :=
  timetableOf
    [ batchOf 0
        [("Monday", [("09:00-10:00", CClass (classInfo "Physics" "Dr. Iyer" "Room-101"))]);
         ("Tuesday", [("09:00-10:00", CClass (classInfo "Physics" "Dr. Iyer" "Room-101"))])] ].

(** The index [mutate] draws for its batch from the next random number. *)
Definition chosenBatch (t : Timetable.t) (rng : Rng) : nat :=
  Z.to_nat (Qfloor (hd 0%Q rng
                    * inject_Z (Z.of_nat (List.length (Timetable.batches t))))).

(** ** Counting the slots of a batch *)

(** What [batch.schedule[day][slot]] reads on the grid. *)
Definition cell_of (b : Batch.t) (day slot : string) : Cell :=
  match schedule_get (Batch.schedule b) day slot with
  | Ok c => c
  | TypeError => CUndefined
  end.

(** The coordinates of the weekly grid, day-major. *)
Definition gridCoords (g : TimetableGenerator) : list (string * string) :=
  list_prod (days g) (gridSlots g).

Definition filledAt (b : Batch.t) (coord : string * string) : bool :=
  truthy (cell_of b (fst coord) (snd coord)).

(** [currentFilledSlots] and [emptySlots] of the scan of [fillGaps]. *)
Definition filledCount (g : TimetableGenerator) (b : Batch.t) : Z :=
  Z.of_nat (List.length (filter (filledAt b) (gridCoords g))).

Definition emptySlotsOf (g : TimetableGenerator) (b : Batch.t)
  : list (string * string) :=
  filter (fun coord => negb (filledAt b coord)) (gridCoords g).

Definition emptyCount (g : TimetableGenerator) (b : Batch.t) : Z :=
  Z.of_nat (List.length (emptySlotsOf g b)).

(** [totalSlots] of [fillGaps]: [days.length * maxClasses]. *)
Definition totalSlotsInWeek (g : TimetableGenerator) : Z :=
  Z.of_nat (List.length (days g)) * Parameters.maxClasses (parameters g).

(** The number of empty coordinates [fillGaps] may fill in a batch. *)
Definition slotsToFill (g : TimetableGenerator) (b : Batch.t) : Z :=
  Z.max 0 (Z.min (emptyCount g b) (totalSlotsInWeek g - 1 - filledCount g b)).

(** A room exists for every batch: [rooms[id % min(rooms.length,
    classrooms)]] is defined. *)
Definition rooms_available (g : TimetableGenerator) (t : Timetable.t) : Prop :=
  Forall (fun b => roomFor g (Batch.id b) <> None) (Timetable.batches t).

(** What [fillGaps] maintains on its working copy. *)
Definition fill_inv (g : TimetableGenerator) (t0 o : Timetable.t) : Prop :=
  same_shape t0 o /\ rooms_ok o.

(** The batch at an index, for statements about counts. *)
Definition batch_of (t : Timetable.t) (i : nat) : Batch.t :=
  nth i (Timetable.batches t)
      {| Batch.id := 0; Batch.name := ""; Batch.schedule := [] |}.

(** What one pass of [fillGaps] does to the count of a batch: classes are
    only added, and no more of them than [slotsToFill] allows. *)
Definition fill_bounds (g : TimetableGenerator) (b b' : Batch.t) : Prop :=
  filledCount g b <= filledCount g b' <= filledCount g b + slotsToFill g b.

(** The timetables the operators are run on: every batch has the working
    days, every class names its room, and a room exists for every batch. *)
Definition well_formed (g : TimetableGenerator) (t : Timetable.t) : Prop :=
  grid_ok g t /\ rooms_ok t /\ rooms_available g t.


(** Nothing that was in the store has changed. *)
Definition unchanged (st st' : Heap.State) : Prop :=
  forall r t,
    nth_error (Heap.objects st) r = Some t ->
    nth_error (Heap.objects st') r = Some t.

(** [r] is the address of an object created after [st]. *)
Definition fresh (st : Heap.State) (r : Heap.ref) : Prop :=
  nth_error (Heap.objects st) r = None.

(** A call returned [r] in store [st']: a new object holding [result],
    every older object as it was, and [rng'] left of the random numbers. *)
Definition returned (st : Heap.State) (r : Heap.ref) (st' : Heap.State)
  (result : Timetable.t) (rng' : Rng) : Prop :=
  fresh st r /\
  unchanged st st' /\
  nth_error (Heap.objects st') r = Some result /\
  Heap.rng st' = rng'.


(** ** The constraint-first strategy on a single batch *)

(** [subjects] of [constraintProgramming]. *)
Definition requestedSubjects (g : TimetableGenerator) : list string :=
  slice0 (Parameters.subjects (parameters g))
         (CourseData.subjects (courseData g)).

(** [extraFrequency] and [actualFrequency] of [constraintProgramming]: how
    often each subject is requested for each batch. *)
Definition extraFrequency (g : TimetableGenerator) : Z :=
  Qceiling (inject_Z (calculateOptimalClassCount g)
            / inject_Z (Z.of_nat (List.length (requestedSubjects g))
                        * Parameters.batches (parameters g))).

Definition actualFrequency (g : TimetableGenerator) : Z :=
  Z.max (Parameters.frequency (parameters g)) (extraFrequency g).

(** A request for batch 0 that names its room. *)
Definition request_ok (r : Request) : Prop :=
  req_batch r = 0 /\ req_room r <> None.

(** What the placing loop of [constraintProgramming] maintains: the
    timetable keeps the batches and days [createEmptyTimetable] gave it,
    every class names its room and no cell holds [undefined]. *)
Definition place_inv (g : TimetableGenerator) (t : Timetable.t) : Prop :=
  same_shape (createEmptyTimetable g) t /\ rooms_ok t /\ json_clean t.

(** No coordinate of the weekly grid of batch [i] is free. *)
Definition fullWeek (g : TimetableGenerator) (t : Timetable.t) (i : nat) : Prop :=
  emptySlotsOf g (batch_of t i) = [] /\
  filledCount g (batch_of t i) = Z.of_nat (List.length (gridCoords g)).

Definition weekdays : list string :=
  ["Monday"; "Tuesday"; "Wednesday"; "Thursday"; "Friday"].


(** One batch, subjects A, B and C taught by X, five days of one slot, each
    subject asked for once a week. *)
Definition fiveByOne : TimetableGenerator :=
  generatorOf ["A"; "B"; "C"] ["X"]
              (parametersOf 1 3 1 1 "09:00" "10:00" weekdays)
              ["09:00-10:00"].

(** One batch, subjects A and B taught by X, five days of five slots. *)
Definition fiveByFive (frequency : Z) : TimetableGenerator :=
  generatorOf ["A"; "B"] ["X"]
              (parametersOf 1 2 5 frequency "09:00" "14:00" weekdays)
              fiveSlots.

(** ** Vocabulary of the further properties *)

(** The label of the slot that starts at minute [m] has the eleven
    characters of ["HH:MM-HH:MM"] and both its times read back. *)
Definition label_ok (m : Z) : bool :=
  let label := timeSlot m in
  Nat.eqb (String.length label) 11
  && isClock (substring 0 5 label) && isClock (substring 6 5 label)
  && (clockMinutes (substring 0 5 label) =? m)
  && (clockMinutes (substring 6 5 label) =? m + 60).


(** A computation that may throw: when it returns, the result is in [P]. *)
Definition ensures {A} (m : Result A) (P : A -> Prop) : Prop :=
  forall a, m = Ok a -> P a.

Definition ensuresR {A} (m : Rand A) (P : A -> Prop) : Prop :=
  forall rng a rng', m rng = Ok (a, rng') -> P a.

(** The class a cell holds, if any. *)
Definition cls (v : Cell) : list ClassInfo.t :=
  match v with
  | CClass c => [c]
  | _ => []
  end.

(** Batches are numbered by their position, as [createEmptyTimetable]
    numbers them. *)
Definition ids_ok (t : Timetable.t) : Prop :=
  forall i b, nth_error (Timetable.batches t) i = Some b -> Batch.id b = Z.of_nat i.


(** Two batches that collide at a coordinate of [t'] already did in [t]. *)
Definition no_new_collision (t t' : Timetable.t) : Prop :=
  forall kind i j day slot,
    collision kind t' i j day slot = true ->
    collision kind t i j day slot = true.



(** What the in-place updates of the repair and of the optimiser keep of
    the timetable [t] they started from. *)
Definition repair_inv (t o : Timetable.t) : Prop :=
  same_shape t o /\ keys_ok o /\
  Permutation (classesOf o) (classesOf t) /\ no_new_collision t o.



(** Two batches, Monday with two slots; both batches have Dr. Rao in the
    first slot. *)
Definition twoSlots : TimetableGenerator :=
  generatorOf ["Maths"; "Physics"] ["Dr. Rao"]
              (parametersOf 2 2 2 1 "09:00" "11:00" ["Monday"])
              ["09:00-10:00"; "10:00-11:00"].

Definition clashAtNine : Timetable.t :=
  timetableOf
    [ batchOf 0 [("Monday",
                  [("09:00-10:00", CClass (classInfo "Maths" "Dr. Rao" "Room-101"));
                   ("10:00-11:00", CNull)])];
      batchOf 1 [("Monday",
                  [("09:00-10:00", CClass (classInfo "Physics" "Dr. Rao" "Room-102"));
                   ("10:00-11:00", CNull)])] ].



(** ** Selection *)

(** [b.fitness - a.fitness > 0]: entry [b] is to come before entry [a].
    An undefined fitness makes the difference [NaN], which [sort] reads as
    0. *)
Definition fitter (b a : option Q) : bool :=
  match a, b with
  | Some x, Some y => Qlt_bool x y
  | _, _ => false
  end.

(** [arr.sort((a, b) => b.fitness - a.fitness)]: a stable sort by
    decreasing fitness.  (With some fitness undefined and others not the
    comparator is not consistent and the order an engine produces is not
    specified; the entries then stay in insertion order here.) *)
Fixpoint insert_by_fitness {A} (r : A * option Q) (sorted : list (A * option Q))
  : list (A * option Q) :=
  match sorted with
  | [] => [r]
  | e :: rest =>
      if fitter (snd r) (snd e) then r :: e :: rest
      else e :: insert_by_fitness r rest
  end.

Definition sort_by_fitness {A} (entries : list (A * option Q))
  : list (A * option Q) :=
  fold_left (fun sorted r => insert_by_fitness r sorted) entries [].

(** One turn of the [for] loop of [tournamentSelection]. *)
Definition tournament_draw {A} (population : list A) (fitnessScores : list Q)
  (tournament : list (option A * option Q)) : Rand (list (option A * option Q)) :=
  randomIndex <~ randomIndex (List.length population) ;;
  ret (tournament
       ++ [(arr_get population randomIndex, arr_get fitnessScores randomIndex)]).

(** [tournamentSelection(population, fitnessScores)], with the default
    [tournamentSize = 4]; [None] is [undefined]. *)
Definition tournamentSelection {A} (population : list A) (fitnessScores : list Q)
  : Rand (option A) :=
  let tournamentSize := 4%nat in
  tournament <~
    forEachR (seq 0 tournamentSize)
      (fun tournament _ => tournament_draw population fitnessScores tournament)
      [] ;;
  match sort_by_fitness tournament with
  | first :: _ => ret (fst first)
  | [] => lift TypeError
  end.

(** The index [Math.floor(Math.random() * n)] makes of the [k]-th next
    random number. *)
Definition drawn (rng : Rng) (n : nat) (k : nat) : nat :=
  Z.to_nat (Qfloor (nth k rng 0%Q * inject_Z (Z.of_nat n))).

(** The fitness of a tournament entry that has one. *)
Definition fitness_of {A} (e : A * option Q) : Q :=
  match snd e with
  | Some x => x
  | None => 0%Q
  end.

(** ** Initial population *)

(** An entry of the [assignments] array of
    [createOptimizedRandomTimetable]. *)
Record Seed : Type := {
  seed_subject : string;
  seed_faculty : JsString;
  seed_batch : Z;
  seed_room : JsString
}.

(** The [assignments.push] of one [(subject, freq, batch)]: the faculty
    index is drawn first, the room index second. *)
Definition seed (g : TimetableGenerator) (subject : string) (batch : Z)
  : Rand Seed :=
  let faculty := CourseData.faculty (courseData g) in
  facultyIndex <~ randomIndex (List.length faculty) ;;
  u <~ random ;;
  let roomIndex :=
    Qfloor (u * inject_Z (Z.min (Z.of_nat (List.length (rooms g)))
                                (Parameters.classrooms (parameters g)))) in
  ret {| seed_subject := subject;
         seed_faculty := arr_get faculty facultyIndex;
         seed_batch := batch;
         seed_room := arr_get (rooms g) roomIndex |}.

(** The callback of [subjects.forEach]: the two counting loops. *)
Definition seeds_subject (g : TimetableGenerator) (classesPerSubject : Z)
  (assignments : list Seed) (subject : string) : Rand (list Seed) :=
  forEachR (list_prod (upto classesPerSubject)
                      (upto (Parameters.batches (parameters g))))
    (fun assignments fb =>
       s <~ seed g subject (snd fb) ;;
       ret (assignments ++ [s]))
    assignments.

(** The two nested loops over days and slots, with their [break]s: the
    class goes to the first coordinate that holds nothing, whatever the
    other batches hold there. *)
Fixpoint seed_place (timetable : Timetable.t) (assignment : Seed)
  (g : TimetableGenerator) (attempts : list (string * string))
  : Result Timetable.t :=
  match attempts with
  | [] => Ok timetable
  | (day, slot) :: rest =>
      match arr_get (Timetable.batches timetable) (seed_batch assignment) with
      | None => TypeError
      | Some batch =>
          here <- schedule_get (Batch.schedule batch) day slot ;;
          if truthy here then seed_place timetable assignment g rest
          else
            set_cell timetable (Z.to_nat (seed_batch assignment)) day slot
              (classOf g (Some (seed_subject assignment))
                       (seed_faculty assignment) (seed_room assignment))
      end
  end.

(** [targetClassesPerBatch] and [classesPerSubject]; with no subject the
    quotient is not a number, and no loop reads it. *)
Definition targetClassesPerBatch (g : TimetableGenerator) : Z :=
  let totalAvailableSlots :=
    Z.of_nat (List.length (days g)) * Parameters.maxClasses (parameters g) in
  Qfloor (inject_Z totalAvailableSlots * (8 # 10)).

Definition classesPerSubject (g : TimetableGenerator) : Z :=
  let subjects :=
    slice0 (Parameters.subjects (parameters g))
           (CourseData.subjects (courseData g)) in
  Qceiling (inject_Z (targetClassesPerBatch g)
            / inject_Z (Z.of_nat (List.length subjects))).

Definition createOptimizedRandomTimetable (g : TimetableGenerator)
  : Rand Timetable.t :=
  let timetable := createEmptyTimetable g in
  let subjects :=
    slice0 (Parameters.subjects (parameters g))
           (CourseData.subjects (courseData g)) in
  assignments <~
    forEachR subjects (seeds_subject g (classesPerSubject g)) [] ;;
  lift (forEach assignments
          (fun timetable assignment =>
             seed_place timetable assignment g
               (list_prod (days g)
                  (firstn (Z.to_nat
                             (Z.min (Z.of_nat (List.length (timeSlots g)))
                                    (Parameters.maxClasses (parameters g))))
                          (timeSlots g))))
          timetable).

Definition createRandomTimetable (g : TimetableGenerator) : Rand Timetable.t :=
  createOptimizedRandomTimetable g.

(** The classes [createOptimizedRandomTimetable] hands to each batch. *)
Definition seedsPerBatch (g : TimetableGenerator) : nat :=
  (List.length (requestedSubjects g) * Z.to_nat (classesPerSubject g))%nat.

(** Batch [i] holds a class at exactly the first [k i] coordinates of the
    grid and [null] at the others, for every batch of the generator. *)
Definition packing (g : TimetableGenerator) (t : Timetable.t) (k : nat -> nat)
  : Prop :=
  same_shape (createEmptyTimetable g) t /\
  forall i j day slot,
    (i < Z.to_nat (Parameters.batches (parameters g)))%nat ->
    nth_error (gridCoords g) j = Some (day, slot) ->
    exists c,
      cell_at t i day slot = Ok c /\ c <> CUndefined /\
      truthy c = (j <? k i)%nat.

(** Two batches, three subjects, five days of two slots: eight classes a
    week are aimed at, three per subject are handed out. *)
Definition tenSlots : TimetableGenerator :=
  generatorOf ["Maths"; "Physics"; "Chemistry"] ["Dr. Rao"; "Dr. Iyer"]
    (parametersOf 2 3 2 1 "09:00" "11:00" weekdays)
    ["09:00-10:00"; "10:00-11:00"].

(** ** The genetic strategy

    [JSON.parse(JSON.stringify(undefined))] throws (a [SyntaxError]); the
    embedding has one outcome for a thrown exception, written
    [TypeError]. *)


(** [population.map(individual => this.calculateFitness(individual))]. *)
Definition fitnessScores (g : TimetableGenerator) (population : list Timetable.t)
  : Result (list Q) :=
  forEach population
    (fun scores individual =>
       fitness <- calculateFitness g individual ;; Ok (scores ++ [fitness]))
    [].

(** The [{ fitness, index }] entries of the scores. *)
Definition indexedScores (fitnessScores : list Q) : list (nat * option Q) :=
  combine (seq 0 (List.length fitnessScores)) (map Some fitnessScores).














(** ** The hybrid strategy *)

(** [a.fitness - b.fitness < 0]: entry [a] is to come before entry [b]. *)
Fixpoint insert_by_weakness {A} (r : A * option Q) (sorted : list (A * option Q))
  : list (A * option Q) :=
  match sorted with
  | [] => [r]
  | e :: rest =>
      if fitter (snd e) (snd r) then r :: e :: rest
      else e :: insert_by_weakness r rest
  end.

(** [entries.sort((a, b) => a.fitness - b.fitness)]: a stable sort by
    increasing fitness. *)
Definition sort_by_weakness {A} (entries : list (A * option Q))
  : list (A * option Q) :=
  fold_left (fun sorted r => insert_by_weakness r sorted) entries [].

(** The indices of the seven lowest scores. *)
Definition worstIndices (fitnessScores : list Q) : list nat :=
  map fst (firstn 7 (sort_by_weakness (indexedScores fitnessScores))).




(** ** The action *)







(** ** What crossover writes *)

(** What [crossover] makes of a cell it visits: the class of [parent2]
    where the offspring holds nothing, the offspring's own cell
    otherwise. *)
Definition merge_cell (ours theirs : Result Cell) : Result Cell :=
  match ours, theirs with
  | Ok o, Ok t => if truthy t && negb (truthy o) then Ok t else Ok o
  | _, _ => ours
  end.

(** [Object.keys(t.batches[i].schedule)], and nothing when there is no
    such batch. *)
Definition day_keys (t : Timetable.t) (i : nat) : list string :=
  match batch_at t i with
  | Ok batch => obj_keys (Batch.schedule batch)
  | TypeError => []
  end.

(** [Object.keys(t.batches[i].schedule[day])]. *)
Definition slot_keys (t : Timetable.t) (i : nat) (day : string)
  : Result (list string) :=
  batch <- batch_at t i ;; keys_of_day (Batch.schedule batch) day.

(** [slot] is a key of [t.batches[i].schedule[day]]. *)
Definition present (t : Timetable.t) (i : nat) (day slot : string) : bool :=
  match slot_keys t i day with
  | Ok slots => existsb (String.eqb slot) slots
  | TypeError => false
  end.

(** The position of a day among the keys of a schedule. *)
Fixpoint index_of (day : string) (keys : list string) : option nat :=
  match keys with
  | [] => None
  | k :: rest =>
      if String.eqb day k then Some O
      else option_map Datatypes.S (index_of day rest)
  end.

(** The days [crossover] visits: [dayIndex >= this.days.length / 2]. *)
Definition second_half (g : TimetableGenerator) (dayIndex : nat) : bool :=
  (List.length (days g) <=? 2 * dayIndex)%nat.

(** The keys of the two timetables are the same. *)
Definition keys_same (o o' : Timetable.t) : Prop :=
  same_shape o o' /\ forall i day, slot_keys o' i day = slot_keys o i day.

(** [o'] is [o] with the cells of the region [r] merged with those of
    [parent2]. *)
Definition patched (parent2 : Timetable.t) (r : nat -> string -> string -> bool)
  (o o' : Timetable.t) : Prop :=
  keys_same o o' /\
  forall i day slot,
    cell_at o' i day slot
    = if r i day slot
      then merge_cell (cell_at o i day slot) (cell_at parent2 i day slot)
      else cell_at o i day slot.

(** The cells the day loop of batch [i] visits, for the days [keys] that
    start at position [k0]. *)
Definition visited_days (g : TimetableGenerator) (o : Timetable.t) (i k0 : nat)
  (keys : list string) (i' : nat) (day slot : string) : bool :=
  Nat.eqb i' i &&
  match index_of day keys with
  | Some j => second_half g (k0 + j)
  | None => false
  end &&
  present o i day slot.

(** The cells [crossover] visits in the batches [l]. *)
Definition visited (g : TimetableGenerator) (o : Timetable.t) (l : list nat)
  (i : nat) (day slot : string) : bool :=
  existsb (Nat.eqb i) l && visited_days g o i 0 (day_keys o i) i day slot.

Definition is_null (c : Cell) : bool :=
  match c with
  | CNull => true
  | _ => false
  end.

(** A parent with nothing on Monday and Tuesday. *)
Definition parentFree : Timetable.t :=
  timetableOf
    [ batchOf 0
        [("Monday", [("09:00-10:00", CNull)]);
         ("Tuesday", [("09:00-10:00", CNull)])] ].

(** ** The statistics shown after a run

    [calculateUtilizationStats] of the generator form: it is run on the
    timetable the action returned. *)

Module Stats.
Record t : Type := {
  utilization : Q;
  filledSlots : Z;
  totalSlots : Z;
  gapCount : Z
}.
End Stats.

(** The loop over [slotArray]; [foundLast] is never set. *)
Fixpoint countGaps_loop (slotArray : list Cell) (foundFirst : bool)
  (gapCount : Z) : Z :=
  match slotArray with
  | [] => gapCount
  | c :: rest =>
      if truthy c then countGaps_loop rest true gapCount
      else if foundFirst then
        (* the inner scan for a class after the free slot *)
        if existsb truthy rest then countGaps_loop rest foundFirst (gapCount + 1)
        else countGaps_loop rest foundFirst gapCount
      else countGaps_loop rest foundFirst gapCount
  end.

(** The callback run on one day of one batch. *)
Definition stats_day (acc : Z * Z * Z) (day : DaySchedule) : Z * Z * Z :=
  let '(totalSlots, filledSlots, gapCount) := acc in
  let daySlots := obj_values day in
  let slotArray := map (day_get day) (obj_keys day) in
  (totalSlots + Z.of_nat (List.length daySlots),
   filledSlots + Z.of_nat (List.length (filter truthy daySlots)),
   countGaps_loop slotArray false gapCount).

Definition calculateUtilizationStats (timetable : Timetable.t) : Stats.t :=
  let '(totalSlots, filledSlots, gapCount) :=
    fold_left
      (fun acc batch =>
         fold_left stats_day (obj_values (Batch.schedule batch)) acc)
      (Timetable.batches timetable) (0, 0, 0) in
  {| Stats.utilization :=
       if totalSlots >? 0
       then (inject_Z filledSlots / inject_Z totalSlots * 100)%Q
       else 0%Q;
     Stats.filledSlots := filledSlots;
     Stats.totalSlots := totalSlots;
     Stats.gapCount := gapCount |}.

(** Every day of the timetable lists the slots of the grid, in order. *)
Definition slots_ok (g : TimetableGenerator) (t : Timetable.t) : Prop :=
  forall b day d,
    In b (Timetable.batches t) -> In (day, d) (Batch.schedule b) ->
    obj_keys d = gridSlots g.



(** ** The teaching plan *)

(** A randomised computation run on values of [Math.random]: when it
    returns, the result is in [P] and the values left are values of
    [Math.random]. *)
Definition keepsR {A} (m : Rand A) (P : A -> Prop) : Prop :=
  forall rng a rng',
    rng_ok rng -> m rng = Ok (a, rng') -> rng_ok rng' /\ P a.





(** * Properties *)

(** ** Slot grid builder *)

Example generateTimeSlots_three_hours :
  generateTimeSlots (parameters_with_maxClasses 6) "09:00" "12:00"
  = Some ["09:00-10:00"; "10:00-11:00"; "11:00-12:00"].
Proof. reflexivity. Qed.

Lemma is_digit_not_colon (c : ascii) :
  is_digit c = true -> Ascii.eqb c ":" = false.
Proof.
  intros H. destruct (Ascii.eqb c ":") eqn:E; [|reflexivity].
  apply Ascii.eqb_eq in E. subst c. discriminate H.
Qed.

Lemma parseClock_isClock (s : string) :
  isClock s = true -> exists hour minute, parseClock s = Some (hour, minute).
Proof.
  destruct s as [|a [|b [|c [|d [|e [|? ?]]]]]]; cbn [isClock]; try discriminate.
  intros H.
  apply andb_prop in H; destruct H as [H He].
  apply andb_prop in H; destruct H as [H Hd].
  apply andb_prop in H; destruct H as [H Hc].
  apply andb_prop in H; destruct H as [Ha Hb].
  apply Ascii.eqb_eq in Hc. subst c.
  unfold parseClock, js_split. cbn [split_on].
  rewrite (is_digit_not_colon a Ha), (is_digit_not_colon b Hb).
  cbn [Ascii.eqb Bool.eqb split_on String.append].
  rewrite (is_digit_not_colon d Hd), (is_digit_not_colon e He).
  cbn [String.append jsNumber digits_value].
  rewrite Ha, Hb, Hd, He. eauto.
Qed.

Lemma generateTimeSlots_loop_spec (maxClasses endTotal minutes : Z)
  (slots : list string) :
  generateTimeSlots_loop maxClasses endTotal minutes slots
  = slots ++
    map (fun k => timeSlot (minutes + 60 * Z.of_nat k))
        (seq 0 (Z.to_nat (Z.min (maxClasses - Z.of_nat (List.length slots))
                                ((endTotal - minutes + 59) / 60)))).
Proof.
  funelim (generateTimeSlots_loop maxClasses endTotal minutes slots).
  - (* the end time is reached *)
    assert ((endTotalMinutes - minutes + 59) / 60 < 1)
      by (apply Z.div_lt_upper_bound; lia).
    replace (Z.to_nat _) with O by lia. simpl. now rewrite app_nil_r.
  - (* one more turn *)
    match goal with IH : generateTimeSlots_loop _ _ _ _ = _ ++ _ |- _ => rewrite IH end.
    rewrite length_app. simpl List.length.
    replace ((endTotalMinutes - (minutes + 60) + 59) / 60)
      with ((endTotalMinutes - minutes + 59) / 60 - 1)
      by (replace (endTotalMinutes - (minutes + 60) + 59)
            with (endTotalMinutes - minutes + 59 + (-1) * 60) by lia;
          rewrite Z.div_add by lia; lia).
    assert (1 <= (endTotalMinutes - minutes + 59) / 60)
      by (apply Z.div_le_lower_bound; lia).
    set (q := (endTotalMinutes - minutes + 59) / 60) in *. clearbody q.
    replace (Z.to_nat (Z.min (maxClasses - Z.of_nat (List.length slots)) q))
      with (Datatypes.S
              (Z.to_nat (Z.min (maxClasses - Z.of_nat (List.length slots + 1))
                               (q - 1)))) by lia.
    rewrite <- app_assoc. f_equal. cbn [seq map app]. f_equal.
    + f_equal. lia.
    + rewrite <- seq_shift, map_map. apply map_ext. intros k. f_equal. lia.
  - (* the daily maximum is reached *)
    replace (Z.to_nat _) with O by lia. simpl. now rewrite app_nil_r.
Qed.

Lemma generateTimeSlots_returns (p : Parameters.t) (startTime endTime : string) :
  isClock startTime = true -> isClock endTime = true ->
  generateTimeSlots p startTime endTime
  = Some (map (fun k => timeSlot (fst (slotInterval (clockMinutes startTime) k)))
              (seq 0 (slotCount p startTime endTime))).
Proof.
  intros Hs He.
  destruct (parseClock_isClock _ Hs) as (sh & sm & Es).
  destruct (parseClock_isClock _ He) as (eh & em & Ee).
  unfold generateTimeSlots, slotCount, clockMinutes, slotInterval.
  rewrite Es, Ee. rewrite generateTimeSlots_loop_spec.
  cbn [List.length app fst]. now rewrite Z.sub_0_r.
Qed.

(** C2, as the code has it: for times written "HH:MM" the builder returns
    the labels of the hourly intervals that start at the start time and
    follow one another without gap or overlap, one for every hour that
    begins before the end time, up to [maxClasses] of them: their number is
    min(maxClasses, ceil((endMinutes - startMinutes) / 60)), and none when
    the start time is not before the end time. *)
Theorem generateTimeSlots_grid (p : Parameters.t) (startTime endTime : string) :
  isClock startTime = true -> isClock endTime = true ->
  exists slots,
    generateTimeSlots p startTime endTime = Some slots /\
    List.length slots = slotCount p startTime endTime /\
    (forall k, (k < slotCount p startTime endTime)%nat ->
       let iv := slotInterval (clockMinutes startTime) k in
       nth_error slots k = Some (timeSlot (fst iv)) /\
       snd iv - fst iv = 60 /\
       snd iv = fst (slotInterval (clockMinutes startTime) (Datatypes.S k))) /\
    (1 <= Parameters.maxClasses p ->
     clockMinutes startTime < clockMinutes endTime ->
     Z.of_nat (List.length slots)
     = Z.min (Parameters.maxClasses p)
         ((clockMinutes endTime - clockMinutes startTime + 59) / 60)) /\
    (clockMinutes endTime <= clockMinutes startTime -> slots = []).
Proof.
  intros Hs He. eexists. split; [apply generateTimeSlots_returns; assumption|].
  split; [now rewrite length_map, length_seq|]. split; [|split].
  - intros k Hk iv. split; [|split].
    + rewrite nth_error_map, nth_error_seq.
      destruct (Nat.ltb_spec k (slotCount p startTime endTime)); [reflexivity|lia].
    + unfold iv, slotInterval. cbn [fst snd]. lia.
    + unfold iv, slotInterval. cbn [fst snd]. lia.
  - intros Hmax Hlt. rewrite length_map, length_seq. unfold slotCount.
    assert (1 <= (clockMinutes endTime - clockMinutes startTime + 59) / 60)
      by (apply Z.div_le_lower_bound; lia).
    lia.
  - intros Hle.
    assert (Hc : slotCount p startTime endTime = O).
    { unfold slotCount.
      assert ((clockMinutes endTime - clockMinutes startTime + 59) / 60 < 1)
        by (apply Z.div_lt_upper_bound; lia).
      lia. }
    rewrite Hc. reflexivity.
Qed.

Lemma generateTimeSlots_grid_witness :
  exists slots,
    generateTimeSlots (parameters_with_maxClasses 6) "09:00" "11:30" = Some slots /\
    List.length slots = 3%nat.
Proof.
  destruct (generateTimeSlots_grid (parameters_with_maxClasses 6) "09:00" "11:30")
    as (slots & E & L & _); [reflexivity | reflexivity |].
  exists slots. split; [exact E | exact L].
Defined.

(** The count announced for C2 is not the count returned: from 09:00 to
    09:30 the builder returns one slot, 09:00-10:00, where
    min(maxClasses, floor(30 / 60)) is zero. *)
Lemma generateTimeSlots_partial_hour :
  generateTimeSlots (parameters_with_maxClasses 6) "09:00" "09:30"
  = Some ["09:00-10:00"] /\
  isClock "09:00" = true /\ isClock "09:30" = true /\
  spec_slotCount (parameters_with_maxClasses 6) "09:00" "09:30" = 0 /\
  Z.of_nat (List.length ["09:00-10:00"])
  <> spec_slotCount (parameters_with_maxClasses 6) "09:00" "09:30".
Proof. repeat split; try reflexivity. discriminate. Qed.

(** ** Objects, loops and results *)

Lemma jsstring_eqb_eq (a b : JsString) : jsstring_eqb a b = true <-> a = b.
Proof.
  destruct a as [x|], b as [y|]; simpl; try (split; congruence).
  rewrite String.eqb_eq. split; congruence.
Qed.

Lemma jsstring_eqb_neq (a b : JsString) : jsstring_eqb a b = false <-> a <> b.
Proof.
  rewrite <- jsstring_eqb_eq. destruct (jsstring_eqb a b); split; congruence.
Qed.

Lemma obj_get_In {V} (k : string) (o : JsObj V) :
  obj_get k o <> None <-> In k (obj_keys o).
Proof.
  induction o as [|[k' v] o IH]; simpl.
  - split; [congruence | tauto].
  - destruct (String.eqb_spec k k') as [->|Hne].
    + split; [auto | congruence].
    + rewrite IH. split; [auto | intros [E|H]; [congruence | exact H]].
Qed.

Lemma obj_get_Some_In {V} (k : string) (v : V) (o : JsObj V) :
  obj_get k o = Some v -> In (k, v) o.
Proof.
  induction o as [|[k' v'] o IH]; simpl; [discriminate|].
  destruct (String.eqb_spec k k') as [->|Hne].
  - intros [= ->]. now left.
  - intros H. right. auto.
Qed.


Lemma obj_get_set_eq {V} (k : string) (v : V) (o : JsObj V) :
  obj_get k (obj_set k v o) = Some v.
Proof.
  induction o as [|[k' v'] o IH]; simpl.
  - now rewrite String.eqb_refl.
  - destruct (String.eqb_spec k k') as [->|Hne]; simpl.
    + now rewrite String.eqb_refl.
    + destruct (String.eqb_spec k k'); [contradiction | exact IH].
Qed.

Lemma obj_get_set_neq {V} (k k' : string) (v : V) (o : JsObj V) :
  k' <> k -> obj_get k' (obj_set k v o) = obj_get k' o.
Proof.
  intros Hne. induction o as [|[k0 v0] o IH]; simpl.
  - destruct (String.eqb_spec k' k); [contradiction | reflexivity].
  - destruct (String.eqb_spec k k0) as [->|Hk]; simpl.
    + destruct (String.eqb_spec k' k0); [contradiction | reflexivity].
    + destruct (String.eqb_spec k' k0); [reflexivity | exact IH].
Qed.

Lemma obj_keys_set_present {V} (k : string) (v : V) (o : JsObj V) :
  In k (obj_keys o) -> obj_keys (obj_set k v o) = obj_keys o.
Proof.
  induction o as [|[k' v'] o IH]; simpl; [tauto|].
  intros H. destruct (String.eqb_spec k k') as [->|Hne]; simpl.
  - reflexivity.
  - f_equal. apply IH. destruct H; [congruence | assumption].
Qed.

Lemma returns_Ok {A} (a : A) (P : A -> Prop) : P a -> returns (Ok a) P.
Proof. intros H. exists a. auto. Qed.

Lemma returns_bind {A B} (m : Result A) (k : A -> Result B)
  (P : A -> Prop) (Q : B -> Prop) :
  returns m P -> (forall a, P a -> returns (k a) Q) -> returns (bind m k) Q.
Proof. intros (a & -> & Ha) Hk. simpl. auto. Qed.

Lemma returns_weaken {A} (m : Result A) (P Q : A -> Prop) :
  returns m P -> (forall a, P a -> Q a) -> returns m Q.
Proof. intros (a & E & Ha) H. exists a. auto. Qed.

(** A loop whose body returns and keeps an invariant returns and keeps it. *)
Lemma forEach_returns {A S} (I : S -> Prop) (l : list A)
  (f : S -> A -> Result S) (s : S) :
  (forall s x, In x l -> I s -> returns (f s x) I) ->
  I s -> returns (forEach l f s) I.
Proof.
  revert s. induction l as [|x l IH]; intros s Hf Hs; simpl.
  - now apply returns_Ok.
  - apply returns_bind with (P := I).
    + apply Hf; [now left | exact Hs].
    + intros s' Hs'. apply IH; [|exact Hs'].
      intros s0 y Hy. apply Hf. now right.
Qed.

Lemma forEachFrom_returns {A S} (I : S -> Prop) (l : list A) (i : nat)
  (f : S -> nat -> A -> Result S) (s : S) :
  (forall s k x, nth_error l k = Some x -> I s -> returns (f s (i + k)%nat x) I) ->
  I s -> returns (forEachFrom i l f s) I.
Proof.
  revert i s. induction l as [|x l IH]; intros i s Hf Hs; simpl.
  - now apply returns_Ok.
  - apply returns_bind with (P := I).
    + specialize (Hf s O x eq_refl Hs). now rewrite Nat.add_0_r in Hf.
    + intros s' Hs'. apply IH; [|exact Hs'].
      intros s0 k y Hy Hs0. specialize (Hf s0 (Datatypes.S k) y Hy Hs0).
      now rewrite Nat.add_succ_r in Hf.
Qed.

(** ** Constraint checker *)

Lemma isValidAssignment_loop_spec (bs : list Batch.t) (assignment : Assignment.t) :
  (forall batch, In batch bs ->
     Batch.id batch <> Assignment.batch assignment ->
     In (Assignment.day assignment) (obj_keys (Batch.schedule batch))) ->
  Assignment.room assignment <> None ->
  exists verdict,
    isValidAssignment_loop bs assignment = Ok verdict /\
    (verdict = false <->
     exists batch c,
       In batch bs /\
       Batch.id batch <> Assignment.batch assignment /\
       schedule_get (Batch.schedule batch) (Assignment.day assignment)
                    (Assignment.slot assignment) = Ok (CClass c) /\
       clashes assignment c).
Proof.
  intros Hgrid Hroom. induction bs as [|batch rest IH].
  - exists true. split; [reflexivity|].
    split; [discriminate | intros (b & c & [] & _)].
  - destruct IH as (v & Ev & Hv).
    { intros b Hb. apply Hgrid. now right. }
    assert (Hrest : forall b c,
               In b rest /\ Batch.id b <> Assignment.batch assignment /\
               schedule_get (Batch.schedule b) (Assignment.day assignment)
                 (Assignment.slot assignment) = Ok (CClass c) /\
               clashes assignment c ->
               v = false) by (intros b c H; apply Hv; eauto).
    cbn [isValidAssignment_loop].
    destruct (Z.eqb_spec (Batch.id batch) (Assignment.batch assignment)) as [Eid|Nid].
    + exists v. split; [exact Ev|]. split.
      * intros H. apply Hv in H. destruct H as (b & c & Hb & H).
        exists b, c. split; [now right | exact H].
      * intros (b & c & [<-|Hb] & Hid & H); [contradiction|eauto].
    + specialize (Hgrid batch (or_introl eq_refl) Nid).
      apply obj_get_In in Hgrid. unfold schedule_get at 1.
      destruct (obj_get (Assignment.day assignment) (Batch.schedule batch))
        as [d|] eqn:Ed; [|congruence].
      cbn [bind].
      assert (Hhere : schedule_get (Batch.schedule batch)
                        (Assignment.day assignment) (Assignment.slot assignment)
                      = Ok (day_get d (Assignment.slot assignment)))
        by (unfold schedule_get; now rewrite Ed).
      destruct (day_get d (Assignment.slot assignment)) as [| |c] eqn:Ec.
      1,2: exists v; split; [exact Ev|]; split;
        [ intros H; apply Hv in H; destruct H as (b & c & Hb & H);
          exists b, c; split; [now right | exact H]
        | intros (b & c & [<-|Hb] & Hid & Hc & H); [congruence | eauto] ].
      destruct (jsstring_eqb (ClassInfo.faculty c) (Assignment.faculty assignment))
        eqn:Ef.
      { exists false. split; [reflexivity|]. split; [|reflexivity].
        intros _. exists batch, c.
        split; [now left|]. split; [exact Nid|]. split; [exact Hhere|].
        left. now apply jsstring_eqb_eq. }
      destruct (jsstring_eqb (ClassInfo.room c) (Assignment.room assignment))
        eqn:Er.
      * destruct (Assignment.room assignment) as [r|] eqn:Eroom; [|congruence].
        destruct (includes "Lab" r) eqn:El; cbn [negb].
        -- exists v. split; [exact Ev|]. split.
           ++ intros H. apply Hv in H. destruct H as (b & c' & Hb & H).
              exists b, c'. split; [now right | exact H].
           ++ intros (b & c' & [<-|Hb] & Hid & Hc & H); [|eauto].
              rewrite Hhere in Hc. injection Hc as <-.
              destruct H as [H|(_ & r' & Hr' & H)].
              ** apply jsstring_eqb_neq in Ef. contradiction.
              ** rewrite Eroom in Hr'. congruence.
        -- exists false. split; [reflexivity|]. split; [|reflexivity].
           intros _. exists batch, c.
           split; [now left|]. split; [exact Nid|]. split; [exact Hhere|].
           right. rewrite Eroom. split; [now apply jsstring_eqb_eq | eauto].
      * exists v. split; [exact Ev|]. split.
        -- intros H. apply Hv in H. destruct H as (b & c' & Hb & H).
           exists b, c'. split; [now right | exact H].
        -- intros (b & c' & [<-|Hb] & Hid & Hc & H); [|eauto].
           rewrite Hhere in Hc. injection Hc as <-.
           destruct H as [H|(H & _)].
           ++ apply jsstring_eqb_neq in Ef. contradiction.
           ++ apply jsstring_eqb_neq in Er. contradiction.
Qed.

(** C6: on a timetable in which the other batches have the candidate's
    day, and for a candidate that names its room, [isValidAssignment]
    returns [false] exactly when some batch other than the candidate's
    holds, at the candidate's day and slot, a class with the candidate's
    faculty, or with the candidate's room when that room is not a lab;
    otherwise it returns [true]. *)
Theorem isValidAssignment_spec (timetable : Timetable.t) (assignment : Assignment.t) :
  (forall batch, In batch (Timetable.batches timetable) ->
     Batch.id batch <> Assignment.batch assignment ->
     In (Assignment.day assignment) (obj_keys (Batch.schedule batch))) ->
  Assignment.room assignment <> None ->
  exists verdict,
    isValidAssignment timetable assignment = Ok verdict /\
    (verdict = false <-> blocked timetable assignment) /\
    (verdict = true <-> ~ blocked timetable assignment).
Proof.
  intros Hgrid Hroom.
  destruct (isValidAssignment_loop_spec _ _ Hgrid Hroom) as (v & E & H).
  exists v. split; [exact E|]. split; [exact H|].
  unfold blocked. rewrite <- H. destruct v; split; congruence.
Qed.

Lemma isValidAssignment_spec_witness :
  exists verdict,
    isValidAssignment sameFaculty
      {| Assignment.subject := Some "Physics";
         Assignment.faculty := Some "Dr. Rao";
         Assignment.room := Some "Room-102";
         Assignment.batch := 1;
         Assignment.day := "Monday";
         Assignment.slot := "09:00-10:00" |} = Ok verdict /\
    verdict = false.
Proof.
  destruct (isValidAssignment_spec sameFaculty
              {| Assignment.subject := Some "Physics";
                 Assignment.faculty := Some "Dr. Rao";
                 Assignment.room := Some "Room-102";
                 Assignment.batch := 1;
                 Assignment.day := "Monday";
                 Assignment.slot := "09:00-10:00" |})
    as (v & E & _ & _).
  - simpl. intros batch [<-|[<-|[]]] _; simpl; auto.
  - discriminate.
  - exists v. split; [exact E|].
    vm_compute in E. now injection E as <-.
Defined.

(** ** Conflict detector *)


Lemma forEach_app {A B} (l : list A) (f : list B -> A -> Result (list B))
  (h : A -> list B) (acc : list B) :
  (forall acc x, In x l -> f acc x = Ok (acc ++ h x)) ->
  forEach l f acc = Ok (acc ++ flat_map h l).
Proof.
  revert acc. induction l as [|x l IH]; intros acc Hf; simpl.
  - now rewrite app_nil_r.
  - rewrite Hf by now left. simpl. rewrite IH.
    + now rewrite app_assoc.
    + intros acc' y Hy. apply Hf. now right.
Qed.

Lemma forEachFrom_app {A B} (l : list A) (i : nat)
  (f : list B -> nat -> A -> Result (list B)) (h : nat * A -> list B)
  (acc : list B) :
  (forall acc k x, nth_error l k = Some x ->
     f acc (i + k)%nat x = Ok (acc ++ h ((i + k)%nat, x))) ->
  forEachFrom i l f acc
  = Ok (acc ++ flat_map h (combine (seq i (List.length l)) l)).
Proof.
  revert i acc. induction l as [|x l IH]; intros i acc Hf; simpl.
  - now rewrite app_nil_r.
  - pose proof (Hf acc O x eq_refl) as H0. rewrite Nat.add_0_r in H0.
    rewrite H0. simpl. rewrite IH.
    + now rewrite app_assoc.
    + intros acc' k y Hy. specialize (Hf acc' (Datatypes.S k) y Hy).
      now rewrite Nat.add_succ_r in Hf.
Qed.

Lemma forEachIndexed_app {A B} (l : list A)
  (f : list B -> nat -> A -> Result (list B)) (h : nat * A -> list B)
  (acc : list B) :
  (forall acc k x, nth_error l k = Some x -> f acc k x = Ok (acc ++ h (k, x))) ->
  forEachIndexed l f acc = Ok (acc ++ flat_map h (indexed l)).
Proof. intros Hf. unfold forEachIndexed, indexed. now apply forEachFrom_app. Qed.

Lemma day_get_class_In (d : DaySchedule) (slot : string) (c : ClassInfo.t) :
  day_get d slot = CClass c -> In (slot, CClass c) d.
Proof.
  unfold day_get. destruct (obj_get slot d) eqn:E; [|discriminate].
  intros ->. now apply obj_get_Some_In.
Qed.


Lemma grid_ok_day (g : TimetableGenerator) (t : Timetable.t) (b b' : Batch.t)
  (day : string) :
  grid_ok g t -> In b (Timetable.batches t) -> In b' (Timetable.batches t) ->
  In day (obj_keys (Batch.schedule b)) -> In day (obj_keys (Batch.schedule b')).
Proof.
  unfold grid_ok. rewrite Forall_forall. intros H Hb Hb'.
  rewrite (H b Hb), (H b' Hb'). auto.
Qed.

Lemma detectConflicts_pair_pure (day slot : string) (i : nat)
  (class1 : ClassInfo.t) (acc : list Conflict.t) (j : nat) (other : Batch.t) :
  ClassInfo.room class1 <> None ->
  In day (obj_keys (Batch.schedule other)) ->
  detectConflicts_pair day slot i class1 acc j other
  = Ok (acc ++ pair_conflicts day slot i class1 (j, other)).
Proof.
  intros Hroom Hday. unfold detectConflicts_pair, pair_conflicts. cbn [fst snd].
  destruct (Nat.eqb i j); [now rewrite app_nil_r|].
  apply obj_get_In in Hday. unfold schedule_get.
  destruct (obj_get day (Batch.schedule other)) as [d|]; [|congruence].
  cbn [bind]. destruct (day_get d slot) as [| |class2]; try now rewrite app_nil_r.
  destruct (ClassInfo.room class1) as [r|] eqn:Er; [|congruence].
  cbn [jsstring_text].
  destruct (jsstring_eqb (ClassInfo.faculty class1) (ClassInfo.faculty class2));
    destruct (jsstring_eqb (Some r) (ClassInfo.room class2));
    destruct (includes "Lab" r); cbn [negb andb];
    rewrite ?app_nil_r, <- ?app_assoc; reflexivity.
Qed.

Lemma detectConflicts_pure (g : TimetableGenerator) (t : Timetable.t) :
  grid_ok g t -> rooms_ok t -> detectConflicts t = Ok (conflictsOf t).
Proof.
  intros Hgrid Hrooms. unfold detectConflicts, conflictsOf.
  rewrite forEachIndexed_app with (h := batch_conflicts t); [reflexivity|].
  intros acc i batch Hi. apply nth_error_In in Hi.
  unfold batch_conflicts. cbn [fst snd].
  apply forEach_app. intros acc1 day Hday.
  unfold detectConflicts_day, day_conflicts.
  destruct (obj_get day (Batch.schedule batch)) as [d|] eqn:Ed;
    [|apply obj_get_In in Hday; congruence].
  apply forEach_app. intros acc2 slot Hslot.
  unfold detectConflicts_slot, slot_conflicts.
  unfold schedule_get at 1 2. rewrite Ed. cbn [bind].
  destruct (day_get d slot) as [| |class1] eqn:Ec; try now rewrite app_nil_r.
  apply forEachIndexed_app. intros acc3 j other Hj. apply nth_error_In in Hj.
  apply detectConflicts_pair_pure.
  - apply (Hrooms batch day d slot class1); auto.
    + now apply obj_get_Some_In.
    + now apply day_get_class_In.
  - exact (grid_ok_day batch other day Hgrid Hi Hj Hday).
Qed.

(** *** Counting the reports *)

Lemma reports_app kind i j day slot (a b : list Conflict.t) :
  reports kind i j day slot (a ++ b)
  = (reports kind i j day slot a + reports kind i j day slot b)%nat.
Proof. unfold reports. now rewrite filter_app, length_app. Qed.

Lemma reports_none kind i j day slot (l : list Conflict.t) :
  Forall (fun c => is_report kind i j day slot c = false) l ->
  reports kind i j day slot l = O.
Proof.
  unfold reports. induction 1 as [|c l Hc _ IH]; simpl; [reflexivity|].
  now rewrite Hc.
Qed.

Lemma reports_flat_map_none {A} kind i j day slot (f : A -> list Conflict.t)
  (l : list A) :
  (forall x, In x l -> reports kind i j day slot (f x) = O) ->
  reports kind i j day slot (flat_map f l) = O.
Proof.
  induction l as [|x l IH]; intros H; simpl; [reflexivity|].
  rewrite reports_app, H by now left. apply IH. intros y Hy. apply H. now right.
Qed.

Lemma reports_flat_map_one {A} kind i j day slot (f : A -> list Conflict.t)
  (l : list A) (a : A) :
  NoDup l -> In a l ->
  (forall x, In x l -> x <> a -> reports kind i j day slot (f x) = O) ->
  reports kind i j day slot (flat_map f l) = reports kind i j day slot (f a).
Proof.
  induction l as [|x l IH]; intros Hnd Hin H; simpl; [contradiction|].
  inversion Hnd as [|? ? Hx Hnd']; subst. rewrite reports_app.
  destruct Hin as [->|Hin].
  - rewrite reports_flat_map_none; [lia|].
    intros y Hy. apply H; [now right|]. intros ->. contradiction.
  - rewrite H; [|now left|intros ->; contradiction].
    apply IH; auto. intros y Hy. apply H. now right.
Qed.

Lemma combine_seq_In {A} (l : list A) (i k : nat) (x : A) :
  In (k, x) (combine (seq i (List.length l)) l)
  <-> (i <= k)%nat /\ nth_error l (k - i) = Some x.
Proof.
  revert i. induction l as [|y l IH]; intros i; simpl.
  - split; [tauto|]. intros [_ H]. now destruct (k - i)%nat.
  - rewrite IH. split.
    + intros [[= <- <-]|[Hle H]].
      * split; [lia|]. now rewrite Nat.sub_diag.
      * split; [lia|].
        replace (k - i)%nat with (Datatypes.S (k - Datatypes.S i)) by lia.
        exact H.
    + intros [Hle H]. destruct (Nat.eq_dec i k) as [->|Hne].
      * rewrite Nat.sub_diag in H. injection H as ->. now left.
      * right. split; [lia|].
        replace (k - i)%nat with (Datatypes.S (k - Datatypes.S i)) in H by lia.
        exact H.
Qed.

Lemma indexed_In {A} (l : list A) (k : nat) (x : A) :
  In (k, x) (indexed l) <-> nth_error l k = Some x.
Proof.
  unfold indexed. rewrite combine_seq_In, Nat.sub_0_r.
  split; [tauto | split; [lia | assumption]].
Qed.

Lemma map_fst_combine_seq {A} (l : list A) (i : nat) :
  map fst (combine (seq i (List.length l)) l) = seq i (List.length l).
Proof.
  revert i. induction l as [|y l IH]; intros i; simpl; [reflexivity|].
  now rewrite IH.
Qed.

Lemma indexed_NoDup {A} (l : list A) : NoDup (indexed l).
Proof.
  apply NoDup_map_inv with (f := fst). unfold indexed.
  rewrite map_fst_combine_seq. apply seq_NoDup.
Qed.

Lemma tagged_weaken i day slot j day' slot' j' (c : Conflict.t) :
  tagged i day slot j c ->
  (day' = None \/ day' = day) -> (slot' = None \/ slot' = slot) ->
  (j' = None \/ j' = j) ->
  tagged i day' slot' j' c.
Proof.
  intros (Hi & Hd & Hs & Hj) [-> | ->] [-> | ->] [-> | ->];
    repeat split; auto; discriminate.
Qed.

Lemma pair_conflicts_tagged day slot i class1 (other : nat * Batch.t) :
  Forall (tagged i (Some day) (Some slot) (Some (fst other)))
         (pair_conflicts day slot i class1 other).
Proof.
  unfold pair_conflicts. destruct (Nat.eqb i (fst other)); [constructor|].
  destruct (schedule_get _ day slot) as [[| |class2]|]; try constructor.
  assert (Hf : tagged i (Some day) (Some slot) (Some (fst other))
                 (facultyConflict day slot i (fst other) class1))
    by (repeat split; cbn; congruence).
  assert (Hr : tagged i (Some day) (Some slot) (Some (fst other))
                 (roomConflict day slot i (fst other) class1 class2))
    by (repeat split; cbn; congruence).
  destruct (jsstring_eqb (ClassInfo.faculty class1) (ClassInfo.faculty class2));
    destruct (jsstring_eqb (ClassInfo.room class1) (ClassInfo.room class2)
              && negb (includes "Lab" (jsstring_text (ClassInfo.room class1))));
    cbn [app]; repeat (apply Forall_cons; [assumption|]); apply Forall_nil.
Qed.

Lemma slot_conflicts_tagged t i batch day slot :
  Forall (tagged i (Some day) (Some slot) None) (slot_conflicts t i batch day slot).
Proof.
  unfold slot_conflicts.
  destruct (schedule_get _ day slot) as [[| |class1]|]; try constructor.
  apply Forall_flat_map, Forall_forall. intros other _.
  eapply Forall_impl; [|apply pair_conflicts_tagged].
  intros c Hc. eapply tagged_weaken; eauto.
Qed.

Lemma day_conflicts_tagged t i batch day :
  Forall (tagged i (Some day) None None) (day_conflicts t i batch day).
Proof.
  unfold day_conflicts. destruct (obj_get day _); [|constructor].
  apply Forall_flat_map, Forall_forall. intros slot _.
  eapply Forall_impl; [|apply slot_conflicts_tagged].
  intros c Hc. eapply tagged_weaken; eauto.
Qed.

Lemma batch_conflicts_tagged t (ib : nat * Batch.t) :
  Forall (tagged (fst ib) None None None) (batch_conflicts t ib).
Proof.
  unfold batch_conflicts. apply Forall_flat_map, Forall_forall. intros day _.
  eapply Forall_impl; [|apply day_conflicts_tagged].
  intros c Hc. eapply tagged_weaken; eauto.
Qed.

Lemma reports_tagged_none kind i j day slot i' day' slot' j' (l : list Conflict.t) :
  Forall (tagged i' day' slot' j') l ->
  i' <> i \/ (exists d, day' = Some d /\ d <> day)
  \/ (exists s, slot' = Some s /\ s <> slot)
  \/ (exists k, j' = Some k /\ k <> j) ->
  reports kind i j day slot l = O.
Proof.
  intros Ht Hne. apply reports_none. eapply Forall_impl; [|exact Ht].
  intros c (Hi & Hd & Hs & Hj). unfold is_report.
  destruct Hne as [H|[(d & -> & H)|[(s & -> & H)|(k & -> & H)]]].
  - rewrite Hi. apply Nat.eqb_neq in H. rewrite H.
    now rewrite andb_false_r.
  - rewrite (Hd d eq_refl). apply String.eqb_neq in H. rewrite H.
    now rewrite andb_false_r.
  - rewrite (Hs s eq_refl). apply String.eqb_neq in H. rewrite H.
    now rewrite andb_false_r.
  - rewrite (Hj k eq_refl). apply Nat.eqb_neq in H. rewrite H.
    now rewrite !andb_false_r.
Qed.

Lemma ConflictType_eqb_sym (a b : ConflictType) :
  ConflictType_eqb a b = ConflictType_eqb b a.
Proof. now destruct a, b. Qed.

Lemma is_report_facultyConflict kind i j day slot class1 :
  is_report kind i j day slot (facultyConflict day slot i j class1)
  = ConflictType_eqb faculty_conflict kind.
Proof.
  unfold is_report. cbn [facultyConflict Conflict.type Conflict.batches
    Conflict.day Conflict.slot fst snd].
  now rewrite !Nat.eqb_refl, !String.eqb_refl, !andb_true_r.
Qed.

Lemma is_report_roomConflict kind i j day slot class1 class2 :
  is_report kind i j day slot (roomConflict day slot i j class1 class2)
  = ConflictType_eqb room_conflict kind.
Proof.
  unfold is_report. cbn [roomConflict Conflict.type Conflict.batches
    Conflict.day Conflict.slot fst snd].
  now rewrite !Nat.eqb_refl, !String.eqb_refl, !andb_true_r.
Qed.

Lemma reports_pair kind i j day slot class1 (other : Batch.t) :
  reports kind i j day slot (pair_conflicts day slot i class1 (j, other))
  = if negb (Nat.eqb i j)
       && match schedule_get (Batch.schedule other) day slot with
          | Ok (CClass class2) => collide kind class1 class2
          | _ => false
          end
    then 1%nat else O.
Proof.
  unfold pair_conflicts. cbn [fst snd].
  destruct (Nat.eqb i j); [reflexivity|]. cbn [negb andb].
  destruct (schedule_get _ day slot) as [[| |class2]|]; try reflexivity.
  unfold reports. rewrite filter_app, length_app.
  destruct kind; cbn [collide];
    destruct (jsstring_eqb (ClassInfo.faculty class1) (ClassInfo.faculty class2));
    destruct (jsstring_eqb (ClassInfo.room class1) (ClassInfo.room class2)
              && negb (includes "Lab" (jsstring_text (ClassInfo.room class1))));
    cbn [filter]; rewrite ?is_report_facultyConflict, ?is_report_roomConflict;
    reflexivity.
Qed.

Lemma reports_conflictsOf kind (t : Timetable.t) i j day slot :
  keys_ok t ->
  reports kind i j day slot (conflictsOf t)
  = if collision kind t i j day slot then 1%nat else O.
Proof.
  intros Hkeys. unfold conflictsOf, collision, cell_at, batch_at.
  destruct (nth_error (Timetable.batches t) i) as [bi|] eqn:Ei.
  2:{ cbn [bind]. rewrite andb_false_r. apply reports_flat_map_none.
      intros [i' b'] Hin. apply indexed_In in Hin.
      eapply reports_tagged_none; [apply batch_conflicts_tagged|].
      left. cbn [fst]. intros ->. congruence. }
  cbn [bind].
  rewrite reports_flat_map_one with (a := (i, bi));
    [ | apply indexed_NoDup | now apply indexed_In | ].
  2:{ intros [i' b'] Hin Hne. apply indexed_In in Hin.
      eapply reports_tagged_none; [apply batch_conflicts_tagged|].
      left. cbn [fst]. intros ->. apply Hne. congruence. }
  unfold batch_conflicts. cbn [fst snd].
  destruct (Hkeys bi (nth_error_In _ _ Ei)) as [Hdays Hslots].
  unfold schedule_get at 1.
  destruct (obj_get day (Batch.schedule bi)) as [d|] eqn:Ed.
  2:{ rewrite andb_false_r. apply reports_flat_map_none. intros day' Hday'.
      eapply reports_tagged_none; [apply day_conflicts_tagged|].
      right; left. exists day'. split; [reflexivity|]. intros ->.
      apply obj_get_In in Hday'. congruence. }
  assert (Hday : In day (obj_keys (Batch.schedule bi)))
    by (apply obj_get_In; congruence).
  rewrite reports_flat_map_one with (a := day); [ | exact Hdays | exact Hday | ].
  2:{ intros day' _ Hne.
      eapply reports_tagged_none; [apply day_conflicts_tagged|].
      right; left. eauto. }
  unfold day_conflicts. rewrite Ed.
  destruct (in_dec string_dec slot (obj_keys d)) as [Hslot|Hslot].
  2:{ replace (day_get d slot) with CUndefined.
      - rewrite andb_false_r. apply reports_flat_map_none. intros slot' Hslot'.
        eapply reports_tagged_none; [apply slot_conflicts_tagged|].
        right; right; left. exists slot'. split; [reflexivity|]. congruence.
      - unfold day_get. destruct (obj_get slot d) eqn:E; [|reflexivity].
        exfalso. apply Hslot, obj_get_In. congruence. }
  rewrite reports_flat_map_one with (a := slot);
    [ | apply (Hslots day d); now apply obj_get_Some_In | exact Hslot | ].
  2:{ intros slot' _ Hne.
      eapply reports_tagged_none; [apply slot_conflicts_tagged|].
      right; right; left. eauto. }
  unfold slot_conflicts, schedule_get at 1. rewrite Ed.
  destruct (day_get d slot) as [| |class1];
    try (now rewrite andb_false_r).
  destruct (nth_error (Timetable.batches t) j) as [bj|] eqn:Ej.
  2:{ cbn [bind]. rewrite andb_false_r. apply reports_flat_map_none.
      intros [j' b'] Hin. apply indexed_In in Hin.
      eapply reports_tagged_none; [apply pair_conflicts_tagged|].
      right; right; right. exists j'. split; [reflexivity|]. intros ->.
      congruence. }
  cbn [bind].
  rewrite reports_flat_map_one with (a := (j, bj));
    [ | apply indexed_NoDup | now apply indexed_In | ].
  2:{ intros [j' b'] Hin Hne. apply indexed_In in Hin.
      eapply reports_tagged_none; [apply pair_conflicts_tagged|].
      right; right; right. exists j'. split; [reflexivity|]. intros ->.
      apply Hne. congruence. }
  apply reports_pair.
Qed.

Lemma collide_sym kind class1 class2 :
  collide kind class1 class2 = collide kind class2 class1.
Proof.
  destruct kind; cbn [collide].
  - destruct (jsstring_eqb _ _) eqn:E.
    + apply jsstring_eqb_eq in E. symmetry. now apply jsstring_eqb_eq.
    + apply jsstring_eqb_neq in E. symmetry. apply jsstring_eqb_neq. congruence.
  - destruct (jsstring_eqb (ClassInfo.room class1) _) eqn:E.
    + apply jsstring_eqb_eq in E. rewrite E.
      replace (jsstring_eqb _ _) with true; [reflexivity|].
      symmetry. now apply jsstring_eqb_eq.
    + apply jsstring_eqb_neq in E.
      replace (jsstring_eqb (ClassInfo.room class2) _) with false; [reflexivity|].
      symmetry. apply jsstring_eqb_neq. congruence.
Qed.

Lemma collision_sym kind t i j day slot :
  collision kind t i j day slot = collision kind t j i day slot.
Proof.
  unfold collision. rewrite (Nat.eqb_sym i j). f_equal.
  destruct (cell_at t i day slot) as [[| |c1]|], (cell_at t j day slot) as [[| |c2]|];
    try reflexivity.
  apply collide_sym.
Qed.

Lemma detectConflicts_two_batches (t : Timetable.t) (b0 b1 : Batch.t)
  (day slot : string) (c0 c1 : ClassInfo.t) :
  Timetable.batches t = [b0; b1] ->
  Batch.schedule b0 = [(day, [(slot, CClass c0)])] ->
  Batch.schedule b1 = [(day, [(slot, CClass c1)])] ->
  ClassInfo.faculty c0 = ClassInfo.faculty c1 ->
  ClassInfo.room c0 <> None -> ClassInfo.room c1 <> None ->
  exists cs,
    detectConflicts t = Ok cs /\
    ofType faculty_conflict cs
    = [facultyConflict day slot 0 1 c0; facultyConflict day slot 1 0 c1].
Proof.
  intros Ht E0 E1 Ef Hr0 Hr1.
  assert (Ef' : jsstring_eqb (ClassInfo.faculty c0) (ClassInfo.faculty c1) = true)
    by now apply jsstring_eqb_eq.
  assert (Ef'' : jsstring_eqb (ClassInfo.faculty c1) (ClassInfo.faculty c0) = true)
    by now apply jsstring_eqb_eq.
  unfold detectConflicts, forEachIndexed. rewrite Ht.
  cbn [forEachFrom]. rewrite E0, E1.
  unfold detectConflicts_day, detectConflicts_slot, forEachIndexed. rewrite Ht.
  cbn [obj_keys map fst forEach bind obj_get forEachFrom].
  unfold detectConflicts_pair, schedule_get. rewrite E0, E1.
  cbn [obj_get Nat.eqb]. rewrite !String.eqb_refl.
  cbn [bind day_get obj_get obj_keys map fst forEach].
  unfold day_get. cbn [obj_get]. rewrite !String.eqb_refl. cbn [bind].
  rewrite Ef', Ef''.
  destruct (ClassInfo.room c0) as [r0|] eqn:Er0; [|congruence].
  destruct (ClassInfo.room c1) as [r1|] eqn:Er1; [|congruence].
  cbn [jsstring_eqb]. rewrite (String.eqb_sym r1 r0).
  destruct (String.eqb r0 r1) eqn:Er.
  - apply String.eqb_eq in Er. subst r1.
    destruct (includes "Lab" r0); cbn [negb bind app];
      eexists; (split; [reflexivity|]); reflexivity.
  - cbn [bind app]. eexists. split; reflexivity.
Qed.

(** C1, as the code has it: the detector compares every occupied cell of
    every batch with every other batch, so a collision of two batches at a
    day and slot is reported once for each order of the pair and each kind
    that fires: once as (i, j) and once as (j, i), twice per unordered
    pair.  With two batches, one day, one slot and the same faculty in
    both, the faculty-conflict entries are exactly two: (0, 1), then
    (1, 0). *)
Theorem detectConflicts_reports :
  (forall (g : TimetableGenerator) (t : Timetable.t),
     grid_ok g t -> keys_ok t -> rooms_ok t ->
     exists cs,
       detectConflicts t = Ok cs /\
       forall kind i j day slot,
         reports kind i j day slot cs
         = (if collision kind t i j day slot then 1%nat else O) /\
         reports kind j i day slot cs = reports kind i j day slot cs /\
         (collision kind t i j day slot = true ->
          (reports kind i j day slot cs + reports kind j i day slot cs = 2)%nat))
  /\
  (forall (t : Timetable.t) (b0 b1 : Batch.t) (day slot : string)
          (c0 c1 : ClassInfo.t),
     Timetable.batches t = [b0; b1] ->
     Batch.schedule b0 = [(day, [(slot, CClass c0)])] ->
     Batch.schedule b1 = [(day, [(slot, CClass c1)])] ->
     ClassInfo.faculty c0 = ClassInfo.faculty c1 ->
     ClassInfo.room c0 <> None -> ClassInfo.room c1 <> None ->
     exists cs,
       detectConflicts t = Ok cs /\
       ofType faculty_conflict cs
       = [facultyConflict day slot 0 1 c0; facultyConflict day slot 1 0 c1]).
Proof.
  split.
  - intros g t Hgrid Hkeys Hrooms. exists (conflictsOf t).
    split; [now apply detectConflicts_pure with (g := g)|].
    intros kind i j day slot.
    rewrite !reports_conflictsOf by assumption.
    rewrite (collision_sym kind t j i).
    split; [reflexivity|]. split; [reflexivity|]. now intros ->.
  - apply detectConflicts_two_batches.
Qed.

Lemma sameFaculty_well_formed :
  grid_ok oneByOne sameFaculty
  /\ keys_ok sameFaculty /\ rooms_ok sameFaculty /\ json_clean sameFaculty.
Proof.
  split; [|split; [|split]].
  - repeat constructor.
  - intros b [<-|[<-|[]]]; (split; [repeat constructor; simpl; tauto|]);
      intros day d [[= <- <-]|[]]; repeat constructor; simpl; tauto.
  - intros b day d slot c [<-|[<-|[]]] [[= <- <-]|[]] [[= <- <-]|[]]; discriminate.
  - intros b day d slot [<-|[<-|[]]] [[= <- <-]|[]] [[=]|[]].
Qed.

Lemma detectConflicts_reports_witness :
  exists cs,
    detectConflicts sameFaculty = Ok cs /\
    reports faculty_conflict 0 1 "Monday" "09:00-10:00" cs = 1%nat /\
    reports faculty_conflict 1 0 "Monday" "09:00-10:00" cs = 1%nat /\
    exists cs',
      detectConflicts sameFaculty = Ok cs' /\
      List.length (ofType faculty_conflict cs') = 2%nat.
Proof.
  destruct detectConflicts_reports as [General Scenario].
  destruct sameFaculty_well_formed as (Hgrid & Hkeys & Hrooms & _).
  destruct (General _ _ Hgrid Hkeys Hrooms) as (cs & E & H).
  exists cs. split; [exact E|].
  destruct (H faculty_conflict 0%nat 1%nat "Monday" "09:00-10:00") as (H01 & H10 & _).
  split; [exact H01|]. split; [rewrite H10; exact H01|].
  destruct (Scenario sameFaculty _ _ "Monday" "09:00-10:00" _ _
              eq_refl eq_refl eq_refl eq_refl) as (cs' & E' & L);
    [discriminate | discriminate |].
  exists cs'. split; [exact E'|]. now rewrite L.
Defined.

(** The scenario of C1 on the code: the same teacher in both batches at
    the only slot is reported twice, as (0, 1) and as (1, 0), not once. *)
Lemma detectConflicts_sameFaculty_twice :
  detectConflicts sameFaculty
  = Ok [facultyConflict "Monday" "09:00-10:00" 0 1
          (classInfo "Maths" "Dr. Rao" "Room-101");
        facultyConflict "Monday" "09:00-10:00" 1 0
          (classInfo "Physics" "Dr. Rao" "Room-102")]
  /\ (forall cs, detectConflicts sameFaculty = Ok cs ->
        List.length (ofType faculty_conflict cs) <> 1%nat)
  /\ (forall cs, detectConflicts sameFaculty = Ok cs ->
        (reports faculty_conflict 0 1 "Monday" "09:00-10:00" cs
         + reports faculty_conflict 1 0 "Monday" "09:00-10:00" cs)%nat <> 1%nat).
Proof.
  assert (E : detectConflicts sameFaculty
              = Ok [facultyConflict "Monday" "09:00-10:00" 0 1
                      (classInfo "Maths" "Dr. Rao" "Room-101");
                    facultyConflict "Monday" "09:00-10:00" 1 0
                      (classInfo "Physics" "Dr. Rao" "Room-102")])
    by reflexivity.
  split; [exact E|]. split; intros cs; rewrite E; intros [= <-]; discriminate.
Qed.

(** ** Fitness evaluator *)





Lemma utilizationScore_spec (r : Q) : utilizationScore r == spec_utilizationScore r.
Proof.
  unfold utilizationScore, spec_utilizationScore, optimalUtilization.
  destruct (Qle_bool r (85 # 100)); ring.
Qed.

Lemma calculateFitness_formula (g : TimetableGenerator) (t : Timetable.t)
  (conflicts : list Conflict.t) :
  detectConflicts t = Ok conflicts ->
  exists f,
    calculateFitness g t = Ok f /\
    f == fitness_formula (List.length conflicts) (fillRatio (tally g t))
           (gapPenalty (tally g t)) (subjectCountList t).
Proof.
  intros E. unfold calculateFitness. rewrite E. cbn [bind]. cbv zeta.
  eexists. split; [reflexivity|].
  unfold fitness_formula, spec_bonus, calculateSubjectDistribution,
    distributionScore, subjectCountList.
  set (r := fillRatio (tally g t)).
  set (d := match map inject_Z (obj_values (subjectCounts t)) with
            | [] => 0%Q
            | _ :: _ => Qmax 0 (15 - variance (map inject_Z (obj_values (subjectCounts t))))
            end).
  apply Q.max_compat; [reflexivity|].
  unfold Qlt_bool. destruct (Qle_bool r (8 # 10)) eqn:Er; cbn [negb];
    rewrite utilizationScore_spec.
  - apply Qle_bool_iff in Er. rewrite (Q.max_l 0 (r - (8 # 10))) by lra. ring.
  - assert (Hr : ~ (r <= 8 # 10)%Q)
      by (intros H; apply Qle_bool_iff in H; congruence).
    rewrite (Q.max_r 0 (r - (8 # 10))) by lra. ring.
Qed.

Lemma all_classes_Forall (P : ClassInfo.t -> Prop) (t : Timetable.t) :
  Forall P (classesOf t) -> all_classes P t.
Proof.
  intros H b day d slot c Hb Hd Hc. rewrite Forall_forall in H. apply H.
  unfold classesOf. apply in_flat_map. exists b. split; [exact Hb|].
  apply in_flat_map. exists (day, d). split; [exact Hd|].
  unfold classesOfDay. apply in_flat_map. exists (slot, CClass c).
  split; [exact Hc | now left].
Qed.





(** The sample generators are the ones the constructor builds. *)
Example newTimetableGenerator_samples :
  newTimetableGenerator
    {| CourseData.subjects := ["Maths"; "Physics"]; CourseData.faculty := ["Dr. Rao"] |}
    (parametersOf 2 2 1 1 "09:00" "10:00" ["Monday"]) = Some oneByOne /\
  newTimetableGenerator
    {| CourseData.subjects := ["Maths"]; CourseData.faculty := ["Dr. Rao"] |}
    (parametersOf 1 1 5 4 "09:00" "14:00" fourDays) = Some fourByFive /\
  newTimetableGenerator
    {| CourseData.subjects := ["Maths"; "Physics"];
       CourseData.faculty := ["Dr. Rao"; "Dr. Iyer"] |}
    (parametersOf 1 2 1 1 "09:00" "10:00" ["Monday"; "Tuesday"]) = Some twoDays.
Proof. repeat split. Qed.

(** ** In-place updates *)

Lemma arr_set_length {A} (l : list A) (i : nat) (x : A) :
  List.length (arr_set l i x) = List.length l.
Proof.
  revert i. induction l as [|y l IH]; intros [|i]; simpl; auto.
Qed.

Lemma nth_error_arr_set_eq {A} (l : list A) (i : nat) (x : A) :
  (i < List.length l)%nat -> nth_error (arr_set l i x) i = Some x.
Proof.
  revert i. induction l as [|y l IH]; intros [|i] H; simpl in *; try lia; auto.
  apply IH. lia.
Qed.

Lemma nth_error_arr_set_neq {A} (l : list A) (i j : nat) (x : A) :
  i <> j -> nth_error (arr_set l i x) j = nth_error l j.
Proof.
  revert i j. induction l as [|y l IH]; intros [|i] [|j] H; simpl; auto.
  congruence.
Qed.

Lemma In_arr_set {A} (l : list A) (i : nat) (x y : A) :
  In y (arr_set l i x) -> y = x \/ In y l.
Proof.
  revert i. induction l as [|z l IH]; intros [|i]; simpl; auto.
  - intros [->|H]; auto.
  - intros [->|H]; auto. destruct (IH _ H); auto.
Qed.

Lemma map_arr_set {A B} (f : A -> B) (l : list A) (i : nat) (x y : A) :
  nth_error l i = Some y -> f x = f y -> map f (arr_set l i x) = map f l.
Proof.
  revert i. induction l as [|z l IH]; intros [|i]; simpl; try discriminate.
  - intros [= ->] ->. reflexivity.
  - intros H E. f_equal. now apply IH.
Qed.


(** What a successful write does. *)
Lemma set_cell_Ok (t : Timetable.t) (i : nat) (day slot : string) (v : Cell)
  (b : Batch.t) :
  nth_error (Timetable.batches t) i = Some b ->
  In day (obj_keys (Batch.schedule b)) ->
  exists d,
    obj_get day (Batch.schedule b) = Some d /\
    set_cell t i day slot v
    = Ok (with_batches t
            (arr_set (Timetable.batches t) i
               (with_schedule b
                  (obj_set day (obj_set slot v d) (Batch.schedule b))))).
Proof.
  intros Hb Hday. apply obj_get_In in Hday.
  destruct (obj_get day (Batch.schedule b)) as [d|] eqn:Ed; [|congruence].
  exists d. split; [reflexivity|].
  unfold set_cell, batch_at, schedule_set. rewrite Hb. cbn [bind].
  now rewrite Ed.
Qed.

Lemma set_cell_inv (t t' : Timetable.t) (i : nat) (day slot : string) (v : Cell) :
  set_cell t i day slot v = Ok t' ->
  exists b d,
    nth_error (Timetable.batches t) i = Some b /\
    obj_get day (Batch.schedule b) = Some d /\
    t' = with_batches t
           (arr_set (Timetable.batches t) i
              (with_schedule b
                 (obj_set day (obj_set slot v d) (Batch.schedule b)))).
Proof.
  unfold set_cell, batch_at, schedule_set.
  destruct (nth_error (Timetable.batches t) i) as [b|] eqn:Eb; [|discriminate].
  cbn [bind]. destruct (obj_get day (Batch.schedule b)) as [d|] eqn:Ed;
    [|discriminate].
  cbn [bind]. intros [= <-]. exists b, d. auto.
Qed.

Lemma set_cell_other_batch (t t' : Timetable.t) (i j : nat) (day slot : string)
  (v : Cell) :
  set_cell t i day slot v = Ok t' -> i <> j ->
  nth_error (Timetable.batches t') j = nth_error (Timetable.batches t) j.
Proof.
  intros H Hne. apply set_cell_inv in H. destruct H as (b & d & _ & _ & ->).
  cbn. now apply nth_error_arr_set_neq.
Qed.

Lemma set_cell_length (t t' : Timetable.t) (i : nat) (day slot : string) (v : Cell) :
  set_cell t i day slot v = Ok t' ->
  List.length (Timetable.batches t') = List.length (Timetable.batches t).
Proof.
  intros H. apply set_cell_inv in H. destruct H as (b & d & _ & _ & ->).
  cbn. apply arr_set_length.
Qed.

Lemma set_cell_same_shape (t t' : Timetable.t) (i : nat) (day slot : string)
  (v : Cell) :
  set_cell t i day slot v = Ok t' -> same_shape t t'.
Proof.
  intros H. apply set_cell_inv in H. destruct H as (b & d & Hb & Hd & ->).
  unfold same_shape. cbn. symmetry. apply map_arr_set with (y := b); [exact Hb|].
  unfold shape. cbn. f_equal. apply obj_keys_set_present.
  apply obj_get_In. congruence.
Qed.

Lemma cell_at_set_cell_eq (t t' : Timetable.t) (i : nat) (day slot : string)
  (v : Cell) :
  set_cell t i day slot v = Ok t' -> cell_at t' i day slot = Ok v.
Proof.
  intros H. apply set_cell_inv in H. destruct H as (b & d & Hb & Hd & ->).
  unfold cell_at, batch_at. cbn.
  rewrite nth_error_arr_set_eq by (apply nth_error_Some; congruence).
  cbn. unfold schedule_get. rewrite obj_get_set_eq.
  unfold day_get. now rewrite obj_get_set_eq.
Qed.

Lemma cell_at_set_cell_neq (t t' : Timetable.t) (i i' : nat)
  (day slot day' slot' : string) (v : Cell) :
  set_cell t i day slot v = Ok t' ->
  (i', day', slot') <> (i, day, slot) ->
  cell_at t' i' day' slot' = cell_at t i' day' slot'.
Proof.
  intros H Hne. apply set_cell_inv in H. destruct H as (b & d & Hb & Hd & ->).
  unfold cell_at, batch_at. cbn.
  destruct (Nat.eq_dec i i') as [<-|Hi].
  - rewrite nth_error_arr_set_eq by (apply nth_error_Some; congruence).
    rewrite Hb. cbn. unfold schedule_get.
    destruct (String.eqb_spec day' day) as [->|Hday].
    + rewrite obj_get_set_eq, Hd. f_equal. unfold day_get.
      rewrite obj_get_set_neq; [reflexivity|]. congruence.
    + now rewrite obj_get_set_neq.
  - now rewrite nth_error_arr_set_neq.
Qed.

Arguments set_cell_inv {t t' i day slot v} _.
Arguments set_cell_other_batch {t t' i j day slot v} _ _.
Arguments set_cell_length {t t' i day slot v} _.
Arguments set_cell_same_shape {t t' i day slot v} _.
Arguments cell_at_set_cell_eq {t t' i day slot v} _.
Arguments cell_at_set_cell_neq {t t' i i' day slot day' slot' v} _ _.

Lemma same_shape_refl (t : Timetable.t) : same_shape t t.
Proof. reflexivity. Qed.

Lemma same_shape_trans (t1 t2 t3 : Timetable.t) :
  same_shape t1 t2 -> same_shape t2 t3 -> same_shape t1 t3.
Proof. unfold same_shape. congruence. Qed.

Lemma same_shape_length (t t' : Timetable.t) :
  same_shape t t' ->
  List.length (Timetable.batches t') = List.length (Timetable.batches t).
Proof.
  unfold same_shape. intros H. apply (f_equal (@List.length _)) in H.
  now rewrite !length_map in H.
Qed.

Lemma same_shape_nth (t t' : Timetable.t) (i : nat) (b : Batch.t) :
  same_shape t t' -> nth_error (Timetable.batches t) i = Some b ->
  exists b', nth_error (Timetable.batches t') i = Some b' /\ shape b' = shape b.
Proof.
  unfold same_shape. intros H Hb.
  assert (E : nth_error (map shape (Timetable.batches t')) i = Some (shape b))
    by (rewrite <- H; now apply map_nth_error).
  rewrite nth_error_map in E.
  destruct (nth_error (Timetable.batches t') i) as [b'|]; [|discriminate].
  cbn [option_map] in E. exists b'. split; congruence.
Qed.

Lemma same_shape_sym (t t' : Timetable.t) : same_shape t t' -> same_shape t' t.
Proof. unfold same_shape. congruence. Qed.

Lemma same_shape_grid_ok (g : TimetableGenerator) (t t' : Timetable.t) :
  same_shape t t' -> grid_ok g t -> grid_ok g t'.
Proof.
  unfold grid_ok. rewrite !Forall_forall. intros Hs H b' Hb'.
  apply In_nth_error in Hb'. destruct Hb' as [i Hi].
  destruct (same_shape_nth i (same_shape_sym Hs) Hi) as (b & Hb & E).
  apply nth_error_In in Hb. specialize (H b Hb).
  unfold shape in E. congruence.
Qed.

Lemma nth_nth_error {A} (l : list A) (n : nat) (d : A) :
  nth n l d = match nth_error l n with Some x => x | None => d end.
Proof.
  revert n. induction l as [|x l IH]; intros [|n]; simpl; auto.
Qed.

Lemma batch_of_ext (t t' : Timetable.t) (j : nat) :
  nth_error (Timetable.batches t) j = nth_error (Timetable.batches t') j ->
  batch_of t j = batch_of t' j.
Proof. intros H. unfold batch_of. now rewrite !nth_nth_error, H. Qed.

Lemma batch_of_nth (t : Timetable.t) (i : nat) (b : Batch.t) :
  nth_error (Timetable.batches t) i = Some b -> batch_of t i = b.
Proof. intros H. unfold batch_of. now apply nth_error_nth. Qed.

(** ** Deep copy *)

Lemma obj_keys_json_schedule (s : Schedule) :
  obj_keys (json_schedule s) = obj_keys s.
Proof. unfold obj_keys, json_schedule. rewrite map_map. reflexivity. Qed.

Lemma obj_get_json_schedule (s : Schedule) (day : string) :
  obj_get day (json_schedule s) = option_map json_day (obj_get day s).
Proof.
  induction s as [|[k d] s IH]; simpl; [reflexivity|].
  destruct (String.eqb day k); [reflexivity | exact IH].
Qed.

Lemma obj_get_json_day (d : DaySchedule) (slot : string) (v : Cell) :
  obj_get slot d = Some v -> v <> CUndefined ->
  obj_get slot (json_day d) = Some v.
Proof.
  induction d as [|[k w] d IH]; simpl; [discriminate|].
  destruct (String.eqb_spec slot k) as [->|Hne].
  - intros [= ->] Hv. destruct v; try congruence; simpl;
      now rewrite String.eqb_refl.
  - intros H Hv. destruct w; simpl; auto;
      destruct (String.eqb_spec slot k); try contradiction; auto.
Qed.

Lemma json_copy_same_shape (t : Timetable.t) : same_shape t (json_copy t).
Proof.
  unfold same_shape, json_copy. cbn [Timetable.batches].
  rewrite map_map. apply map_ext. intros b.
  unfold shape, json_batch. cbn [Batch.id Batch.schedule].
  now rewrite obj_keys_json_schedule.
Qed.

Lemma cell_at_json_copy_class (t : Timetable.t) (i : nat) (day slot : string)
  (c : ClassInfo.t) :
  cell_at t i day slot = Ok (CClass c) ->
  cell_at (json_copy t) i day slot = Ok (CClass c).
Proof.
  unfold cell_at, batch_at, json_copy. cbn [Timetable.batches].
  rewrite nth_error_map.
  destruct (nth_error (Timetable.batches t) i) as [b|]; [|discriminate].
  cbn [option_map bind json_batch Batch.schedule]. unfold schedule_get.
  rewrite obj_get_json_schedule.
  destruct (obj_get day (Batch.schedule b)) as [d|]; [|discriminate].
  cbn [option_map]. unfold day_get. destruct (obj_get slot d) as [v|] eqn:Ev; [|discriminate].
  intros [= ->]. now rewrite (obj_get_json_day _ _ Ev).
Qed.

Lemma json_day_In (d : DaySchedule) (kv : string * Cell) :
  In kv (json_day d) -> In kv d.
Proof. unfold json_day. intros H. now apply filter_In in H. Qed.



Lemma json_day_clean (d : DaySchedule) :
  (forall slot, ~ In (slot, CUndefined) d) -> json_day d = d.
Proof.
  induction d as [|[k v] d IH]; intros H; simpl; [reflexivity|].
  destruct v.
  - exfalso. apply (H k). now left.
  - f_equal. apply IH. intros slot Hs. apply (H slot). now right.
  - f_equal. apply IH. intros slot Hs. apply (H slot). now right.
Qed.

Lemma json_copy_clean (t : Timetable.t) : json_clean t -> json_copy t = t.
Proof.
  intros H. destruct t as [bs f c a]. unfold json_copy. cbn. f_equal.
  unfold json_clean in H. cbn in H.
  rewrite <- (map_id bs) at 2. apply map_ext_in. intros b Hb.
  destruct b as [id name s]. unfold json_batch. cbn. f_equal.
  pose proof (fun day d slot => H _ day d slot Hb) as H'. cbn in H'.
  unfold json_schedule. rewrite <- (map_id s) at 2. apply map_ext_in.
  intros [day d] Hd. cbn. f_equal. apply json_day_clean.
  intros slot. exact (H' day d slot Hd).
Qed.

(** ** Crossover *)

Lemma grid_ok_nth (g : TimetableGenerator) (t : Timetable.t) (i : nat) (b : Batch.t) :
  grid_ok g t -> nth_error (Timetable.batches t) i = Some b ->
  obj_keys (Batch.schedule b) = days g.
Proof.
  unfold grid_ok. rewrite Forall_forall. intros H Hb.
  apply H. eapply nth_error_In; eauto.
Qed.

Lemma schedule_get_returns (s : Schedule) (day slot : string) :
  In day (obj_keys s) -> exists v, schedule_get s day slot = Ok v.
Proof.
  intros H. apply obj_get_In in H. unfold schedule_get.
  destruct (obj_get day s); [eauto | congruence].
Qed.

Lemma cell_at_returns (g : TimetableGenerator) (t : Timetable.t) (i : nat)
  (day slot : string) :
  grid_ok g t -> (i < List.length (Timetable.batches t))%nat -> In day (days g) ->
  exists v, cell_at t i day slot = Ok v.
Proof.
  intros Hgrid Hi Hday. unfold cell_at, batch_at.
  destruct (nth_error (Timetable.batches t) i) as [b|] eqn:Eb.
  - cbn [bind]. apply schedule_get_returns.
    now rewrite (grid_ok_nth _ Hgrid Eb).
  - apply nth_error_None in Eb. lia.
Qed.

Lemma set_cell_returns (g : TimetableGenerator) (t : Timetable.t) (i : nat)
  (day slot : string) (v : Cell) :
  grid_ok g t -> (i < List.length (Timetable.batches t))%nat -> In day (days g) ->
  exists t', set_cell t i day slot v = Ok t'.
Proof.
  intros Hgrid Hi Hday.
  destruct (nth_error (Timetable.batches t) i) as [b|] eqn:Eb.
  - destruct (set_cell_Ok t i day slot v Eb) as (d & _ & E); [|eauto].
    now rewrite (grid_ok_nth _ Hgrid Eb).
  - apply nth_error_None in Eb. lia.
Qed.

Lemma crossover_slot_returns (g : TimetableGenerator)
  (parent1 parent2 offspring : Timetable.t) (i : nat) (day slot : string) :
  grid_ok g parent1 -> grid_ok g parent2 ->
  (i < List.length (Timetable.batches parent1))%nat ->
  (i < List.length (Timetable.batches parent2))%nat ->
  In day (days g) ->
  crossover_inv parent1 parent2 offspring ->
  returns (crossover_slot parent2 i day offspring slot)
          (crossover_inv parent1 parent2).
Proof.
  intros Hg1 Hg2 Hi1 Hi2 Hday (Hshape & Hkeep & Honly).
  assert (Hgo : grid_ok g offspring) by (eapply same_shape_grid_ok; eauto).
  assert (Hio : (i < List.length (Timetable.batches offspring))%nat)
    by (rewrite (same_shape_length Hshape); exact Hi1).
  unfold crossover_slot.
  destruct (cell_at_returns day slot Hg2 Hi2 Hday) as (theirs & Ep2).
  pose proof Ep2 as Et. unfold cell_at in Et.
  destruct (batch_at parent2 i) as [pb|] eqn:Epb; [|discriminate].
  cbn [bind] in *. rewrite Et. cbn [bind].
  destruct (truthy theirs) eqn:Etruthy;
    [|apply returns_Ok; repeat split; assumption].
  destruct (cell_at_returns day slot Hgo Hio Hday) as (ours & Eo).
  rewrite Eo. cbn [bind].
  destruct (truthy ours) eqn:Eours; cbn [negb];
    [apply returns_Ok; repeat split; assumption|].
  destruct (set_cell_returns day slot (json_cell theirs) Hgo Hio Hday) as (t' & Eset).
  rewrite Eset. apply returns_Ok. split; [|split].
  - eapply same_shape_trans; [exact Hshape|].
    exact (set_cell_same_shape Eset).
  - intros i' day' slot' c Hc.
    rewrite (cell_at_set_cell_neq Eset); [now apply Hkeep|].
    intros [= -> -> ->]. apply Hkeep in Hc. rewrite Hc in Eo.
    injection Eo as <-. discriminate.
  - intros i' day' slot'.
    destruct (Nat.eq_dec i' i) as [->|Hne];
      [destruct (String.eqb_spec day' day) as [->|Hne];
       [destruct (String.eqb_spec slot' slot) as [->|Hne]|]|].
    + right. destruct (Honly i day slot) as [E|(o & th & _ & _ & _ & Hth & E)].
      * exists ours, theirs. rewrite <- E, Eo.
        rewrite (cell_at_set_cell_eq Eset). auto.
      * rewrite E in Eo. injection Eo as <-. congruence.
    + rewrite (cell_at_set_cell_neq Eset) by congruence. apply Honly.
    + rewrite (cell_at_set_cell_neq Eset) by congruence. apply Honly.
    + rewrite (cell_at_set_cell_neq Eset) by congruence. apply Honly.
Qed.

Lemma crossover_day_returns (g : TimetableGenerator)
  (parent1 parent2 offspring : Timetable.t) (i dayIndex : nat) (day : string) :
  grid_ok g parent1 -> grid_ok g parent2 ->
  (i < List.length (Timetable.batches parent1))%nat ->
  (i < List.length (Timetable.batches parent2))%nat ->
  In day (days g) ->
  crossover_inv parent1 parent2 offspring ->
  returns (crossover_day g parent2 i offspring dayIndex day)
          (crossover_inv parent1 parent2).
Proof.
  intros Hg1 Hg2 Hi1 Hi2 Hday Hinv. unfold crossover_day.
  destruct (List.length (days g) <=? 2 * dayIndex)%nat;
    [|now apply returns_Ok].
  pose proof Hinv as (Hshape & _ & _).
  assert (Hgo : grid_ok g offspring) by (eapply same_shape_grid_ok; eauto).
  unfold batch_at.
  destruct (nth_error (Timetable.batches offspring) i) as [b|] eqn:Eb.
  2:{ apply nth_error_None in Eb. rewrite (same_shape_length Hshape) in Eb. lia. }
  cbn [bind]. unfold keys_of_day.
  assert (Hd : In day (obj_keys (Batch.schedule b)))
    by now rewrite (grid_ok_nth _ Hgo Eb).
  apply obj_get_In in Hd.
  destruct (obj_get day (Batch.schedule b)) as [d|]; [|congruence].
  cbn [bind]. apply forEach_returns; [|exact Hinv].
  intros o slot _ Ho. now apply crossover_slot_returns with (g := g).
Qed.

Lemma crossover_batch_returns (g : TimetableGenerator)
  (parent1 parent2 offspring : Timetable.t) (i : nat) :
  grid_ok g parent1 -> grid_ok g parent2 ->
  (i < List.length (Timetable.batches parent1))%nat ->
  (i < List.length (Timetable.batches parent2))%nat ->
  crossover_inv parent1 parent2 offspring ->
  returns (crossover_batch g parent2 offspring i)
          (crossover_inv parent1 parent2).
Proof.
  intros Hg1 Hg2 Hi1 Hi2 Hinv. unfold crossover_batch.
  pose proof Hinv as (Hshape & _ & _).
  assert (Hgo : grid_ok g offspring) by (eapply same_shape_grid_ok; eauto).
  unfold batch_at.
  destruct (nth_error (Timetable.batches offspring) i) as [b|] eqn:Eb.
  2:{ apply nth_error_None in Eb. rewrite (same_shape_length Hshape) in Eb. lia. }
  cbn [bind]. unfold forEachIndexed.
  apply forEachFrom_returns; [|exact Hinv].
  intros o k day Hk Ho. apply crossover_day_returns; auto.
  rewrite <- (grid_ok_nth _ Hgo Eb). eapply nth_error_In; eauto.
Qed.

Lemma crossover_returns (g : TimetableGenerator) (parent1 parent2 : Timetable.t) :
  grid_ok g parent1 -> grid_ok g parent2 ->
  List.length (Timetable.batches parent1) = List.length (Timetable.batches parent2) ->
  returns (crossover g parent1 parent2) (crossover_inv parent1 parent2).
Proof.
  intros Hg1 Hg2 Hlen. unfold crossover, crossover_inplace.
  apply forEach_returns.
  - intros o i Hi Ho. apply in_seq in Hi.
    rewrite (same_shape_length (json_copy_same_shape parent1)) in Hi.
    apply crossover_batch_returns; auto; lia.
  - split; [apply json_copy_same_shape|]. split.
    + intros i day slot c. apply cell_at_json_copy_class.
    + intros i day slot. now left.
Qed.

(** C10: for parents on the same grid the offspring holds, at every
    coordinate that parent 1 fills, the class parent 1 has there; a
    coordinate where the offspring differs from the copy of parent 1 was
    free in parent 1 and holds the class parent 2 has there. *)
Theorem crossover_keeps_parent1 (g : TimetableGenerator)
  (parent1 parent2 : Timetable.t) :
  grid_ok g parent1 -> grid_ok g parent2 ->
  List.length (Timetable.batches parent1) = List.length (Timetable.batches parent2) ->
  exists offspring,
    crossover g parent1 parent2 = Ok offspring /\
    (forall i day slot c,
       cell_at parent1 i day slot = Ok (CClass c) ->
       cell_at offspring i day slot = Ok (CClass c)) /\
    (forall i day slot,
       cell_at offspring i day slot = cell_at (json_copy parent1) i day slot \/
       exists ours theirs,
         cell_at (json_copy parent1) i day slot = Ok ours /\
         truthy ours = false /\
         cell_at parent2 i day slot = Ok theirs /\ truthy theirs = true /\
         cell_at offspring i day slot = Ok theirs).
Proof.
  intros Hg1 Hg2 Hlen.
  destruct (crossover_returns Hg1 Hg2 Hlen) as (offspring & E & _ & Hkeep & Honly).
  exists offspring. auto.
Qed.

Lemma crossover_keeps_parent1_witness :
  exists offspring,
    crossover twoDays parentA parentB = Ok offspring /\
    cell_at offspring 0 "Monday" "09:00-10:00"
    = Ok (CClass (classInfo "Maths" "Dr. Rao" "Room-101")).
Proof.
  destruct (@crossover_keeps_parent1 twoDays parentA parentB)
    as (offspring & E & Hkeep & _).
  - repeat constructor.
  - repeat constructor.
  - reflexivity.
  - exists offspring. split; [exact E|]. apply Hkeep. reflexivity.
Defined.

Example crossover_parentA_parentB :
  crossover twoDays parentA parentB
  = Ok (timetableOf
          [ batchOf 0
              [("Monday", [("09:00-10:00",
                            CClass (classInfo "Maths" "Dr. Rao" "Room-101"))]);
               ("Tuesday", [("09:00-10:00",
                             CClass (classInfo "Physics" "Dr. Iyer" "Room-101"))])] ]).
Proof. reflexivity. Qed.

(** ** Randomised computations *)

Lemma rng_ok_tail (u : Q) (rng : Rng) : rng_ok (u :: rng) -> rng_ok rng.
Proof. intros H. now inversion H. Qed.

Lemma random_index_range (u : Q) (n : nat) :
  (0 <= u)%Q -> (u < 1)%Q -> (0 < n)%nat ->
  0 <= Qfloor (u * inject_Z (Z.of_nat n)) < Z.of_nat n.
Proof.
  intros H0 H1 Hn.
  assert (Hpos : (0 < inject_Z (Z.of_nat n))%Q)
    by (change 0%Q with (inject_Z 0); rewrite <- Zlt_Qlt; lia).
  split.
  - change 0 with (Qfloor 0). apply Qfloor_resp_le. nra.
  - rewrite Zlt_Qlt. eapply Qle_lt_trans; [apply Qfloor_le|]. nra.
Qed.

Lemma returnsR_ret {A} (a : A) (P : A -> Prop) : P a -> returnsR (ret a) P.
Proof. intros H rng Hrng. exists a, rng. auto. Qed.

Lemma returnsR_bind {A B} (m : Rand A) (k : A -> Rand B)
  (P : A -> Prop) (Q : B -> Prop) :
  returnsR m P -> (forall a, P a -> returnsR (k a) Q) -> returnsR (bindR m k) Q.
Proof.
  intros Hm Hk rng Hrng. destruct (Hm rng Hrng) as (a & rng1 & E & Hrng1 & Ha).
  unfold bindR. rewrite E. now apply Hk.
Qed.

Lemma returnsR_lift {A} (m : Result A) (P : A -> Prop) :
  returns m P -> returnsR (lift m) P.
Proof.
  intros (a & -> & Ha) rng Hrng. exists a, rng. auto.
Qed.

Lemma returnsR_bind_Ok {A B} (a : A) (k : A -> Rand B) (Q : B -> Prop) :
  returnsR (k a) Q -> returnsR (bindR (lift (Ok a)) k) Q.
Proof. intros H rng Hrng. unfold bindR, lift. now apply H. Qed.

Lemma returnsR_weaken {A} (m : Rand A) (P Q : A -> Prop) :
  returnsR m P -> (forall a, P a -> Q a) -> returnsR m Q.
Proof.
  intros Hm H rng Hrng. destruct (Hm rng Hrng) as (a & rng' & E & Hr & Ha).
  exists a, rng'. auto.
Qed.

Lemma returnsR_random : returnsR random (fun u => (0 <= u)%Q /\ (u < 1)%Q).
Proof.
  intros [|u rng] Hrng; simpl.
  - exists 0%Q, []. repeat split; auto; lra.
  - exists u, rng. inversion Hrng; subst. auto.
Qed.

(** [Math.floor(Math.random() * n)] is an index of an array of [n > 0]
    elements. *)
Lemma returnsR_randomIndex (n : nat) :
  returnsR (randomIndex n)
           (fun k => (0 < n)%nat -> 0 <= k < Z.of_nat n).
Proof.
  unfold randomIndex. eapply returnsR_bind; [apply returnsR_random|].
  intros u [H0 H1]. apply returnsR_ret. intros Hn.
  now apply random_index_range.
Qed.


Lemma arr_get_Some {A} (l : list A) (k : Z) :
  0 <= k < Z.of_nat (List.length l) ->
  exists x, arr_get l k = Some x /\ nth_error l (Z.to_nat k) = Some x.
Proof.
  intros H. unfold arr_get. destruct (Z.ltb_spec k 0); [lia|].
  destruct (nth_error l (Z.to_nat k)) as [x|] eqn:E; [eauto|].
  apply nth_error_None in E. lia.
Qed.

(** ** Mutation *)

Lemma key_at_In (keys : list string) (k : Z) :
  0 <= k < Z.of_nat (List.length keys) -> In (key_at keys k) keys.
Proof.
  intros H. destruct (arr_get_Some keys H) as (x & E & Hx).
  unfold key_at. rewrite E. cbn. eapply nth_error_In; eauto.
Qed.

Lemma mutate_scan_returns (batch : Batch.t) :
  returns (mutate_scan batch)
    (fun scan => forall c, In c (fst scan ++ snd scan) ->
                           In (fst c) (obj_keys (Batch.schedule batch))).
Proof.
  unfold mutate_scan.
  apply forEach_returns; [|intros c []].
  intros acc day Hday Hacc.
  pose proof Hday as Hd. apply obj_get_In in Hd.
  destruct (obj_get day (Batch.schedule batch)) as [d|]; [|congruence].
  apply forEach_returns; [|exact Hacc].
  intros acc' slot _ Hacc'.
  destruct (truthy (day_get d slot)); apply returns_Ok; cbn [fst snd];
    intros c Hc; specialize (Hacc' c);
    rewrite !in_app_iff in Hc; rewrite in_app_iff in Hacc'; cbn [In] in Hc;
    intuition (subst; auto).
Qed.

Lemma mutate_move_returns (g : TimetableGenerator) (t : Timetable.t) (i : nat)
  (from to : string * string) (P : Timetable.t -> Prop) :
  grid_ok g t -> (i < List.length (Timetable.batches t))%nat ->
  In (fst from) (days g) -> In (fst to) (days g) ->
  (forall t', same_shape t t' ->
     (forall j, j <> i ->
        nth_error (Timetable.batches t') j = nth_error (Timetable.batches t) j) ->
     P t') ->
  forall v,
  returns (moving <- cell_at t i (fst from) (snd from) ;;
           m <- set_cell t i (fst to) (snd to) (v moving) ;;
           set_cell m i (fst from) (snd from) CNull) P.
Proof.
  intros Hgrid Hi Hfrom Hto HP v.
  destruct (cell_at_returns (fst from) (snd from) Hgrid Hi Hfrom) as (c & Ec).
  rewrite Ec. cbn [bind].
  destruct (set_cell_returns (fst to) (snd to) (v c) Hgrid Hi Hto) as (m & Em).
  rewrite Em. cbn [bind].
  pose proof (set_cell_same_shape Em) as Hs.
  assert (Hgm : grid_ok g m) by (eapply same_shape_grid_ok; eauto).
  assert (Him : (i < List.length (Timetable.batches m))%nat)
    by now rewrite (same_shape_length Hs).
  destruct (set_cell_returns (fst from) (snd from) CNull Hgm Him Hfrom) as (t' & Et).
  rewrite Et. apply returns_Ok. apply HP.
  - eapply same_shape_trans; [exact Hs|]. exact (set_cell_same_shape Et).
  - intros j Hj. rewrite (set_cell_other_batch Et) by congruence.
    apply (set_cell_other_batch Em). congruence.
Qed.

Lemma mutate_swap_returns (g : TimetableGenerator) (t : Timetable.t) (i : nat)
  (day1 slot1 day2 slot2 : string) (P : Timetable.t -> Prop) :
  grid_ok g t -> (i < List.length (Timetable.batches t))%nat ->
  In day1 (days g) -> In day2 (days g) ->
  (forall t', same_shape t t' ->
     (forall j, j <> i ->
        nth_error (Timetable.batches t') j = nth_error (Timetable.batches t) j) ->
     P t') ->
  returns (temp <- cell_at t i day1 slot1 ;;
           other <- cell_at t i day2 slot2 ;;
           m <- set_cell t i day1 slot1 other ;;
           set_cell m i day2 slot2 temp) P.
Proof.
  intros Hgrid Hi H1 H2 HP.
  destruct (cell_at_returns day1 slot1 Hgrid Hi H1) as (temp & E1).
  destruct (cell_at_returns day2 slot2 Hgrid Hi H2) as (other & E2).
  rewrite E1. cbn [bind]. rewrite E2. cbn [bind].
  destruct (set_cell_returns day1 slot1 other Hgrid Hi H1) as (m & Em).
  rewrite Em. cbn [bind].
  pose proof (set_cell_same_shape Em) as Hs.
  assert (Hgm : grid_ok g m) by (eapply same_shape_grid_ok; eauto).
  assert (Him : (i < List.length (Timetable.batches m))%nat)
    by now rewrite (same_shape_length Hs).
  destruct (set_cell_returns day2 slot2 temp Hgm Him H2) as (t' & Et).
  rewrite Et. apply returns_Ok. apply HP.
  - eapply same_shape_trans; [exact Hs|]. exact (set_cell_same_shape Et).
  - intros j Hj. rewrite (set_cell_other_batch Et) by congruence.
    apply (set_cell_other_batch Em). congruence.
Qed.

Lemma mutate_batch_frame (g : TimetableGenerator) (t : Timetable.t) (b : Z) :
  grid_ok g t -> days g <> [] ->
  0 <= b < Z.of_nat (List.length (Timetable.batches t)) ->
  returnsR (mutate_batch t b)
    (fun t' =>
       same_shape t t' /\
       forall j, j <> Z.to_nat b ->
         nth_error (Timetable.batches t') j = nth_error (Timetable.batches t) j).
Proof.
  intros Hgrid Hdays Hb. unfold mutate_batch.
  destruct (arr_get_Some _ Hb) as (batch & -> & Ebatch).
  assert (Hi : (Z.to_nat b < List.length (Timetable.batches t))%nat) by lia.
  pose proof (grid_ok_nth _ Hgrid Ebatch) as Hkeys.
  eapply returnsR_bind; [apply returnsR_lift, mutate_scan_returns|].
  intros [emptySlots filledSlots] Hscan. cbn [fst snd] in *.
  rewrite Hkeys in Hscan.
  destruct (Nat.eqb_spec (List.length emptySlots) 0) as [|He];
    [|destruct (Nat.eqb_spec (List.length filledSlots) 0) as [|Hf]];
    cbn [negb andb].
  3:{ (* a class moves to a free slot *)
      eapply returnsR_bind; [apply returnsR_randomIndex|]. intros e Hre.
      eapply returnsR_bind; [apply returnsR_randomIndex|]. intros f Hrf.
      destruct (arr_get_Some emptySlots (Hre ltac:(lia))) as (re & -> & Hre').
      destruct (arr_get_Some filledSlots (Hrf ltac:(lia))) as (rf & -> & Hrf').
      apply returnsR_lift.
      apply (@mutate_move_returns g t (Z.to_nat b) rf re) with (v := fun c => c);
        auto.
      - apply Hscan, in_or_app. right. eapply nth_error_In; eauto.
      - apply Hscan, in_or_app. left. eapply nth_error_In; eauto. }
  all: (* two slots are swapped *)
    assert (Hlen : (0 < List.length (obj_keys (Batch.schedule batch)))%nat)
      by (rewrite Hkeys; destruct (days g); [congruence | simpl; lia]);
    (eapply returnsR_bind; [apply returnsR_randomIndex|]); intros d1 Hd1;
    (eapply returnsR_bind; [apply returnsR_randomIndex|]); intros d2 Hd2;
    pose proof (key_at_In _ (Hd1 Hlen)) as Hday1;
    pose proof (key_at_In _ (Hd2 Hlen)) as Hday2;
    unfold keys_of_day;
    destruct (obj_get (key_at (obj_keys (Batch.schedule batch)) d1)
                      (Batch.schedule batch)) as [dd1|] eqn:E1;
      [|apply obj_get_In in Hday1; congruence];
    destruct (obj_get (key_at (obj_keys (Batch.schedule batch)) d2)
                      (Batch.schedule batch)) as [dd2|] eqn:E2;
      [|apply obj_get_In in Hday2; congruence];
    apply returnsR_bind_Ok; apply returnsR_bind_Ok;
    (eapply returnsR_bind; [apply returnsR_randomIndex|]); intros s1 _;
    (eapply returnsR_bind; [apply returnsR_randomIndex|]); intros s2 _;
    apply returnsR_lift;
    apply (@mutate_swap_returns g); auto; rewrite <- Hkeys; assumption.
Qed.

(** C8: on a timetable whose batches have the working days, [mutate]
    returns a timetable with the same number of batches in which every
    batch other than the one drawn, at index
    floor(random * batches.length), is the batch of the input, with the
    schedule it had. *)
Theorem mutate_one_batch (g : TimetableGenerator) (t : Timetable.t) (rng : Rng) :
  grid_ok g t -> json_clean t -> days g <> [] -> Timetable.batches t <> [] ->
  rng_ok rng ->
  exists t' rng',
    mutate t rng = Ok (t', rng') /\
    List.length (Timetable.batches t') = List.length (Timetable.batches t) /\
    (chosenBatch t rng < List.length (Timetable.batches t))%nat /\
    forall j,
      j <> chosenBatch t rng ->
      nth_error (Timetable.batches t') j = nth_error (Timetable.batches t) j /\
      Batch.schedule (batch_of t' j) = Batch.schedule (batch_of t j).
Proof.
  intros Hgrid Hclean Hdays Hbatches Hrng.
  unfold mutate, mutate_inplace. rewrite (json_copy_clean Hclean).
  assert (Hn : (0 < List.length (Timetable.batches t))%nat)
    by (destruct (Timetable.batches t); [congruence | simpl; lia]).
  destruct (returnsR_randomIndex (List.length (Timetable.batches t)) Hrng)
    as (b & rng1 & Eb & Hrng1 & Hb).
  specialize (Hb Hn).
  assert (Hchosen : chosenBatch t rng = Z.to_nat b).
  { unfold chosenBatch. unfold randomIndex, bindR, random, ret in Eb.
    destruct rng as [|u rng]; injection Eb as <- _; reflexivity. }
  destruct (mutate_batch_frame Hgrid Hdays Hb Hrng1)
    as (t' & rng' & E & _ & Hshape & Hframe).
  exists t', rng'. unfold bindR. rewrite Eb.
  split; [exact E|]. split; [now apply same_shape_length|].
  split; [lia|]. intros j Hj.
  rewrite Hchosen in Hj. split; [now apply Hframe|].
  unfold batch_of. now rewrite !nth_nth_error, (Hframe j Hj).
Qed.

Lemma mutate_one_batch_witness :
  exists t' rng',
    mutate sameFaculty [3 # 4] = Ok (t', rng') /\
    chosenBatch sameFaculty [3 # 4] = 1%nat /\
    nth_error (Timetable.batches t') 0 = nth_error (Timetable.batches sameFaculty) 0.
Proof.
  destruct sameFaculty_well_formed as (Hgrid & _ & _ & Hclean).
  destruct (@mutate_one_batch oneByOne sameFaculty [3 # 4] Hgrid Hclean)
    as (t' & rng' & E & _ & _ & H).
  - discriminate.
  - discriminate.
  - repeat constructor; cbn; lra.
  - exists t', rng'. split; [exact E|]. split; [reflexivity|].
    apply (H 0%nat). discriminate.
Defined.

(** ** Gap filling *)

Lemma NoDup_list_prod {A B} (l : list A) (l' : list B) :
  NoDup l -> NoDup l' -> NoDup (list_prod l l').
Proof.
  intros Hl Hl'. induction Hl as [|x l Hx Hl IH]; simpl; [constructor|].
  apply NoDup_app.
  - apply Injective_map_NoDup; [|exact Hl'].
    intros y y' [= ->]. reflexivity.
  - exact IH.
  - intros [a b] Hab Hin. apply in_map_iff in Hab.
    destruct Hab as (y & [= <- <-] & _).
    apply in_prod_iff in Hin. tauto.
Qed.

(** Changing a predicate at one element of a duplicate-free list changes
    its count by at most one. *)
Lemma count_update {A} (eq_dec : forall a b : A, {a = b} + {a <> b})
  (l : list A) (p q : A -> bool) (x : A) :
  NoDup l ->
  (forall y, In y l -> y <> x -> q y = p y) ->
  (List.length (filter q l) <= List.length (filter p l) + 1)%nat /\
  (q x = true -> (List.length (filter p l) <= List.length (filter q l))%nat) /\
  (In x l -> p x = false -> q x = true ->
   List.length (filter q l) = Datatypes.S (List.length (filter p l))).
Proof.
  intros Hnd. induction Hnd as [|y l Hy Hnd IH]; intros Hpq.
  - simpl. repeat split; try lia.
  - assert (Hrest : forall z, In z l -> z <> x -> q z = p z)
      by (intros z Hz; apply Hpq; now right).
    destruct (IH Hrest) as (IH1 & IH2 & IH3). cbn [filter].
    assert (Hy' : y <> x -> q y = p y) by (apply Hpq; now left).
    assert (Hsame : ~ In x l ->
                    List.length (filter q l) = List.length (filter p l)).
    { intros Hx. f_equal. apply filter_ext_in. intros z Hz. apply Hrest; [exact Hz|].
      intros ->. contradiction. }
    split; [|split].
    + destruct (q y) eqn:Eq, (p y) eqn:Ep; cbn [List.length]; try lia.
      assert (y = x) as ->
        by (destruct (eq_dec y x) as [|H]; [assumption | apply Hy' in H; congruence]).
      rewrite (Hsame Hy). lia.
    + intros Hq. specialize (IH2 Hq).
      destruct (q y) eqn:Eq, (p y) eqn:Ep; cbn [List.length]; try lia.
      assert (y = x) as ->
        by (destruct (eq_dec y x) as [|H]; [assumption | apply Hy' in H; congruence]).
      congruence.
    + intros [->|Hx] Hp Hq.
      * rewrite Hp, Hq. cbn [List.length]. now rewrite (Hsame Hy).
      * assert (Hne : y <> x) by (intros ->; contradiction).
        rewrite (Hy' Hne). specialize (IH3 Hx Hp Hq).
        destruct (p y); cbn [List.length]; lia.
Qed.

Lemma schedule_get_cell_of (b : Batch.t) (day slot : string) :
  In day (obj_keys (Batch.schedule b)) ->
  schedule_get (Batch.schedule b) day slot = Ok (cell_of b day slot).
Proof.
  intros H. unfold cell_of.
  destruct (schedule_get_returns (Batch.schedule b) day slot H) as (v & ->).
  reflexivity.
Qed.

Lemma fillGaps_scan_day (g : TimetableGenerator) (batch : Batch.t) (day : string)
  (slots : list string) (acc : Z * list (string * string)) :
  In day (obj_keys (Batch.schedule batch)) ->
  forEach slots
    (fun acc slot =>
       c <- schedule_get (Batch.schedule batch) day slot ;;
       if truthy c then Ok (fst acc + 1, snd acc)
       else Ok (fst acc, snd acc ++ [(day, slot)]))
    acc
  = Ok (fst acc
        + Z.of_nat (List.length (filter (filledAt batch) (map (pair day) slots))),
        snd acc
        ++ filter (fun coord => negb (filledAt batch coord)) (map (pair day) slots)).
Proof.
  intros Hday. revert acc. induction slots as [|slot slots IH]; intros acc.
  - simpl. rewrite app_nil_r, Z.add_0_r. now destruct acc.
  - cbn [forEach]. rewrite (schedule_get_cell_of _ _ slot Hday). cbn [bind map filter].
    change (truthy (cell_of batch day slot)) with (filledAt batch (day, slot)).
    destruct (filledAt batch (day, slot)); cbn [bind negb];
      rewrite IH; cbn [fst snd List.length]; f_equal;
      (apply f_equal2; [lia | now rewrite <- ?app_assoc]).
Qed.

Lemma fillGaps_scan_days (g : TimetableGenerator) (batch : Batch.t)
  (ds slots : list string) (acc : Z * list (string * string)) :
  (forall day, In day ds -> In day (obj_keys (Batch.schedule batch))) ->
  forEach ds
    (fun acc day =>
       forEach slots
         (fun acc slot =>
            c <- schedule_get (Batch.schedule batch) day slot ;;
            if truthy c then Ok (fst acc + 1, snd acc)
            else Ok (fst acc, snd acc ++ [(day, slot)]))
         acc)
    acc
  = Ok (fst acc
        + Z.of_nat (List.length (filter (filledAt batch) (list_prod ds slots))),
        snd acc
        ++ filter (fun coord => negb (filledAt batch coord)) (list_prod ds slots)).
Proof.
  revert acc. induction ds as [|day ds IH]; intros acc Hds.
  - simpl. rewrite app_nil_r, Z.add_0_r. now destruct acc.
  - cbn [forEach]. rewrite (list_prod_as_flat_map (day :: ds)).
    cbn [flat_map]. rewrite <- list_prod_as_flat_map.
    rewrite (fillGaps_scan_day g) by (apply Hds; now left). cbn [bind].
    rewrite IH by (intros d Hd; apply Hds; now right). cbn [fst snd].
    rewrite !filter_app, length_app, app_assoc. f_equal.
    apply f_equal2; [lia | reflexivity].
Qed.

(** The scan of [fillGaps] returns the number of filled coordinates and
    the free coordinates, in grid order. *)
Lemma fillGaps_scan_spec (g : TimetableGenerator) (batch : Batch.t) :
  obj_keys (Batch.schedule batch) = days g ->
  fillGaps_scan g batch = Ok (filledCount g batch, emptySlotsOf g batch).
Proof.
  intros Hkeys. unfold fillGaps_scan.
  rewrite (fillGaps_scan_days g) by (intros day Hd; now rewrite Hkeys).
  reflexivity.
Qed.

Lemma fillGaps_subjectCounts_returns (g : TimetableGenerator)
  (subjects : list string) (batch : Batch.t) :
  obj_keys (Batch.schedule batch) = days g ->
  returns (fillGaps_subjectCounts g subjects batch) (fun _ => True).
Proof.
  intros Hkeys. unfold fillGaps_subjectCounts.
  apply forEach_returns; [|exact I]. intros counts day Hday _.
  apply forEach_returns; [|exact I]. intros counts' slot _ _.
  rewrite schedule_get_cell_of by now rewrite Hkeys. cbn [bind].
  destruct (cell_of batch day slot) as [| |c]; try now apply returns_Ok.
  destruct (obj_get _ counts'); now apply returns_Ok.
Qed.

Lemma same_shape_rooms_available (g : TimetableGenerator) (t t' : Timetable.t) :
  same_shape t t' -> rooms_available g t -> rooms_available g t'.
Proof.
  unfold rooms_available. rewrite !Forall_forall. intros Hs H b' Hb'.
  apply In_nth_error in Hb'. destruct Hb' as [i Hi].
  destruct (same_shape_nth i (same_shape_sym Hs) Hi) as (b & Hb & E).
  apply nth_error_In in Hb. specialize (H b Hb).
  unfold shape in E. injection E as E _. now rewrite <- E.
Qed.

Lemma In_obj_set {V} (k k' : string) (v v' : V) (o : JsObj V) :
  In (k', v') (obj_set k v o) -> v' = v \/ In (k', v') o.
Proof.
  induction o as [|[k0 v0] o IH]; simpl.
  - intros [[= _ <-]|[]]. now left.
  - destruct (String.eqb k k0); simpl.
    + intros [[= _ <-]|H]; auto.
    + intros [H|H]; auto. destruct (IH H); auto.
Qed.

Lemma set_cell_rooms_ok (t t' : Timetable.t) (i : nat) (day slot : string)
  (v : Cell) :
  rooms_ok t -> cell_room_ok v -> set_cell t i day slot v = Ok t' -> rooms_ok t'.
Proof.
  intros Hrooms Hv H. apply set_cell_inv in H.
  destruct H as (b & d & Hb & Hd & ->).
  intros b' day' d' slot' c Hb' Hd' Hc. cbn in Hb'.
  apply In_arr_set in Hb'. destruct Hb' as [->|Hb'].
  - cbn in Hd'. apply In_obj_set in Hd'. destruct Hd' as [->|Hd'].
    + apply In_obj_set in Hc. destruct Hc as [[= <-]|Hc]; [exact Hv|].
      apply (Hrooms b day d slot' c); auto.
      * eapply nth_error_In; eauto.
      * now apply obj_get_Some_In.
    + apply (Hrooms b day' d' slot' c); auto. eapply nth_error_In; eauto.
  - apply (Hrooms b' day' d' slot' c); auto.
Qed.

Arguments set_cell_rooms_ok {t t' i day slot v} _ _ _.

Lemma isValidAssignment_returns (g : TimetableGenerator) (t : Timetable.t)
  (assignment : Assignment.t) :
  grid_ok g t -> rooms_ok t -> In (Assignment.day assignment) (days g) ->
  exists verdict, isValidAssignment t assignment = Ok verdict.
Proof.
  intros Hgrid Hrooms Hday. unfold isValidAssignment.
  assert (H : forall b, In b (Timetable.batches t) ->
                obj_keys (Batch.schedule b) = days g /\
                forall d slot c, In (Assignment.day assignment, d) (Batch.schedule b) ->
                                 In (slot, CClass c) d -> ClassInfo.room c <> None).
  { intros b Hb. split.
    - unfold grid_ok in Hgrid. rewrite Forall_forall in Hgrid. now apply Hgrid.
    - intros d slot c Hd Hc. exact (Hrooms b _ d slot c Hb Hd Hc). }
  induction (Timetable.batches t) as [|batch rest IH]; [now exists true|].
  destruct IH as (v & Ev); [intros b Hb; apply H; now right|].
  cbn [isValidAssignment_loop]. rewrite Ev.
  destruct (Batch.id batch =? Assignment.batch assignment); [eauto|].
  destruct (H batch (or_introl eq_refl)) as (Hkeys & Hr).
  unfold schedule_get.
  destruct (obj_get (Assignment.day assignment) (Batch.schedule batch))
    as [d|] eqn:Ed.
  2:{ exfalso. rewrite <- Hkeys in Hday. apply obj_get_In in Hday. congruence. }
  cbn [bind].
  destruct (day_get d (Assignment.slot assignment)) as [| |c] eqn:Ec; eauto.
  destruct (jsstring_eqb (ClassInfo.faculty c) _); [eauto|].
  destruct (jsstring_eqb (ClassInfo.room c) (Assignment.room assignment)) eqn:Er;
    [|eauto].
  apply jsstring_eqb_eq in Er.
  assert (ClassInfo.room c <> None).
  { apply (Hr d (Assignment.slot assignment)).
    - now apply obj_get_Some_In.
    - now apply day_get_class_In. }
  destruct (Assignment.room assignment) as [r|]; [|congruence].
  destruct (negb (includes "Lab" r)); eauto.
Qed.

Lemma cell_of_cell_at (t : Timetable.t) (i : nat) (b : Batch.t) (day slot : string) :
  nth_error (Timetable.batches t) i = Some b ->
  cell_of b day slot
  = match cell_at t i day slot with Ok c => c | TypeError => CUndefined end.
Proof.
  intros H. unfold cell_of, cell_at, batch_at. now rewrite H.
Qed.

(** A write changes the number of filled coordinates of its batch by at
    most one, and fills one more when it puts a class on a free one. *)
Lemma filledCount_set_cell (g : TimetableGenerator) (o o' : Timetable.t)
  (i : nat) (day slot : string) (v : Cell) :
  NoDup (gridCoords g) ->
  set_cell o i day slot v = Ok o' ->
  filledCount g (batch_of o' i) <= filledCount g (batch_of o i) + 1 /\
  (truthy v = true ->
   filledCount g (batch_of o i) <= filledCount g (batch_of o' i)) /\
  (In (day, slot) (gridCoords g) ->
   filledAt (batch_of o i) (day, slot) = false -> truthy v = true ->
   filledCount g (batch_of o' i) = filledCount g (batch_of o i) + 1).
Proof.
  intros Hnd Hset.
  destruct (set_cell_inv Hset) as (b & d & Hb & Hd & E).
  assert (Hb' : exists b', nth_error (Timetable.batches o') i = Some b').
  { destruct (nth_error (Timetable.batches o') i) eqn:X; [eauto|].
    apply nth_error_None in X. rewrite (set_cell_length Hset) in X.
    apply nth_error_None in X. congruence. }
  destruct Hb' as (b' & Hb').
  rewrite (batch_of_nth _ _ Hb), (batch_of_nth _ _ Hb').
  assert (Hother : forall y, In y (gridCoords g) -> y <> (day, slot) ->
                             filledAt b' y = filledAt b y).
  { intros [day' slot'] _ Hne. unfold filledAt. cbn [fst snd].
    rewrite (cell_of_cell_at _ _ day' slot' Hb'), (cell_of_cell_at _ _ day' slot' Hb).
    rewrite (cell_at_set_cell_neq Hset); [reflexivity|]. congruence. }
  assert (Hhere : filledAt b' (day, slot) = truthy v).
  { unfold filledAt. cbn [fst snd]. rewrite (cell_of_cell_at _ _ day slot Hb').
    now rewrite (cell_at_set_cell_eq Hset). }
  assert (eq_dec : forall a c : string * string, {a = c} + {a <> c})
    by (decide equality; apply string_dec).
  destruct (count_update eq_dec (filledAt b) (filledAt b') (x := (day, slot))
              Hnd Hother) as (H1 & H2 & H3).
  unfold filledCount. rewrite Hhere in *. repeat split; intros; try lia.
  - specialize (H2 H). lia.
  - rewrite H3 by assumption. lia.
Qed.

Arguments filledCount_set_cell g {o o' i day slot v} _ _.

Lemma fillGaps_fill_returns (g : TimetableGenerator) (t0 : Timetable.t)
  (subjects : list string) (i : nat) (o : Timetable.t)
  (emptySlot : string * string) :
  grid_ok g t0 -> rooms_available g t0 ->
  fill_inv g t0 o -> (i < List.length (Timetable.batches o))%nat ->
  In (fst emptySlot) (days g) ->
  returnsR (fillGaps_fill g subjects i o emptySlot)
    (fun o' =>
       fill_inv g t0 o' /\
       (o' = o \/
        exists c, set_cell o i (fst emptySlot) (snd emptySlot) (CClass c) = Ok o')).
Proof.
  intros Hg0 Hav (Hshape & Hrooms) Hi Hday.
  assert (Hgo : grid_ok g o) by (eapply same_shape_grid_ok; eauto).
  assert (Havo : rooms_available g o) by (eapply same_shape_rooms_available; eauto).
  unfold fillGaps_fill, batch_at.
  destruct (nth_error (Timetable.batches o) i) as [batch|] eqn:Eb;
    [|apply nth_error_None in Eb; lia].
  apply returnsR_bind_Ok.
  pose proof (grid_ok_nth _ Hgo Eb) as Hkeys.
  eapply returnsR_bind;
    [apply returnsR_lift, (fillGaps_subjectCounts_returns g subjects _ Hkeys)|].
  intros counts _.
  eapply returnsR_bind; [apply returnsR_randomIndex|]. intros k _.
  match goal with
  | |- context [isValidAssignment o ?a] =>
      destruct (@isValidAssignment_returns g o a Hgo Hrooms Hday)
        as (valid & ->)
  end.
  apply returnsR_bind_Ok.
  destruct valid.
  - cbn [Assignment.subject Assignment.faculty Assignment.room].
    match goal with
    | |- context [set_cell o i ?d ?s ?v] =>
        destruct (set_cell_returns d s v Hgo Hi Hday) as (o' & Eset)
    end.
    rewrite Eset. apply returnsR_lift, returns_Ok. split; [split|].
    + eapply same_shape_trans; [exact Hshape | exact (set_cell_same_shape Eset)].
    + refine (set_cell_rooms_ok Hrooms _ Eset).
      unfold rooms_available in Havo. rewrite Forall_forall in Havo.
      cbn. apply Havo. eapply nth_error_In; eauto.
    + right. eexists. exact Eset.
  - apply returnsR_ret. split; [split; assumption | now left].
Qed.

Lemma In_firstn {A} (n : nat) (l : list A) (x : A) :
  In x (firstn n l) -> In x l.
Proof.
  intros H. rewrite <- (firstn_skipn n l). apply in_or_app. now left.
Qed.

Lemma fillGaps_batch_returns (g : TimetableGenerator) (t0 : Timetable.t)
  (subjects : list string) (o : Timetable.t) (i : nat) :
  grid_ok g t0 -> rooms_available g t0 -> NoDup (gridCoords g) ->
  fill_inv g t0 o -> (i < List.length (Timetable.batches o))%nat ->
  returnsR (fillGaps_batch g subjects o i)
    (fun o' =>
       fill_inv g t0 o' /\
       (forall j, j <> i ->
          nth_error (Timetable.batches o') j = nth_error (Timetable.batches o) j) /\
       fill_bounds g (batch_of o i) (batch_of o' i)).
Proof.
  intros Hg0 Hav Hnd Hinv Hi.
  pose proof Hinv as (Hshape & _).
  assert (Hgo : grid_ok g o) by (eapply same_shape_grid_ok; eauto).
  unfold fillGaps_batch, batch_at.
  destruct (nth_error (Timetable.batches o) i) as [batch|] eqn:Eb;
    [|apply nth_error_None in Eb; lia].
  apply returnsR_bind_Ok.
  rewrite (fillGaps_scan_spec g _ (grid_ok_nth _ Hgo Eb)).
  apply returnsR_bind_Ok. cbn [fst snd].
  rewrite (batch_of_nth _ _ Eb).
  set (n := Z.max 0 (Z.min (Z.of_nat (List.length (emptySlotsOf g batch)))
                           (Z.of_nat (List.length (days g))
                            * Parameters.maxClasses (parameters g) - 1
                            - filledCount g batch))).
  assert (Hn : n = slotsToFill g batch) by reflexivity.
  assert (Hn0 : 0 <= n) by (unfold n; lia).
  clearbody n.
  unfold slice0. destruct (Z.ltb_spec n 0) as [Hneg|_]; [lia|].
  set (todo := firstn (Z.to_nat n) (emptySlotsOf g batch)).
  assert (Hlen : Z.of_nat (List.length todo) <= n).
  { unfold todo.
    pose proof (firstn_le_length (Z.to_nat n) (emptySlotsOf g batch)). lia. }
  assert (Htodo : forall x, In x todo -> In (fst x) (days g)).
  { intros [day slot] Hx. unfold todo in Hx. apply In_firstn in Hx. unfold emptySlotsOf in Hx.
    apply filter_In in Hx. destruct Hx as [Hx _]. unfold gridCoords in Hx.
    apply in_prod_iff in Hx. tauto. }
  clearbody todo.
  assert (Hloop : forall l s,
             (forall x, In x l -> In (fst x) (days g)) ->
             fill_inv g t0 s ->
             (forall j, j <> i ->
                nth_error (Timetable.batches s) j = nth_error (Timetable.batches o) j) ->
             returnsR (forEachR l (fillGaps_fill g subjects i) s)
               (fun o' =>
                  fill_inv g t0 o' /\
                  (forall j, j <> i ->
                     nth_error (Timetable.batches o') j
                     = nth_error (Timetable.batches o) j) /\
                  filledCount g (batch_of s i) <= filledCount g (batch_of o' i)
                  <= filledCount g (batch_of s i) + Z.of_nat (List.length l))).
  { induction l as [|x l IH]; intros s Hl Hs Hframe.
    - apply returnsR_ret. cbn [List.length].
      split; [exact Hs|]. split; [exact Hframe|]. lia.
    - cbn [forEachR].
      assert (His : (i < List.length (Timetable.batches s))%nat).
      { destruct Hs as (Hss & _).
        rewrite (same_shape_length Hss), <- (same_shape_length Hshape). exact Hi. }
      eapply returnsR_bind.
      + apply (@fillGaps_fill_returns g t0 subjects i s x Hg0 Hav Hs His).
        apply Hl. now left.
      + intros s' (Hs' & Hstep).
        eapply returnsR_weaken.
        * apply IH; [intros y Hy; apply Hl; now right | exact Hs' |].
          intros j Hj. destruct Hstep as [->|(c & Eset)]; [now apply Hframe|].
          rewrite (set_cell_other_batch Eset) by congruence. now apply Hframe.
        * cbn beta. intros o' (Ho' & Hfr & Hcount).
          split; [exact Ho'|]. split; [exact Hfr|].
          cbn [List.length].
          destruct Hstep as [->|(c & Eset)]; [clear - Hcount; lia|].
          destruct (filledCount_set_cell g Hnd Eset) as (H1 & H2 & _).
          specialize (H2 eq_refl). clear - H1 H2 Hcount. lia. }
  eapply returnsR_weaken.
  - apply (Hloop todo o Htodo Hinv). auto.
  - cbn beta. intros o' (Ho' & Hfr & Hcount).
    split; [exact Ho'|]. split; [exact Hfr|].
    unfold fill_bounds. rewrite <- Hn. rewrite (batch_of_nth _ _ Eb) in Hcount.
    clear - Hcount Hlen. lia.
Qed.

Lemma fillGaps_batches_returns (g : TimetableGenerator) (t0 : Timetable.t)
  (subjects : list string) (l : list nat) (o : Timetable.t) :
  grid_ok g t0 -> rooms_available g t0 -> NoDup (gridCoords g) ->
  NoDup l -> (forall i, In i l -> (i < List.length (Timetable.batches t0))%nat) ->
  fill_inv g t0 o ->
  returnsR (forEachR l (fillGaps_batch g subjects) o)
    (fun o' =>
       fill_inv g t0 o' /\
       (forall j, ~ In j l ->
          nth_error (Timetable.batches o') j = nth_error (Timetable.batches o) j) /\
       (forall j, In j l -> fill_bounds g (batch_of o j) (batch_of o' j))).
Proof.
  intros Hg0 Hav Hnd Hl. revert o.
  induction Hl as [|i l Hi Hl IH]; intros o Hlen Ho.
  - apply returnsR_ret. split; [exact Ho|]. split; [reflexivity|]. intros j [].
  - cbn [forEachR].
    assert (Hio : (i < List.length (Timetable.batches o))%nat).
    { destruct Ho as (Hs & _). rewrite (same_shape_length Hs).
      apply Hlen. now left. }
    eapply returnsR_bind;
      [apply (@fillGaps_batch_returns g t0 subjects o i Hg0 Hav Hnd Ho Hio)|].
    cbn beta. intros o1 (Ho1 & Hfr1 & Hb1).
    eapply returnsR_weaken;
      [apply (IH o1); [intros j Hj; apply Hlen; now right | exact Ho1]|].
    cbn beta. intros o' (Ho' & Hfr & Hb). split; [exact Ho'|]. split.
    + intros j Hj. rewrite Hfr by (intros H; apply Hj; now right).
      apply Hfr1. intros ->. apply Hj. now left.
    + intros j [<-|Hj].
      * rewrite (batch_of_ext o' o1 i (Hfr i Hi)). exact Hb1.
      * rewrite <- (batch_of_ext o1 o j); [now apply Hb|].
        apply Hfr1. intros ->. contradiction.
Qed.

Lemma json_day_cons (k : string) (v : Cell) (d : DaySchedule) :
  json_day ((k, v) :: d)
  = match v with
    | CUndefined => json_day d
    | _ => (k, v) :: json_day d
    end.
Proof. now destruct v. Qed.

Lemma day_get_json_day (d : DaySchedule) (slot : string) :
  NoDup (obj_keys d) -> day_get (json_day d) slot = day_get d slot.
Proof.
  unfold day_get. induction d as [|[k v] d IH]; intros Hnd; [reflexivity|].
  inversion Hnd as [|? ? Hk Hnd']; subst. rewrite json_day_cons.
  cbn [obj_get]. destruct (String.eqb_spec slot k) as [->|Hne].
  - destruct v; cbn [obj_get]; rewrite ?String.eqb_refl; try reflexivity.
    destruct (obj_get k (json_day d)) eqn:E; [|reflexivity].
    exfalso. apply Hk. apply obj_get_Some_In, json_day_In in E.
    change k with (fst (k, c)). now apply in_map.
  - destruct v; cbn [obj_get];
      try (destruct (String.eqb_spec slot k); [contradiction|]); now apply IH.
Qed.






Ltac nodup_strings :=
  repeat (apply NoDup_cons; [simpl; intuition discriminate|]); apply NoDup_nil.




(** ** Conflict repair *)















(** ** Operators on references *)





Lemma returned_trans (st st1 st2 : Heap.State) (r1 r2 : Heap.ref)
  (v1 v2 : Timetable.t) (rng1 rng2 : Rng) :
  returned st r1 st1 v1 rng1 -> returned st1 r2 st2 v2 rng2 ->
  returned st r2 st2 v2 rng2.
Proof.
  intros (F1 & U1 & R1 & G1) (F2 & U2 & R2 & G2). split; [|split; [|split]]; auto.
  - unfold fresh in *. destruct (nth_error (Heap.objects st) r2) eqn:E; [|reflexivity].
    apply U1 in E. congruence.
  - intros r t H. apply U2, U1, H.
Qed.









(** ** Constraint-first strategy *)

Lemma obj_set_absent {V} (k : string) (v : V) (o : JsObj V) :
  ~ In k (obj_keys o) -> obj_set k v o = o ++ [(k, v)].
Proof.
  induction o as [|[k' v'] o IH]; simpl; [reflexivity|].
  intros H. destruct (String.eqb_spec k k') as [->|Hne].
  - exfalso. apply H. now left.
  - f_equal. apply IH. intros Hin. apply H. now right.
Qed.

(** Setting keys that are all new and all different, one after the other,
    lists them in that order. *)
Lemma fold_obj_set_fresh {V} (f : string -> V) (l : list string) (acc : JsObj V) :
  NoDup l -> (forall k, In k l -> ~ In k (obj_keys acc)) ->
  fold_left (fun o k => obj_set k (f k) o) l acc
  = acc ++ map (fun k => (k, f k)) l.
Proof.
  intros Hnd. revert acc. induction Hnd as [|k l Hk Hnd IH]; intros acc Hacc; simpl.
  - now rewrite app_nil_r.
  - rewrite obj_set_absent by (apply Hacc; now left).
    rewrite IH.
    + now rewrite <- app_assoc.
    + intros k' Hk' Hin. unfold obj_keys in Hin. rewrite map_app in Hin.
      apply in_app_or in Hin. destruct Hin as [Hin|[<-|[]]].
      * apply (Hacc k'); [now right | exact Hin].
      * contradiction.
Qed.

Lemma emptyDay_map (g : TimetableGenerator) :
  NoDup (gridSlots g) ->
  emptyDay g = map (fun slot => (slot, CNull)) (gridSlots g).
Proof.
  intros H. unfold emptyDay.
  now rewrite (@fold_obj_set_fresh _ (fun _ => CNull) _ [] H) by (intros k _ []).
Qed.

Lemma emptySchedule_map (g : TimetableGenerator) :
  NoDup (days g) ->
  emptySchedule g = map (fun day => (day, emptyDay g)) (days g).
Proof.
  intros H. unfold emptySchedule.
  now rewrite (@fold_obj_set_fresh _ (fun _ => emptyDay g) _ [] H) by (intros k _ []).
Qed.

Lemma createEmptyTimetable_one (g : TimetableGenerator) :
  Parameters.batches (parameters g) = 1 ->
  Timetable.batches (createEmptyTimetable g)
  = [ {| Batch.id := 0; Batch.name := "Batch 1";
         Batch.schedule := emptySchedule g |} ].
Proof. intros H. unfold createEmptyTimetable. rewrite H. reflexivity. Qed.

Lemma emptySchedule_cells (g : TimetableGenerator) (day slot : string)
  (d : DaySchedule) (c : Cell) :
  NoDup (days g) -> NoDup (gridSlots g) ->
  In (day, d) (emptySchedule g) -> In (slot, c) d -> c = CNull.
Proof.
  intros Hdays Hslots Hd Hc. rewrite emptySchedule_map in Hd by assumption.
  apply in_map_iff in Hd. destruct Hd as (day' & [= _ <-] & _).
  rewrite emptyDay_map in Hc by assumption.
  apply in_map_iff in Hc. destruct Hc as (slot' & [= _ <-] & _). reflexivity.
Qed.

(** [createEmptyTimetable] meets the invariant of the placing loop. *)
Lemma createEmptyTimetable_place_inv (g : TimetableGenerator) :
  NoDup (days g) -> NoDup (gridSlots g) ->
  place_inv g (createEmptyTimetable g).
Proof.
  intros Hdays Hslots. split; [apply same_shape_refl|]. split.
  - intros b day d slot c Hb Hd Hc. exfalso.
    unfold createEmptyTimetable in Hb. cbn [Timetable.batches] in Hb.
    apply in_map_iff in Hb. destruct Hb as (i & <- & _). cbn in Hd.
    pose proof (@emptySchedule_cells g day slot d _ Hdays Hslots Hd Hc). discriminate.
  - intros b day d slot Hb Hd Hc.
    unfold createEmptyTimetable in Hb. cbn [Timetable.batches] in Hb.
    apply in_map_iff in Hb. destruct Hb as (i & <- & _). cbn in Hd.
    pose proof (@emptySchedule_cells g day slot d _ Hdays Hslots Hd Hc). discriminate.
Qed.

Lemma createEmptyTimetable_grid_ok (g : TimetableGenerator) :
  NoDup (days g) -> grid_ok g (createEmptyTimetable g).
Proof.
  intros Hdays. unfold grid_ok. apply Forall_forall. intros b Hb.
  unfold createEmptyTimetable in Hb. cbn [Timetable.batches] in Hb.
  apply in_map_iff in Hb. destruct Hb as (i & <- & _). cbn [Batch.schedule].
  rewrite emptySchedule_map by assumption. unfold obj_keys.
  rewrite map_map. cbn [fst]. apply map_id.
Qed.

(** The only batch of a timetable of the placing loop. *)
Lemma place_inv_batch (g : TimetableGenerator) (t : Timetable.t) :
  Parameters.batches (parameters g) = 1 -> NoDup (days g) ->
  place_inv g t ->
  grid_ok g t /\
  exists b, Timetable.batches t = [b] /\ Batch.id b = 0 /\
            obj_keys (Batch.schedule b) = days g /\ batch_of t 0 = b.
Proof.
  intros H1 Hdays (Hs & _).
  assert (Hgrid : grid_ok g t)
    by (eapply same_shape_grid_ok; [exact Hs | now apply createEmptyTimetable_grid_ok]).
  split; [exact Hgrid|].
  unfold same_shape in Hs. rewrite (createEmptyTimetable_one g H1) in Hs.
  destruct (Timetable.batches t) as [|b [|b' bs]] eqn:E; try discriminate.
  exists b. split; [reflexivity|]. cbn in Hs. injection Hs as Hid Hkeys.
  split; [now symmetry|]. split.
  - unfold grid_ok in Hgrid. rewrite E in Hgrid. now inversion Hgrid.
  - unfold batch_of. now rewrite E.
Qed.

Lemma filter_none {A} (f : A -> bool) (l : list A) :
  (forall x, In x l -> f x = false) -> filter f l = [].
Proof.
  induction l as [|x l IH]; intros H; simpl; [reflexivity|].
  rewrite (H x) by now left. apply IH. intros y Hy. apply H. now right.
Qed.

Lemma filter_forallb {A} (f : A -> bool) (l : list A) :
  (List.length (filter f l) <= List.length l)%nat /\
  (forallb f l = true -> List.length (filter f l) = List.length l) /\
  (forallb f l = false -> (List.length (filter f l) < List.length l)%nat).
Proof.
  induction l as [|x l (IH1 & IH2 & IH3)]; simpl.
  - repeat split; auto. discriminate.
  - destruct (f x); simpl.
    + split; [lia|]. split; intros H; [rewrite IH2 by exact H; reflexivity|].
      specialize (IH3 H). lia.
    + split; [lia|]. split; [discriminate|]. intros _. lia.
Qed.

Lemma filter_negb_nil {A} (f : A -> bool) (l : list A) :
  List.length (filter f l) = List.length l ->
  filter (fun x => negb (f x)) l = [].
Proof.
  induction l as [|x l IH]; simpl; [reflexivity|].
  pose proof (filter_forallb f l) as (Hle & _).
  destruct (f x); simpl; intros H; [apply IH; lia | lia].
Qed.

(** Once every coordinate is counted as filled, none is listed as free. *)
Lemma filledCount_fullWeek (g : TimetableGenerator) (t : Timetable.t) (i : nat) :
  filledCount g (batch_of t i) = Z.of_nat (List.length (gridCoords g)) ->
  fullWeek g t i.
Proof.
  intros H. split; [|exact H]. unfold emptySlotsOf. apply filter_negb_nil.
  unfold filledCount in H. lia.
Qed.

Lemma createEmptyTimetable_filledCount (g : TimetableGenerator) :
  Parameters.batches (parameters g) = 1 ->
  NoDup (days g) -> NoDup (gridSlots g) ->
  filledCount g (batch_of (createEmptyTimetable g) 0) = 0.
Proof.
  intros H1 Hdays Hslots. unfold filledCount, batch_of.
  rewrite (createEmptyTimetable_one g H1). cbn [nth].
  rewrite filter_none; [reflexivity|].
  intros [day slot] _. unfold filledAt, cell_of, schedule_get.
  cbn [fst snd Batch.schedule].
  destruct (obj_get day (emptySchedule g)) as [d|] eqn:Ed; [|reflexivity].
  apply obj_get_Some_In in Ed. unfold day_get.
  destruct (obj_get slot d) as [c|] eqn:Ec; [|reflexivity].
  apply obj_get_Some_In in Ec.
  now rewrite (@emptySchedule_cells g day slot d c Hdays Hslots Ed Ec).
Qed.

Lemma set_cell_json_clean (t t' : Timetable.t) (i : nat) (day slot : string)
  (v : Cell) :
  json_clean t -> v <> CUndefined -> set_cell t i day slot v = Ok t' ->
  json_clean t'.
Proof.
  intros Hclean Hv H. apply set_cell_inv in H.
  destruct H as (b & d & Hb & Hd & ->).
  intros b' day' d' slot' Hb' Hd' Hc. cbn in Hb'.
  apply In_arr_set in Hb'. destruct Hb' as [->|Hb'].
  - cbn in Hd'. apply In_obj_set in Hd'. destruct Hd' as [->|Hd'].
    + apply In_obj_set in Hc. destruct Hc as [Hc|Hc]; [congruence|].
      apply (Hclean b day d slot'); auto.
      * eapply nth_error_In; eauto.
      * now apply obj_get_Some_In.
    + apply (Hclean b day' d' slot'); auto. eapply nth_error_In; eauto.
  - apply (Hclean b' day' d' slot'); auto.
Qed.

(** The coordinates the placing loop tries are those of the weekly grid. *)
Lemma getOptimalSlotOrder_gridCoords (g : TimetableGenerator) :
  0 <= Parameters.maxClasses (parameters g) ->
  getOptimalSlotOrder g = gridCoords g.
Proof.
  intros H. unfold getOptimalSlotOrder, gridCoords, gridSlots, slice0.
  destruct (Z.ltb_spec (Parameters.maxClasses (parameters g)) 0) as [Hlt|_]; [lia|].
  f_equal.
  destruct (Z.le_ge_cases (Z.of_nat (List.length (timeSlots g)))
                          (Parameters.maxClasses (parameters g))) as [Hle|Hge].
  - rewrite Z.min_l by exact Hle. rewrite Nat2Z.id.
    rewrite !firstn_all2; [reflexivity | lia | lia].
  - now rewrite Z.min_r by exact Hge.
Qed.

(** One request: the first free coordinate of the list, if there is one,
    receives the class. *)
Lemma place_returns (g : TimetableGenerator) (a : Request)
  (l : list (string * string)) (t : Timetable.t) :
  Parameters.batches (parameters g) = 1 ->
  NoDup (days g) -> NoDup (gridSlots g) ->
  request_ok a -> incl l (gridCoords g) -> place_inv g t ->
  returns (place t a g l)
    (fun t' =>
       place_inv g t' /\
       filledCount g (batch_of t' 0)
       = filledCount g (batch_of t 0)
         + (if forallb (filledAt (batch_of t 0)) l then 0 else 1)).
Proof.
  intros H1 Hdays Hslots (Hbatch & Hroom) Hl Hinv.
  assert (Hnd : NoDup (gridCoords g)) by now apply NoDup_list_prod.
  destruct (place_inv_batch H1 Hdays Hinv) as (Hgrid & b & Eb & Hid & Hkeys & Hb0).
  induction l as [|[day slot] l IH].
  - apply returns_Ok. split; [exact Hinv|]. cbn. lia.
  - cbn [place]. rewrite Hbatch, Eb. cbn [arr_get Z.ltb Z.compare Z.to_nat nth_error].
    assert (Hin : In (day, slot) (gridCoords g)) by (apply Hl; now left).
    assert (Hday : In day (days g))
      by (unfold gridCoords in Hin; apply in_prod_iff in Hin; tauto).
    rewrite schedule_get_cell_of by now rewrite Hkeys.
    cbn [bind forallb]. rewrite Hb0.
    change (filledAt b (day, slot)) with (truthy (cell_of b day slot)).
    destruct (truthy (cell_of b day slot)) eqn:Ecell.
    + cbn [andb]. rewrite Hb0 in IH. apply IH.
      intros x Hx. apply Hl. now right.
    + cbn [andb]. unfold isValidAssignment. rewrite Eb.
      cbn [isValidAssignment_loop Assignment.batch]. rewrite Hid.
      cbn [Z.eqb bind].
      assert (Hi : (0 < List.length (Timetable.batches t))%nat)
        by (rewrite Eb; cbn; lia).
      destruct (@set_cell_returns g t 0 day slot
                  (classOf g (Some (req_subject a)) (req_faculty a) (req_room a))
                  Hgrid Hi Hday) as (t' & Eset).
      rewrite Eset. apply returns_Ok.
      destruct Hinv as (Hs & Hr & Hc). split; [split; [|split]|].
      * eapply same_shape_trans; [exact Hs|]. eapply set_cell_same_shape; eauto.
      * eapply (@set_cell_rooms_ok t t'); eauto. exact Hroom.
      * eapply set_cell_json_clean; eauto. discriminate.
      * destruct (filledCount_set_cell g Hnd Eset) as (_ & _ & Hfill).
        rewrite Hb0 in Hfill. apply Hfill; auto.
Qed.

(** The placing loop: every request fills one more coordinate until the
    grid is full. *)
Lemma place_all_returns (g : TimetableGenerator) (l : list Request)
  (t : Timetable.t) :
  Parameters.batches (parameters g) = 1 ->
  NoDup (days g) -> NoDup (gridSlots g) ->
  Forall request_ok l -> place_inv g t ->
  returns (forEach l (fun timetable assignment =>
                        place timetable assignment g (gridCoords g)) t)
    (fun t' =>
       place_inv g t' /\
       filledCount g (batch_of t' 0)
       = Z.min (filledCount g (batch_of t 0) + Z.of_nat (List.length l))
               (Z.of_nat (List.length (gridCoords g)))).
Proof.
  intros H1 Hdays Hslots Hl. revert t.
  induction Hl as [|a l Ha Hl IH]; intros t Hinv.
  - apply returns_Ok. split; [exact Hinv|].
    pose proof (filter_forallb (filledAt (batch_of t 0)) (gridCoords g)) as (Hle & _).
    unfold filledCount. cbn [List.length]. lia.
  - cbn [forEach].
    eapply returns_bind;
      [apply (@place_returns g a (gridCoords g) t H1 Hdays Hslots Ha
                (incl_refl _) Hinv)|].
    cbn beta. intros t1 (Hinv1 & E1).
    eapply returns_weaken; [apply (IH t1 Hinv1)|].
    cbn beta. intros t' (Hinv' & E'). split; [exact Hinv'|].
    rewrite E', E1.
    pose proof (filter_forallb (filledAt (batch_of t 0)) (gridCoords g))
      as (Hle & Hfull & Hfree).
    unfold filledCount in *. cbn [List.length].
    destruct (forallb (filledAt (batch_of t 0)) (gridCoords g)).
    + specialize (Hfull eq_refl). lia.
    + specialize (Hfree eq_refl). lia.
Qed.

(** *** The requests *)

Lemma request_returns (g : TimetableGenerator) (subjectIndex : nat)
  (subject : string) (freq : Z) :
  roomFor g 0 <> None ->
  returnsR (request g subjectIndex subject freq 0) request_ok.
Proof.
  intros Hroom. unfold request. eapply returnsR_bind; [apply returnsR_random|].
  cbn beta. intros u _. apply returnsR_ret. split; [reflexivity | exact Hroom].
Qed.

(** A loop that pushes one entry per element. *)
Lemma forEachR_push {A B} (P : B -> Prop) (f : A -> Rand B) (l : list A)
  (acc : list B) :
  (forall x, In x l -> returnsR (f x) P) -> Forall P acc ->
  returnsR (forEachR l (fun acc x => r <~ f x ;; ret (acc ++ [r])) acc)
    (fun acc' =>
       Forall P acc' /\
       List.length acc' = (List.length acc + List.length l)%nat).
Proof.
  revert acc. induction l as [|x l IH]; intros acc Hf Hacc; cbn [forEachR].
  - apply returnsR_ret. split; [exact Hacc|]. cbn. lia.
  - eapply returnsR_bind with (P := fun acc1 =>
      Forall P acc1 /\ List.length acc1 = Datatypes.S (List.length acc)).
    + eapply returnsR_bind; [apply Hf; now left|].
      cbn beta. intros r Hr. apply returnsR_ret. split.
      * apply Forall_app. split; [exact Hacc | now constructor].
      * rewrite length_app. cbn. lia.
    + cbn beta. intros acc1 (H1 & E1).
      eapply returnsR_weaken;
        [apply (IH acc1); [intros y Hy; apply Hf; now right | exact H1]|].
      cbn beta. intros acc' (H' & E'). split; [exact H'|].
      rewrite E', E1. cbn. lia.
Qed.

Lemma upto_one : upto 1 = [0].
Proof. reflexivity. Qed.

Lemma requests_subject_returns (g : TimetableGenerator) (actualFrequency : Z)
  (assignments : list Request) (subjectIndex : nat) (subject : string) :
  Parameters.batches (parameters g) = 1 -> roomFor g 0 <> None ->
  Forall request_ok assignments ->
  returnsR (requests_subject g actualFrequency assignments subjectIndex subject)
    (fun assignments' =>
       Forall request_ok assignments' /\
       List.length assignments'
       = (List.length assignments + Z.to_nat actualFrequency)%nat).
Proof.
  intros H1 Hroom Hacc. unfold requests_subject. rewrite H1, upto_one.
  eapply returnsR_weaken.
  - apply (@forEachR_push _ _ request_ok
             (fun fb => request g subjectIndex subject (fst fb) (snd fb))).
    + intros [freq batch] Hin. apply in_prod_iff in Hin.
      destruct Hin as (_ & [<-|[]]). cbn [fst snd].
      now apply request_returns.
    + exact Hacc.
  - cbn beta. intros acc' (H' & E'). split; [exact H'|].
    rewrite E', length_prod. unfold upto. rewrite length_map, length_seq.
    cbn [List.length]. lia.
Qed.

Lemma requests_returns (g : TimetableGenerator) (actualFrequency : Z)
  (subjects : list string) (i : nat) (assignments : list Request) :
  Parameters.batches (parameters g) = 1 -> roomFor g 0 <> None ->
  Forall request_ok assignments ->
  returnsR (forEachFromR i subjects (requests_subject g actualFrequency)
              assignments)
    (fun assignments' =>
       Forall request_ok assignments' /\
       List.length assignments'
       = (List.length assignments
          + List.length subjects * Z.to_nat actualFrequency)%nat).
Proof.
  intros H1 Hroom. revert i assignments.
  induction subjects as [|subject subjects IH]; intros i acc Hacc;
    cbn [forEachFromR].
  - apply returnsR_ret. split; [exact Hacc|]. cbn. lia.
  - eapply returnsR_bind;
      [apply (@requests_subject_returns g actualFrequency acc i subject H1 Hroom Hacc)|].
    cbn beta. intros acc1 (Hacc1 & E1).
    eapply returnsR_weaken; [apply (IH (Datatypes.S i) acc1 Hacc1)|].
    cbn beta. intros acc' (H' & E'). split; [exact H'|].
    rewrite E', E1. cbn [List.length]. lia.
Qed.

Lemma insert_request_spec (P : Request -> Prop) (r : Request)
  (sorted : list Request) :
  List.length (insert_request r sorted) = Datatypes.S (List.length sorted) /\
  (P r -> Forall P sorted -> Forall P (insert_request r sorted)).
Proof.
  induction sorted as [|r' rest (IHl & IHp)]; cbn [insert_request].
  - split; [reflexivity|]. intros Hr _. now constructor.
  - destruct (Qle_bool (req_priority r) (req_priority r')).
    + split; [cbn; now rewrite IHl|].
      intros Hr H. inversion H; subst. constructor; auto.
    + split; [reflexivity|]. intros Hr H. now constructor.
Qed.

(** Sorting keeps the requests. *)
Lemma sort_requests_spec (P : Request -> Prop) (assignments : list Request) :
  List.length (sort_requests assignments) = List.length assignments /\
  (Forall P assignments -> Forall P (sort_requests assignments)).
Proof.
  unfold sort_requests.
  assert (H : forall l acc,
             List.length (fold_left (fun sorted r => insert_request r sorted) l acc)
             = (List.length acc + List.length l)%nat /\
             (Forall P l -> Forall P acc ->
              Forall P (fold_left (fun sorted r => insert_request r sorted) l acc))).
  { induction l as [|r l IH]; intros acc; cbn [fold_left].
    - split; [cbn; lia | auto].
    - destruct (IH (insert_request r acc)) as (IHl & IHp).
      destruct (insert_request_spec P r acc) as (El & Ep).
      split; [rewrite IHl, El; cbn; lia|].
      intros Hl Hacc. inversion Hl; subst. apply IHp; auto. }
  destruct (H assignments []) as (Hl & Hp). split; [exact Hl|].
  intros HP. apply Hp; [exact HP | constructor].
Qed.

(** *** Gap filling and scoring of a full week *)

Lemma fillGaps_one_batch (g : TimetableGenerator) (t : Timetable.t) :
  Parameters.batches (parameters g) = 1 ->
  NoDup (days g) -> NoDup (gridSlots g) -> roomFor g 0 <> None ->
  place_inv g t ->
  returnsR (fillGaps g t)
    (fun t' =>
       grid_ok g t' /\ rooms_ok t' /\
       List.length (Timetable.batches t') = 1%nat /\
       fill_bounds g (batch_of t 0) (batch_of t' 0)).
Proof.
  intros H1 Hdays Hslots Hroom Hinv.
  destruct (place_inv_batch H1 Hdays Hinv) as (Hgrid & b & Eb & Hid & Hkeys & Hb0).
  destruct Hinv as (Hs & Hrooms & Hclean).
  assert (Hnd : NoDup (gridCoords g)) by now apply NoDup_list_prod.
  assert (Hav : rooms_available g t).
  { unfold rooms_available. rewrite Eb. constructor; [|constructor].
    now rewrite Hid. }
  unfold fillGaps. cbv zeta. rewrite (json_copy_clean Hclean).
  unfold fillGaps_inplace. cbv zeta. eapply returnsR_weaken.
  - apply (@fillGaps_batches_returns g t
             (slice0 (Parameters.subjects (parameters g))
                     (CourseData.subjects (courseData g)))
             (seq 0 (List.length (Timetable.batches t))) t
             Hgrid Hav Hnd (seq_NoDup _ _)).
    + intros i Hi. apply in_seq in Hi. lia.
    + split; [apply same_shape_refl | exact Hrooms].
  - cbn beta. intros t' ((Hs' & Hr') & _ & Hbounds).
    split; [eapply same_shape_grid_ok; eauto|]. split; [exact Hr'|].
    split; [rewrite (same_shape_length Hs'), Eb; reflexivity|].
    apply Hbounds. rewrite Eb. cbn. auto.
Qed.

Lemma emptyCount_filledCount (g : TimetableGenerator) (b : Batch.t) :
  emptyCount g b + filledCount g b = Z.of_nat (List.length (gridCoords g)).
Proof.
  unfold emptyCount, emptySlotsOf, filledCount.
  induction (gridCoords g) as [|c l IH]; [reflexivity|].
  cbn [filter]. destruct (filledAt b c); cbn [negb List.length]; lia.
Qed.

Lemma finish_returns (g : TimetableGenerator) (name : string) (t : Timetable.t) :
  grid_ok g t -> rooms_ok t ->
  returns (finish g name t)
    (fun t' => Timetable.batches t' = Timetable.batches t).
Proof.
  intros Hgrid Hrooms. unfold finish.
  pose proof (detectConflicts_pure Hgrid Hrooms) as E.
  destruct (@calculateFitness_formula g t _ E) as (f & Ef & _).
  rewrite Ef, E. cbn [bind]. apply returns_Ok. reflexivity.
Qed.

(** *** The whole strategy on one batch *)

(** The requests are placed one per coordinate while coordinates last,
    then [fillGaps] adds what it is allowed to add. *)
Lemma constraintProgramming_one_batch (g : TimetableGenerator) :
  Parameters.batches (parameters g) = 1 ->
  0 <= Parameters.maxClasses (parameters g) ->
  NoDup (days g) -> NoDup (gridSlots g) ->
  roomFor g 0 <> None ->
  returnsR (constraintProgramming g)
    (fun t =>
       let requests :=
         Z.of_nat (List.length (requestedSubjects g)
                   * Z.to_nat (actualFrequency g)) in
       let total := Z.of_nat (List.length (gridCoords g)) in
       let placed := Z.min requests total in
       let filled := filledCount g (batch_of t 0) in
       List.length (Timetable.batches t) = 1%nat /\
       placed <= filled
       <= placed + Z.max 0 (Z.min (total - placed)
                                  (totalSlotsInWeek g - 1 - placed))).
Proof.
  intros H1 Hmax Hdays Hslots Hroom.
  unfold constraintProgramming. cbv zeta.
  fold (requestedSubjects g). rewrite (getOptimalSlotOrder_gridCoords g Hmax).
  change (Z.max (Parameters.frequency (parameters g)) _)
    with (actualFrequency g).
  eapply returnsR_bind;
    [apply (@requests_returns g (actualFrequency g) (requestedSubjects g) 0 []
              H1 Hroom (Forall_nil _))|].
  cbn beta. intros assignments (Hok & Hlen).
  destruct (sort_requests_spec request_ok assignments) as (Hslen & Hsok).
  specialize (Hsok Hok).
  eapply returnsR_bind.
  { apply returnsR_lift.
    apply (@place_all_returns g (sort_requests assignments)
             (createEmptyTimetable g) H1 Hdays Hslots Hsok).
    now apply createEmptyTimetable_place_inv. }
  cbn beta. intros timetable (Hinv & Hcount).
  rewrite (createEmptyTimetable_filledCount g H1 Hdays Hslots) in Hcount.
  rewrite Hslen, Hlen in Hcount. cbn [List.length plus] in Hcount.
  eapply returnsR_bind;
    [apply (@fillGaps_one_batch g timetable H1 Hdays Hslots Hroom Hinv)|].
  cbn beta. intros optimizedTimetable (Hgrid & Hrooms & Hone & Hbounds).
  apply returnsR_lift. eapply returns_weaken; [now apply finish_returns|].
  cbn beta. intros t Ebatches. split; [now rewrite Ebatches|].
  replace (batch_of t 0) with (batch_of optimizedTimetable 0)
    by (unfold batch_of; now rewrite Ebatches).
  unfold fill_bounds, slotsToFill in Hbounds.
  pose proof (emptyCount_filledCount g (batch_of timetable 0)) as Hsum.
  rewrite Z.add_0_l in Hcount. rewrite <- Hcount.
  clear - Hbounds Hsum. lia.
Qed.

Lemma constraintProgramming_returns_full (g : TimetableGenerator) :
  Parameters.batches (parameters g) = 1 ->
  0 <= Parameters.maxClasses (parameters g) ->
  NoDup (days g) -> NoDup (gridSlots g) ->
  roomFor g 0 <> None ->
  Z.of_nat (List.length (gridCoords g))
  <= Z.of_nat (List.length (requestedSubjects g)) * actualFrequency g ->
  returnsR (constraintProgramming g)
    (fun t => List.length (Timetable.batches t) = 1%nat /\ fullWeek g t 0).
Proof.
  intros H1 Hmax Hdays Hslots Hroom Hfreq.
  eapply returnsR_weaken;
    [apply (@constraintProgramming_one_batch g H1 Hmax Hdays Hslots Hroom)|].
  cbv zeta. intros t (Hone & Hfilled). split; [exact Hone|].
  apply filledCount_fullWeek.
  rewrite Nat2Z.inj_mul in Hfilled.
  assert (Hto : actualFrequency g <= Z.of_nat (Z.to_nat (actualFrequency g)))
    by lia.
  rewrite Z.min_r in Hfilled by (clear - Hfreq Hto; nia).
  clear - Hfilled. lia.
Qed.

(** With fewer requests than coordinates, on a grid that has all the
    [maxClasses] slots of every day, one coordinate at least stays free. *)
Lemma constraintProgramming_returns_free (g : TimetableGenerator) :
  Parameters.batches (parameters g) = 1 ->
  0 <= Parameters.maxClasses (parameters g) ->
  NoDup (days g) -> NoDup (gridSlots g) ->
  roomFor g 0 <> None ->
  Z.of_nat (List.length (gridCoords g)) = totalSlotsInWeek g ->
  Z.of_nat (List.length (requestedSubjects g)
            * Z.to_nat (actualFrequency g))
  < Z.of_nat (List.length (gridCoords g)) ->
  returnsR (constraintProgramming g)
    (fun t => filledCount g (batch_of t 0) <= totalSlotsInWeek g - 1).
Proof.
  intros H1 Hmax Hdays Hslots Hroom Htotal Hfreq.
  eapply returnsR_weaken;
    [apply (@constraintProgramming_one_batch g H1 Hmax Hdays Hslots Hroom)|].
  cbv zeta. intros t (_ & Hfilled).
  rewrite Z.min_l in Hfilled by lia. rewrite Htotal in *.
  clear - Hfilled Hfreq. lia.
Qed.



(** The same on the grid of five days of five slots when each of the two
    subjects is asked for thirteen times, and on five days of one slot when
    each of three subjects is asked for once: there the two rounds that
    [extraFrequency] asks for make six requests for five coordinates. *)
Example constraintProgramming_full_weeks (rng : Rng) :
  rng_ok rng ->
  (exists t rng',
     constraintProgramming (fiveByFive 13) rng = Ok (t, rng') /\
     filledCount (fiveByFive 13) (batch_of t 0) = 25 /\
     totalSlotsInWeek (fiveByFive 13) = 25) /\
  (exists t rng',
     constraintProgramming fiveByOne rng = Ok (t, rng') /\
     filledCount fiveByOne (batch_of t 0) = 5 /\
     totalSlotsInWeek fiveByOne = 5 /\
     Parameters.frequency (parameters fiveByOne) = 1 /\
     actualFrequency fiveByOne = 2).
Proof.
  intros Hrng. split.
  - destruct (@constraintProgramming_returns_full (fiveByFive 13)) with (rng := rng)
      as (t & rng' & E & _ & _ & _ & Hfull);
      [reflexivity | vm_compute; discriminate | cbn; nodup_strings
      | vm_compute; nodup_strings | discriminate | vm_compute; discriminate
      | exact Hrng |].
    exists t, rng'. split; [exact E|]. split; [rewrite Hfull|]; reflexivity.
  - destruct (@constraintProgramming_returns_full fiveByOne) with (rng := rng)
      as (t & rng' & E & _ & _ & _ & Hfull);
      [reflexivity | vm_compute; discriminate | cbn; nodup_strings
      | vm_compute; nodup_strings | discriminate | vm_compute; discriminate
      | exact Hrng |].
    exists t, rng'. split; [exact E|]. split; [rewrite Hfull; reflexivity|].
    repeat split.
Qed.

(** On five days of five slots with each of the two subjects asked for
    once, twenty requests are placed and [fillGaps] stops at twenty-four
    classes, whatever [Math.random] yields. *)
Example constraintProgramming_five_by_five (rng : Rng) :
  rng_ok rng ->
  exists t rng',
    constraintProgramming (fiveByFive 1) rng = Ok (t, rng') /\
    filledCount (fiveByFive 1) (batch_of t 0) <= 24 /\
    totalSlotsInWeek (fiveByFive 1) = 25.
Proof.
  intros Hrng.
  destruct (@constraintProgramming_returns_free (fiveByFive 1)) with (rng := rng)
    as (t & rng' & E & _ & Hfree);
    [reflexivity | vm_compute; discriminate | cbn; nodup_strings
    | vm_compute; nodup_strings | discriminate | reflexivity
    | vm_compute; reflexivity | exact Hrng |].
  exists t, rng'. split; [exact E|]. split; [exact Hfree | reflexivity].
Qed.

(** * Further properties of the generator *)

(** ** Schedule construction *)

(** Reading a key after a run of writes: the key was written, or it reads
    as before. *)
Lemma obj_get_fold_set {V} (f : string -> V) (l : list string) (acc : JsObj V)
  (k : string) :
  obj_get k (fold_left (fun o k' => obj_set k' (f k') o) l acc)
  = if in_dec string_dec k l then Some (f k) else obj_get k acc.
Proof.
  revert acc. induction l as [|k' l IH]; intros acc; [reflexivity|].
  cbn [fold_left]. rewrite IH.
  destruct (in_dec string_dec k l) as [Hin|Hout];
    destruct (in_dec string_dec k (k' :: l)) as [Hin'|Hout']; try reflexivity.
  - exfalso. apply Hout'. now right.
  - destruct Hin' as [->|Hin']; [apply obj_get_set_eq | contradiction].
  - apply obj_get_set_neq. intros ->. apply Hout'. now left.
Qed.

Lemma nth_error_createEmptyTimetable (g : TimetableGenerator) (i : nat) :
  (i < Z.to_nat (Parameters.batches (parameters g)))%nat ->
  nth_error (Timetable.batches (createEmptyTimetable g)) i
  = Some {| Batch.id := Z.of_nat i;
            Batch.name := ("Batch " ++ toString (Z.of_nat i + 1))%string;
            Batch.schedule := emptySchedule g |}.
Proof.
  intros Hi. unfold createEmptyTimetable. cbn [Timetable.batches].
  rewrite nth_error_map, nth_error_seq.
  destruct (Nat.ltb_spec i (Z.to_nat (Parameters.batches (parameters g))));
    [reflexivity | lia].
Qed.

Lemma obj_get_emptySchedule (g : TimetableGenerator) (day : string) :
  obj_get day (emptySchedule g)
  = if in_dec string_dec day (days g) then Some (emptyDay g) else None.
Proof. unfold emptySchedule. now rewrite (obj_get_fold_set (fun _ => emptyDay g)). Qed.

Lemma obj_get_emptyDay (g : TimetableGenerator) (slot : string) :
  obj_get slot (emptyDay g)
  = if in_dec string_dec slot (gridSlots g) then Some CNull else None.
Proof. unfold emptyDay. now rewrite (obj_get_fold_set (fun _ => CNull)). Qed.


(** ** Slot labels *)

Lemma digits_value_nonneg (s : string) (acc v : Z) :
  digits_value acc s = Some v -> 0 <= acc -> 0 <= v.
Proof.
  revert acc. induction s as [|c s IH]; intros acc; cbn [digits_value].
  - intros [= <-]. auto.
  - destruct (is_digit c) eqn:Hc; [|discriminate]. intros H Hacc.
    apply (IH _ H). unfold is_digit in Hc. apply andb_prop in Hc.
    destruct Hc as (Hlo & _). apply Nat.leb_le in Hlo.
    unfold digit_value. lia.
Qed.

Lemma clockMinutes_nonneg (s : string) : 0 <= clockMinutes s.
Proof.
  unfold clockMinutes, parseClock.
  destruct (js_split ":" s) as [|h [|m rest]]; try lia.
  destruct (jsNumber h) as [hour|] eqn:Eh; [|lia].
  destruct (jsNumber m) as [minute|] eqn:Em; [|lia].
  assert (0 <= hour)
    by (destruct h; [discriminate|]; now apply (@digits_value_nonneg _ 0 hour Eh)).
  assert (0 <= minute)
    by (destruct m; [discriminate|]; now apply (@digits_value_nonneg _ 0 minute Em)).
  lia.
Qed.

(** Checked on each of the 1440 minutes of a day. *)
Lemma label_ok_day (m : Z) : 0 <= m < 1440 -> label_ok m = true.
Proof.
  intros Hm.
  assert (H : forallb label_ok (map Z.of_nat (seq 0 1440)) = true)
    by (vm_compute; reflexivity).
  rewrite forallb_forall in H. apply H.
  apply in_map_iff. exists (Z.to_nat m). split; [lia|]. apply in_seq. lia.
Qed.

Lemma NoDup_map_in {A B} (f : A -> B) (l : list A) :
  (forall x y, In x l -> In y l -> f x = f y -> x = y) ->
  NoDup l -> NoDup (map f l).
Proof.
  intros Hinj Hnd. induction Hnd as [|x l Hx Hnd IH]; cbn [map]; constructor.
  - intros Hin. apply in_map_iff in Hin. destruct Hin as (y & Ey & Hy).
    assert (y = x) by (apply Hinj; [now right | now left | exact Ey]).
    subst y. contradiction.
  - apply IH. intros a b Ha Hb. apply Hinj; now right.
Qed.

(** The labels of distinct hours of one day are distinct. *)
Lemma generateTimeSlots_distinct (p : Parameters.t) (startTime endTime : string) :
  clockMinutes endTime <= 1440 ->
  NoDup (map (fun k => timeSlot (fst (slotInterval (clockMinutes startTime) k)))
             (seq 0 (slotCount p startTime endTime))).
Proof.
  intros Hend.
  pose proof (clockMinutes_nonneg startTime) as Hstart.
  assert (Hrange : forall k, (k < slotCount p startTime endTime)%nat ->
            0 <= clockMinutes startTime + 60 * Z.of_nat k < 1440).
  { intros k Hk. unfold slotCount in Hk.
    assert (Hq : Z.of_nat k < (clockMinutes endTime - clockMinutes startTime + 59) / 60)
      by lia.
    assert (60 * (Z.of_nat k + 1)
            <= clockMinutes endTime - clockMinutes startTime + 59).
    { etransitivity; [|apply (Z.mul_div_le _ 60); lia].
      apply Z.mul_le_mono_nonneg_l; lia. }
    lia. }
  assert (Hok : forall k, (k < slotCount p startTime endTime)%nat ->
            label_ok (clockMinutes startTime + 60 * Z.of_nat k) = true)
    by (intros k Hk; apply label_ok_day; auto).
  unfold slotInterval. cbn [fst].
  apply NoDup_map_in; [|apply seq_NoDup].
  intros a b Ha Hb E. apply in_seq in Ha, Hb.
  pose proof (Hok a ltac:(lia)) as Oa. pose proof (Hok b ltac:(lia)) as Ob.
  unfold label_ok in Oa, Ob. cbv zeta in Oa, Ob. rewrite E in Oa.
  apply andb_prop in Oa; destruct Oa as (Oa & _).
  apply andb_prop in Oa; destruct Oa as (_ & Oa).
  apply andb_prop in Ob; destruct Ob as (Ob & _).
  apply andb_prop in Ob; destruct Ob as (_ & Ob).
  apply Z.eqb_eq in Oa, Ob. lia.
Qed.

(** X2: for a start and an end time written "HH:MM", the end not after
    24:00, the labels [generateTimeSlots] returns are pairwise different,
    each is eleven characters long, and the two times of the [k]-th label
    read back as the start time plus [k] hours and one hour later: slots
    that run past midnight are labelled 24:MM, not 00:MM. *)
Theorem generateTimeSlots_labels (p : Parameters.t) (startTime endTime : string) :
  isClock startTime = true -> isClock endTime = true ->
  clockMinutes endTime <= 1440 ->
  exists slots,
    generateTimeSlots p startTime endTime = Some slots /\
    NoDup slots /\
    forall k label,
      nth_error slots k = Some label ->
      String.length label = 11%nat /\
      isClock (substring 0 5 label) = true /\
      isClock (substring 6 5 label) = true /\
      clockMinutes (substring 0 5 label)
      = clockMinutes startTime + 60 * Z.of_nat k /\
      clockMinutes (substring 6 5 label)
      = clockMinutes startTime + 60 * Z.of_nat k + 60.
Proof.
  intros Hs He Hend. eexists. split; [now apply generateTimeSlots_returns|].
  pose proof (clockMinutes_nonneg startTime) as Hstart.
  assert (Hrange : forall k, (k < slotCount p startTime endTime)%nat ->
            0 <= clockMinutes startTime + 60 * Z.of_nat k < 1440).
  { intros k Hk. unfold slotCount in Hk.
    assert (Hq : Z.of_nat k < (clockMinutes endTime - clockMinutes startTime + 59) / 60)
      by lia.
    assert (60 * (Z.of_nat k + 1)
            <= clockMinutes endTime - clockMinutes startTime + 59).
    { etransitivity; [|apply (Z.mul_div_le _ 60); lia].
      apply Z.mul_le_mono_nonneg_l; lia. }
    lia. }
  assert (Hok : forall k, (k < slotCount p startTime endTime)%nat ->
            label_ok (clockMinutes startTime + 60 * Z.of_nat k) = true)
    by (intros k Hk; apply label_ok_day; auto).
  split; [now apply generateTimeSlots_distinct|].
  unfold slotInterval. cbn [fst].
  intros k label Hk. rewrite nth_error_map, nth_error_seq in Hk.
  destruct (Nat.ltb_spec k (slotCount p startTime endTime)) as [Hlt|]; [|discriminate].
  unfold option_map in Hk. rewrite Nat.add_0_l in Hk. injection Hk as <-.
  pose proof (Hok k Hlt) as O. unfold label_ok in O. cbv zeta in O.
  apply andb_prop in O; destruct O as (O & Oend).
  apply andb_prop in O; destruct O as (O & Ostart).
  apply andb_prop in O; destruct O as (O & Cend).
  apply andb_prop in O; destruct O as (O & Cstart).
  apply Nat.eqb_eq in O. apply Z.eqb_eq in Ostart, Oend.
  repeat split; assumption.
Qed.

Lemma generateTimeSlots_labels_witness :
  exists slots,
    generateTimeSlots (parameters_with_maxClasses 6) "22:30" "24:00" = Some slots /\
    NoDup slots /\
    nth_error slots 1 = Some "23:30-24:30".
Proof.
  destruct (generateTimeSlots_labels (parameters_with_maxClasses 6) "22:30" "24:00")
    as (slots & E & Hnd & _); [reflexivity | reflexivity | vm_compute; discriminate |].
  exists slots. split; [exact E|]. split; [exact Hnd|].
  vm_compute in E. injection E as <-. reflexivity.
Defined.

(** ** Subject colours *)




(** The sixteenth subject is drawn in the colour of the first. *)
Example generateSubjectColors_wraps :
  let subjects :=
    ["s0"; "s1"; "s2"; "s3"; "s4"; "s5"; "s6"; "s7";
     "s8"; "s9"; "s10"; "s11"; "s12"; "s13"; "s14"; "s15"] in
  obj_get "s15" (generateSubjectColors subjects)
  = obj_get "s0" (generateSubjectColors subjects).
Proof. reflexivity. Qed.

(** ** Gaps of a day *)

Lemma existsb_truthy_free (l : list Cell) :
  forallb (fun c => negb (truthy c)) l = true -> existsb truthy l = false.
Proof.
  induction l as [|c l IH]; [reflexivity|]. cbn [forallb existsb].
  intros H. apply andb_prop in H. destruct H as (Hc & Hl).
  rewrite (IH Hl). now destruct (truthy c).
Qed.

Lemma calculateGapPenalty_loop_free (l : list Cell) (inSequence : bool)
  (penalty : Z) :
  forallb (fun c => negb (truthy c)) l = true ->
  calculateGapPenalty_loop l inSequence penalty = penalty.
Proof.
  induction l as [|c l IH]; [reflexivity|]. cbn [forallb]. intros H.
  apply andb_prop in H. destruct H as (Hc & Hl).
  cbn [calculateGapPenalty_loop].
  destruct (truthy c); [discriminate|].
  rewrite (existsb_truthy_free _ Hl). destruct inSequence; now apply IH.
Qed.

Lemma calculateGapPenalty_loop_trailing (day after : list Cell)
  (inSequence : bool) (penalty : Z) :
  forallb (fun c => negb (truthy c)) after = true ->
  calculateGapPenalty_loop (day ++ after) inSequence penalty
  = calculateGapPenalty_loop day inSequence penalty.
Proof.
  intros Hafter. revert inSequence penalty.
  induction day as [|c day IH]; intros inSequence penalty.
  - cbn [app]. rewrite calculateGapPenalty_loop_free by exact Hafter.
    reflexivity.
  - cbn [app calculateGapPenalty_loop]. rewrite existsb_app.
    rewrite (existsb_truthy_free _ Hafter), orb_false_r.
    rewrite !IH. reflexivity.
Qed.

Lemma calculateGapPenalty_loop_classes (day : list Cell) (inSequence : bool)
  (penalty : Z) :
  forallb truthy day = true ->
  calculateGapPenalty_loop day inSequence penalty = penalty.
Proof.
  revert inSequence. induction day as [|c day IH]; intros inSequence;
    [reflexivity|].
  cbn [forallb calculateGapPenalty_loop]. intros H.
  apply andb_prop in H. destruct H as (Hc & Hday). rewrite Hc. now apply IH.
Qed.

(** X4: free slots before the first class of a day and after its last
    class cost nothing: [calculateGapPenalty] gives a day the penalty of
    the part between them, and a day whose classes follow one another
    without a free slot between them has no penalty at all. *)
Theorem calculateGapPenalty_edges (before day after : list Cell) :
  forallb (fun c => negb (truthy c)) before = true ->
  forallb (fun c => negb (truthy c)) after = true ->
  calculateGapPenalty (before ++ day ++ after) = calculateGapPenalty day /\
  (forallb truthy day = true ->
   calculateGapPenalty (before ++ day ++ after) = 0).
Proof.
  intros Hbefore Hafter.
  assert (E : calculateGapPenalty (before ++ day ++ after)
              = calculateGapPenalty day).
  { unfold calculateGapPenalty. induction before as [|c before IH].
    - cbn [app]. now apply calculateGapPenalty_loop_trailing.
    - cbn [forallb] in Hbefore. apply andb_prop in Hbefore.
      destruct Hbefore as (Hc & Hbefore).
      cbn [app calculateGapPenalty_loop].
      destruct (truthy c); [discriminate|]. now apply IH. }
  split; [exact E|]. intros Hday. rewrite E.
  now apply calculateGapPenalty_loop_classes.
Qed.

Lemma calculateGapPenalty_edges_witness :
  let c := CClass (classInfo "Maths" "Dr. Rao" "Room-101") in
  calculateGapPenalty ([CNull; CUndefined] ++ [c; CNull; c] ++ [CNull]) = 2 /\
  calculateGapPenalty ([CNull] ++ [c; c] ++ [CNull; CNull]) = 0.
Proof.
  cbv zeta. split.
  - rewrite (proj1 (@calculateGapPenalty_edges [CNull; CUndefined]
                      [CClass (classInfo "Maths" "Dr. Rao" "Room-101"); CNull;
                       CClass (classInfo "Maths" "Dr. Rao" "Room-101")]
                      [CNull] eq_refl eq_refl)).
    reflexivity.
  - apply (proj2 (@calculateGapPenalty_edges [CNull]
                    [CClass (classInfo "Maths" "Dr. Rao" "Room-101");
                     CClass (classInfo "Maths" "Dr. Rao" "Room-101")]
                    [CNull; CNull] eq_refl eq_refl)).
    reflexivity.
Defined.

(** ** Range of the fitness *)











(** ** Partial correctness of loops *)

Lemma ensures_bind {A B} (m : Result A) (k : A -> Result B)
  (P : A -> Prop) (Q : B -> Prop) :
  ensures m P -> (forall a, P a -> ensures (k a) Q) -> ensures (bind m k) Q.
Proof.
  intros Hm Hk b E. destruct m as [a|]; [|discriminate].
  exact (Hk a (Hm a eq_refl) b E).
Qed.

Lemma ensures_weaken {A} (m : Result A) (P Q : A -> Prop) :
  ensures m P -> (forall a, P a -> Q a) -> ensures m Q.
Proof. intros Hm H a E. auto. Qed.

Lemma forEach_ensures {A S} (I : S -> Prop) (l : list A)
  (f : S -> A -> Result S) (s : S) :
  (forall s x, In x l -> I s -> ensures (f s x) I) ->
  I s -> ensures (forEach l f s) I.
Proof.
  revert s. induction l as [|x l IH]; intros s Hf Hs; cbn [forEach].
  - intros a [= <-]. exact Hs.
  - apply ensures_bind with (P := I).
    + apply Hf; [now left | exact Hs].
    + intros s' Hs'. apply IH; [|exact Hs'].
      intros s0 y Hy. apply Hf. now right.
Qed.



Lemma ensuresR_bind {A B} (m : Rand A) (k : A -> Rand B)
  (P : A -> Prop) (Q : B -> Prop) :
  ensuresR m P -> (forall a, P a -> ensuresR (k a) Q) -> ensuresR (bindR m k) Q.
Proof.
  intros Hm Hk rng b rng' E. unfold bindR in E.
  destruct (m rng) as [[a rng1]|] eqn:Em; [|discriminate].
  exact (Hk a (Hm _ _ _ Em) _ _ _ E).
Qed.

Lemma ensuresR_lift {A} (m : Result A) (P : A -> Prop) :
  ensures m P -> ensuresR (lift m) P.
Proof.
  intros H rng a rng' E. unfold lift in E.
  destruct m as [x|]; [|discriminate]. injection E as <- _. now apply H.
Qed.


Lemma ensuresR_any {A} (m : Rand A) : ensuresR m (fun _ => True).
Proof. intros rng a rng' _. exact I. Qed.




(** ** The classes of a timetable under a write *)

Lemma ClassInfo_eq_dec (a b : ClassInfo.t) : {a = b} + {a <> b}.
Proof. repeat decide equality. Qed.

Section Counting.

Variable X : Type.
Variable X_eq_dec : forall a b : X, {a = b} + {a <> b}.
Variable x : X.

Let N (l : list X) : nat := count_occ X_eq_dec l x.

Lemma count_flat_map_obj_set {V} (w : V -> list X) (k : string) (v : V)
  (o : JsObj V) :
  (N (match obj_get k o with Some y => w y | None => [] end)
   + N (flat_map (fun kv => w (snd kv)) (obj_set k v o))
   = N (w v) + N (flat_map (fun kv => w (snd kv)) o))%nat.
Proof.
  unfold N. induction o as [|[k' y] o IH]; cbn [obj_get obj_set flat_map snd].
  - rewrite app_nil_r. cbn [count_occ]. lia.
  - destruct (String.eqb k k'); cbn [flat_map snd];
      rewrite !count_occ_app; lia.
Qed.

Lemma count_flat_map_arr_set {A} (f : A -> list X) (l : list A) (i : nat)
  (a b : A) :
  nth_error l i = Some b ->
  (N (f b) + N (flat_map f (arr_set l i a)) = N (f a) + N (flat_map f l))%nat.
Proof.
  unfold N. revert i. induction l as [|y l IH]; intros [|i] H; try discriminate;
    cbn [arr_set flat_map]; rewrite !count_occ_app.
  - injection H as ->. lia.
  - cbn in H. specialize (IH i H). lia.
Qed.

End Counting.

(** A write takes the class that was in the cell out of the timetable and
    puts the class written in. *)
Lemma classesOf_set_cell (t t' : Timetable.t) (i : nat) (day slot : string)
  (old v : Cell) :
  cell_at t i day slot = Ok old ->
  set_cell t i day slot v = Ok t' ->
  Permutation (cls old ++ classesOf t') (cls v ++ classesOf t).
Proof.
  intros Hold Hset. destruct (set_cell_inv Hset) as (b & d & Hb & Hd & ->).
  unfold cell_at, batch_at in Hold. rewrite Hb in Hold. cbn [bind] in Hold.
  unfold schedule_get in Hold. rewrite Hd in Hold. injection Hold as <-.
  apply (Permutation_count_occ ClassInfo_eq_dec). intros c.
  unfold classesOf. cbn [Timetable.batches with_batches].
  set (cS := fun b : Batch.t =>
               flat_map (fun kd => classesOfDay (snd kd)) (Batch.schedule b)).
  set (b' := with_schedule b (obj_set day (obj_set slot v d) (Batch.schedule b))).
  pose proof (count_flat_map_arr_set ClassInfo_eq_dec c cS
                (Timetable.batches t) i b' Hb) as P3.
  pose proof (count_flat_map_obj_set ClassInfo_eq_dec c classesOfDay day
                (obj_set slot v d) (Batch.schedule b)) as P2.
  rewrite Hd in P2.
  pose proof (count_flat_map_obj_set ClassInfo_eq_dec c cls slot v d) as P1.
  assert (E1 : match obj_get slot d with Some y => cls y | None => [] end
               = cls (day_get d slot))
    by (unfold day_get; now destruct (obj_get slot d)).
  rewrite E1 in P1.
  change (flat_map (fun kv => cls (snd kv)) (obj_set slot v d))
    with (classesOfDay (obj_set slot v d)) in P1.
  change (flat_map (fun kv => cls (snd kv)) d) with (classesOfDay d) in P1.
  change (flat_map (fun kv => classesOfDay (snd kv))
            (obj_set day (obj_set slot v d) (Batch.schedule b)))
    with (cS b') in P2.
  change (flat_map (fun kv => classesOfDay (snd kv)) (Batch.schedule b))
    with (cS b) in P2.
  rewrite !count_occ_app. lia.
Qed.

(** ** Collisions under a write *)

(** A candidate the checker accepts collides with no class another batch
    holds at its coordinate. *)
Lemma isValidAssignment_loop_true (bs : list Batch.t) (assignment : Assignment.t) :
  isValidAssignment_loop bs assignment = Ok true ->
  forall batch c2 kind c,
    In batch bs ->
    Batch.id batch <> Assignment.batch assignment ->
    schedule_get (Batch.schedule batch) (Assignment.day assignment)
                 (Assignment.slot assignment) = Ok (CClass c2) ->
    ClassInfo.faculty c = Assignment.faculty assignment ->
    ClassInfo.room c = Assignment.room assignment ->
    collide kind c c2 = false.
Proof.
  induction bs as [|b bs IH]; intros Hvalid batch c2 kind c Hin Hid Hget Hf Hr;
    [destruct Hin|].
  cbn [isValidAssignment_loop] in Hvalid.
  destruct (Z.eqb_spec (Batch.id b) (Assignment.batch assignment)) as [Eid|Nid].
  - destruct Hin as [<-|Hin]; [contradiction|]. eapply IH; eauto.
  - destruct (schedule_get (Batch.schedule b) (Assignment.day assignment)
                (Assignment.slot assignment)) as [here|] eqn:Ehere;
      [|discriminate].
    cbn [bind] in Hvalid.
    destruct Hin as [<-|Hin].
    + rewrite Ehere in Hget. injection Hget as ->.
      destruct (jsstring_eqb (ClassInfo.faculty c2) (Assignment.faculty assignment))
        eqn:Ef; [discriminate|].
      rewrite (collide_sym kind c c2).
      destruct kind; cbn [collide]; [rewrite Hf; exact Ef|]. rewrite Hr.
      destruct (jsstring_eqb (ClassInfo.room c2) (Assignment.room assignment))
        eqn:Er; [|reflexivity].
      apply jsstring_eqb_eq in Er. rewrite Er.
      destruct (Assignment.room assignment) as [r|]; [|discriminate].
      cbn [jsstring_text andb]. destruct (includes "Lab" r); [reflexivity|].
      discriminate.
    + assert (Hrest : isValidAssignment_loop bs assignment = Ok true).
      { destruct here as [| |c1]; try exact Hvalid.
        destruct (jsstring_eqb (ClassInfo.faculty c1) _); [discriminate|].
        destruct (jsstring_eqb (ClassInfo.room c1) _); [|exact Hvalid].
        destruct (Assignment.room assignment) as [r|]; [|discriminate].
        destruct (includes "Lab" r); [exact Hvalid | discriminate]. }
      eapply IH; eauto.
Qed.

(** After a write, a collision is an old one or one of the class written
    with a class another batch holds at the same coordinate. *)
Lemma collision_set_cell (kind : ConflictType) (t t' : Timetable.t) (i : nat)
  (day slot : string) (v : Cell) (a b : nat) (d s : string) :
  set_cell t i day slot v = Ok t' ->
  collision kind t' a b d s = true ->
  collision kind t a b d s = true \/
  exists c c2 j,
    v = CClass c /\ j <> i /\ cell_at t j day slot = Ok (CClass c2) /\
    collide kind c c2 = true.
Proof.
  intros Hset Hc. unfold collision in Hc. apply andb_prop in Hc.
  destruct Hc as (Hab & Hc). apply negb_true_iff, Nat.eqb_neq in Hab.
  destruct (cell_at t' a d s) as [[| |c1]|] eqn:Ea; try discriminate.
  destruct (cell_at t' b d s) as [[| |c2]|] eqn:Eb; try discriminate.
  assert (Hdec : forall k, {(k, d, s) = (i, day, slot)} + {(k, d, s) <> (i, day, slot)}).
  { intros k. destruct (Nat.eq_dec k i) as [->|]; [|right; congruence].
    destruct (string_dec d day) as [->|]; [|right; congruence].
    destruct (string_dec s slot) as [->|]; [left; reflexivity|right; congruence]. }
  destruct (Hdec a) as [Ha|Ha]; destruct (Hdec b) as [Hb|Hb].
  - congruence.
  - injection Ha as -> -> ->. right.
    rewrite (cell_at_set_cell_eq Hset) in Ea. injection Ea as ->.
    rewrite (cell_at_set_cell_neq Hset Hb) in Eb.
    exists c1, c2, b. repeat split; auto.
  - injection Hb as -> -> ->. right.
    rewrite (cell_at_set_cell_eq Hset) in Eb. injection Eb as ->.
    rewrite (cell_at_set_cell_neq Hset Ha) in Ea.
    exists c2, c1, a. repeat split; auto. now rewrite collide_sym.
  - left. rewrite (cell_at_set_cell_neq Hset Ha) in Ea.
    rewrite (cell_at_set_cell_neq Hset Hb) in Eb.
    unfold collision. rewrite Ea, Eb, Hc.
    apply Nat.eqb_neq in Hab. now rewrite Hab.
Qed.

Lemma no_new_collision_refl (t : Timetable.t) : no_new_collision t t.
Proof. intros kind i j day slot H. exact H. Qed.

Lemma no_new_collision_trans (t1 t2 t3 : Timetable.t) :
  no_new_collision t1 t2 -> no_new_collision t2 t3 -> no_new_collision t1 t3.
Proof. intros H12 H23 kind i j day slot H. auto. Qed.

(** Writing what the checker accepted creates no collision. *)
Lemma set_cell_valid (t t' : Timetable.t) (i : nat) (day slot : string)
  (v : Cell) (assignment : Assignment.t) :
  ids_ok t ->
  Assignment.batch assignment = Z.of_nat i ->
  Assignment.day assignment = day -> Assignment.slot assignment = slot ->
  (forall c, v = CClass c ->
     ClassInfo.faculty c = Assignment.faculty assignment /\
     ClassInfo.room c = Assignment.room assignment) ->
  isValidAssignment t assignment = Ok true ->
  set_cell t i day slot v = Ok t' ->
  no_new_collision t t'.
Proof.
  intros Hids Hbatch Hday Hslot Hv Hvalid Hset kind a b d s Hc.
  destruct (@collision_set_cell kind t t' i day slot v a b d s Hset Hc)
    as [H|(c & c2 & j & -> & Hj & Hcell & Hcol)]; [exact H|].
  exfalso. destruct (Hv c eq_refl) as (Hf & Hr).
  unfold cell_at, batch_at in Hcell.
  destruct (nth_error (Timetable.batches t) j) as [bj|] eqn:Ej; [|discriminate].
  cbn [bind] in Hcell. subst day slot.
  assert (collide kind c c2 = false); [|congruence].
  apply (@isValidAssignment_loop_true (Timetable.batches t) assignment Hvalid
           bj c2 kind c); auto.
  - eapply nth_error_In; eauto.
  - rewrite (Hids j bj Ej), Hbatch. lia.
Qed.

(** Writing something that is not a class creates no collision. *)
Lemma set_cell_free (t t' : Timetable.t) (i : nat) (day slot : string) (v : Cell) :
  truthy v = false -> set_cell t i day slot v = Ok t' -> no_new_collision t t'.
Proof.
  intros Hv Hset kind a b d s Hc.
  destruct (@collision_set_cell kind t t' i day slot v a b d s Hset Hc)
    as [H|(c & c2 & j & -> & _)]; [exact H | discriminate].
Qed.




(** ** Invariants of the representation *)

Lemma same_shape_ids_ok (t t' : Timetable.t) :
  same_shape t t' -> ids_ok t -> ids_ok t'.
Proof.
  intros Hs Hids i b' Hb'.
  destruct (same_shape_nth i (same_shape_sym Hs) Hb') as (b & Hb & E).
  unfold shape in E. injection E as E _. rewrite <- E. now apply Hids.
Qed.

Lemma obj_set_keys_NoDup {V} (k : string) (v : V) (o : JsObj V) :
  NoDup (obj_keys o) -> NoDup (obj_keys (obj_set k v o)).
Proof.
  intros H. destruct (in_dec string_dec k (obj_keys o)) as [Hin|Hout].
  - now rewrite obj_keys_set_present.
  - rewrite obj_set_absent by exact Hout. unfold obj_keys in *.
    rewrite map_app. cbn [map fst]. apply NoDup_app; [exact H | | ].
    + constructor; [intros [] | constructor].
    + intros x Hx [<-|[]]. contradiction.
Qed.

Lemma set_cell_keys_ok (t t' : Timetable.t) (i : nat) (day slot : string)
  (v : Cell) :
  keys_ok t -> set_cell t i day slot v = Ok t' -> keys_ok t'.
Proof.
  intros Hkeys Hset. destruct (set_cell_inv Hset) as (b & d & Hb & Hd & ->).
  intros b' Hb'. cbn in Hb'. apply In_arr_set in Hb'.
  destruct Hb' as [->|Hb']; [|now apply Hkeys].
  assert (Hin : In b (Timetable.batches t)) by (eapply nth_error_In; eauto).
  destruct (Hkeys b Hin) as (Hnd & Hdays). cbn [Batch.schedule with_schedule].
  split.
  - rewrite obj_keys_set_present; [exact Hnd|].
    apply obj_get_In. congruence.
  - intros day' d' Hd'. apply In_obj_set in Hd'. destruct Hd' as [->|Hd'].
    + apply obj_set_keys_NoDup. apply (Hdays day). now apply obj_get_Some_In.
    + now apply (Hdays day').
Qed.

Lemma json_day_keys_NoDup (d : DaySchedule) :
  NoDup (obj_keys d) -> NoDup (obj_keys (json_day d)).
Proof.
  unfold obj_keys. induction d as [|[k v] d IH]; intros H; [constructor|].
  inversion H as [|? ? Hk Hd]; subst. rewrite json_day_cons.
  assert (Hout : ~ In k (map fst (json_day d))).
  { intros Hin. apply Hk. apply in_map_iff in Hin.
    destruct Hin as (kv & <- & Hkv). apply in_map. now apply json_day_In. }
  destruct v; [now apply IH | |]; cbn [map fst]; constructor; auto.
Qed.

Lemma json_copy_keys_ok (t : Timetable.t) : keys_ok t -> keys_ok (json_copy t).
Proof.
  intros Hkeys b' Hb'. unfold json_copy in Hb'. cbn in Hb'.
  apply in_map_iff in Hb'. destruct Hb' as (b & <- & Hb).
  destruct (Hkeys b Hb) as (Hnd & Hdays). cbn [json_batch Batch.schedule]. split.
  - now rewrite obj_keys_json_schedule.
  - intros day d' Hd'. unfold json_schedule in Hd'. apply in_map_iff in Hd'.
    destruct Hd' as ([day0 d] & [= <- <-] & Hd). cbn [snd].
    apply json_day_keys_NoDup. now apply (Hdays day0).
Qed.

(** The copy reads like the original. *)
Lemma cell_at_json_copy (t : Timetable.t) (i : nat) (day slot : string) :
  keys_ok t -> cell_at (json_copy t) i day slot = cell_at t i day slot.
Proof.
  intros Hkeys. unfold cell_at, batch_at, json_copy. cbn [Timetable.batches].
  rewrite nth_error_map.
  destruct (nth_error (Timetable.batches t) i) as [b|] eqn:Eb; [|reflexivity].
  cbn [option_map bind json_batch Batch.schedule]. unfold schedule_get.
  rewrite obj_get_json_schedule.
  destruct (obj_get day (Batch.schedule b)) as [d|] eqn:Ed; [|reflexivity].
  cbn [option_map]. f_equal. apply day_get_json_day.
  apply nth_error_In in Eb. destruct (Hkeys b Eb) as (_ & Hdays).
  apply (Hdays day). now apply obj_get_Some_In.
Qed.

Lemma collision_json_copy (kind : ConflictType) (t : Timetable.t) (i j : nat)
  (day slot : string) :
  keys_ok t ->
  collision kind (json_copy t) i j day slot = collision kind t i j day slot.
Proof. intros H. unfold collision. now rewrite !cell_at_json_copy. Qed.

Lemma classesOfDay_json_day (d : DaySchedule) :
  classesOfDay (json_day d) = classesOfDay d.
Proof.
  unfold classesOfDay. induction d as [|[k v] d IH]; [reflexivity|].
  rewrite json_day_cons. destruct v; cbn [flat_map snd app]; now rewrite ?IH.
Qed.

Lemma classesOf_json_copy (t : Timetable.t) : classesOf (json_copy t) = classesOf t.
Proof.
  unfold classesOf, json_copy. cbn [Timetable.batches].
  rewrite !flat_map_concat_map, map_map. f_equal. apply map_ext. intros b.
  cbn [json_batch Batch.schedule]. unfold json_schedule.
  rewrite !flat_map_concat_map, map_map. f_equal. apply map_ext. intros [day d].
  cbn [snd fst]. apply classesOfDay_json_day.
Qed.

(** ** Mutation keeps the classes *)

Arguments classesOf_set_cell {t t' i day slot old v} _ _.

Lemma mutate_scan_ensures (batch : Batch.t) :
  ensures (mutate_scan batch)
    (fun scan =>
       (forall e, In e (fst scan) ->
          truthy (cell_of batch (fst e) (snd e)) = false) /\
       (forall f, In f (snd scan) ->
          truthy (cell_of batch (fst f) (snd f)) = true)).
Proof.
  unfold mutate_scan.
  set (I := fun scan : list (string * string) * list (string * string) =>
              (forall e, In e (fst scan) ->
                 truthy (cell_of batch (fst e) (snd e)) = false) /\
              (forall f, In f (snd scan) ->
                 truthy (cell_of batch (fst f) (snd f)) = true)).
  apply forEach_ensures with (I := I); [|split; intros ? []].
  intros acc day _ Hacc.
  destruct (obj_get day (Batch.schedule batch)) as [daySchedule|] eqn:Ed;
    [|intros ? [=]].
  apply forEach_ensures with (I := I); [|exact Hacc].
  intros acc' slot _ (He & Hf).
  assert (Hcell : cell_of batch day slot = day_get daySchedule slot)
    by (unfold cell_of, schedule_get; now rewrite Ed).
  destruct (truthy (day_get daySchedule slot)) eqn:Et; intros a [= <-];
    split; cbn [fst snd]; auto; intros c Hc; apply in_app_or in Hc;
    destruct Hc as [Hc|[<-|[]]]; auto; cbn [fst snd]; now rewrite Hcell.
Qed.

Lemma cell_at_cell_of (t : Timetable.t) (i : nat) (b : Batch.t)
  (day slot : string) (v : Cell) :
  nth_error (Timetable.batches t) i = Some b ->
  cell_at t i day slot = Ok v -> cell_of b day slot = v.
Proof.
  intros Hb Hv. unfold cell_at, batch_at in Hv. rewrite Hb in Hv.
  cbn [bind] in Hv. unfold cell_of. now rewrite Hv.
Qed.

Arguments cell_at_cell_of {t i b day slot v} _ _.

(** A class moved to a free cell. *)
Lemma move_classesOf (t m t' : Timetable.t) (i : nat)
  (from to : string * string) (moving here : Cell) :
  cell_at t i (fst from) (snd from) = Ok moving ->
  cell_at t i (fst to) (snd to) = Ok here ->
  truthy here = false -> from <> to ->
  set_cell t i (fst to) (snd to) moving = Ok m ->
  set_cell m i (fst from) (snd from) CNull = Ok t' ->
  Permutation (classesOf t') (classesOf t).
Proof.
  intros Hfrom Hto Hfree Hne H1 H2.
  pose proof (classesOf_set_cell Hto H1) as P1.
  assert (Hm : cell_at m i (fst from) (snd from) = Ok moving).
  { rewrite (cell_at_set_cell_neq H1); [exact Hfrom|].
    intros [= E1 E2]. apply Hne. destruct from, to. cbn in *. congruence. }
  pose proof (classesOf_set_cell Hm H2) as P2.
  destruct here; try discriminate; cbn [cls app] in P1, P2;
    apply (Permutation_app_inv_l (cls moving));
    (etransitivity; [exact P2 | exact P1]).
Qed.

(** Two cells exchanged. *)
Lemma swap_classesOf (t m t' : Timetable.t) (i : nat)
  (day1 slot1 day2 slot2 : string) (temp other : Cell) :
  cell_at t i day1 slot1 = Ok temp ->
  cell_at t i day2 slot2 = Ok other ->
  set_cell t i day1 slot1 other = Ok m ->
  set_cell m i day2 slot2 temp = Ok t' ->
  Permutation (classesOf t') (classesOf t).
Proof.
  intros Htemp Hother H1 H2.
  pose proof (classesOf_set_cell Htemp H1) as P1.
  assert (Hm : cell_at m i day2 slot2 = Ok other).
  { destruct (string_dec day2 day1) as [->|Hd];
      [destruct (string_dec slot2 slot1) as [->|Hs]|].
    - apply (cell_at_set_cell_eq H1).
    - rewrite (cell_at_set_cell_neq H1); [exact Hother | congruence].
    - rewrite (cell_at_set_cell_neq H1); [exact Hother | congruence]. }
  pose proof (classesOf_set_cell Hm H2) as P2.
  apply (Permutation_app_inv_l (cls other)).
  etransitivity; [exact P2|]. etransitivity; [exact P1|]. reflexivity.
Qed.

Lemma arr_get_nth_error {A} (l : list A) (k : Z) (x : A) :
  arr_get l k = Some x -> nth_error l (Z.to_nat k) = Some x.
Proof. unfold arr_get. now destruct (k <? 0). Qed.

Lemma mutate_batch_classesOf (t : Timetable.t) (b : Z) :
  ensuresR (mutate_batch t b)
    (fun t' => Permutation (classesOf t') (classesOf t)).
Proof.
  unfold mutate_batch.
  destruct (arr_get (Timetable.batches t) b) as [batch|] eqn:Eb;
    [|intros ? ? ? [=]].
  apply arr_get_nth_error in Eb. cbv zeta.
  eapply ensuresR_bind; [apply ensuresR_lift, mutate_scan_ensures|].
  cbn beta. intros [emptySlots filledSlots] (Hempty & Hfilled).
  cbn [fst snd] in *.
  destruct (negb (Nat.eqb (List.length emptySlots) 0)
            && negb (Nat.eqb (List.length filledSlots) 0)).
  - eapply ensuresR_bind; [apply ensuresR_any|]. intros e _.
    eapply ensuresR_bind; [apply ensuresR_any|]. intros f _.
    destruct (arr_get emptySlots e) as [randomEmpty|] eqn:Ee;
      [|intros ? ? ? [=]].
    destruct (arr_get filledSlots f) as [randomFilled|] eqn:Ef;
      [|intros ? ? ? [=]].
    apply arr_get_nth_error, nth_error_In in Ee, Ef.
    apply ensuresR_lift. intros t' E.
    destruct (cell_at t (Z.to_nat b) (fst randomFilled) (snd randomFilled))
      as [moving|] eqn:Emoving; [|discriminate].
    cbn [bind] in E.
    destruct (set_cell t (Z.to_nat b) (fst randomEmpty) (snd randomEmpty) moving)
      as [m|] eqn:Em; [|discriminate].
    cbn [bind] in E.
    destruct (cell_at t (Z.to_nat b) (fst randomEmpty) (snd randomEmpty))
      as [here|] eqn:Ehere.
    2:{ destruct (set_cell_inv Em) as (b0 & d & Hb0 & Hd & _).
        unfold cell_at, batch_at, schedule_get in Ehere.
        rewrite Hb0 in Ehere. cbn [bind] in Ehere. now rewrite Hd in Ehere. }
    pose proof (cell_at_cell_of Eb Emoving) as Hmoving.
    pose proof (cell_at_cell_of Eb Ehere) as Hhere.
    specialize (Hempty _ Ee). specialize (Hfilled _ Ef).
    rewrite Hhere in Hempty. rewrite Hmoving in Hfilled.
    apply (@move_classesOf t m t' (Z.to_nat b) randomFilled randomEmpty moving here);
      auto.
    intros ->. congruence.
  - eapply ensuresR_bind; [apply ensuresR_any|]. intros d1 _.
    eapply ensuresR_bind; [apply ensuresR_any|]. intros d2 _.
    eapply ensuresR_bind; [apply ensuresR_any|]. intros slots1 _.
    eapply ensuresR_bind; [apply ensuresR_any|]. intros slots2 _.
    eapply ensuresR_bind; [apply ensuresR_any|]. intros s1 _.
    eapply ensuresR_bind; [apply ensuresR_any|]. intros s2 _.
    apply ensuresR_lift. intros t' E.
    match type of E with
    | bind (cell_at t ?i ?day1 ?slot1) _ = _ =>
        destruct (cell_at t i day1 slot1) as [temp|] eqn:Etemp; [|discriminate]
    end.
    cbn [bind] in E.
    match type of E with
    | bind (cell_at t ?i ?day2 ?slot2) _ = _ =>
        destruct (cell_at t i day2 slot2) as [other|] eqn:Eother; [|discriminate]
    end.
    cbn [bind] in E.
    match type of E with
    | bind (set_cell t ?i ?day1 ?slot1 other) _ = _ =>
        destruct (set_cell t i day1 slot1 other) as [m|] eqn:Em; [|discriminate]
    end.
    cbn [bind] in E.
    exact (@swap_classesOf t m t' _ _ _ _ _ temp other Etemp Eother Em E).
Qed.

(** X6: [mutate] moves classes and never adds, drops or alters one:
    whenever it returns, the classes of the result are, counted with their
    repetitions, the classes of its argument. *)
Theorem mutate_keeps_classes (t t' : Timetable.t) (rng rng' : Rng) :
  mutate t rng = Ok (t', rng') -> Permutation (classesOf t') (classesOf t).
Proof.
  intros E. rewrite <- (classesOf_json_copy t).
  revert rng t' rng' E.
  change (ensuresR (mutate t)
            (fun t' => Permutation (classesOf t') (classesOf (json_copy t)))).
  unfold mutate, mutate_inplace. cbv zeta.
  eapply ensuresR_bind; [apply ensuresR_any|]. intros b _.
  apply mutate_batch_classesOf.
Qed.

Lemma mutate_keeps_classes_witness :
  exists t' rng',
    mutate seventeenOfTwenty [0%Q; 1 # 2; 1 # 2] = Ok (t', rng') /\
    t' <> seventeenOfTwenty /\
    Permutation (classesOf t') (classesOf seventeenOfTwenty).
Proof.
  destruct (mutate seventeenOfTwenty [0%Q; 1 # 2; 1 # 2]) as [[t' rng']|] eqn:E;
    [|vm_compute in E; discriminate].
  exists t', rng'. split; [reflexivity|]. split.
  - vm_compute in E. injection E as <- _. discriminate.
  - exact (@mutate_keeps_classes seventeenOfTwenty t' _ rng' E).
Defined.

(** ** Conflict repair keeps the classes and adds no collision *)

Lemma resolve_move_ensures (o : Timetable.t) (conflict : Conflict.t)
  (class1 : Cell) (coords : list (string * string)) :
  ids_ok o -> keys_ok o ->
  cell_at o (fst (Conflict.batches conflict)) (Conflict.day conflict)
          (Conflict.slot conflict) = Ok class1 ->
  ensures (resolve_move o conflict class1 coords) (repair_inv o).
Proof.
  intros Hids Hkeys Hclass1.
  induction coords as [|[day slot] rest IH]; cbn [resolve_move].
  - intros o' [= <-]. split; [apply same_shape_refl|]. split; [exact Hkeys|].
    split; [reflexivity | apply no_new_collision_refl].
  - cbv zeta. set (i := fst (Conflict.batches conflict)) in *.
    intros o' E.
    destruct (cell_at o i day slot) as [here|] eqn:Ehere; [|discriminate].
    cbn [bind] in E. destruct (truthy here) eqn:Efree; [now apply IH|].
    destruct (isValidAssignment o (testAssignment class1 (Z.of_nat i) day slot))
      as [valid|] eqn:Evalid; [|discriminate].
    cbn [bind] in E. destruct valid; [|now apply IH].
    destruct (set_cell o i day slot class1) as [m|] eqn:Em; [|discriminate].
    cbn [bind] in E.
    split; [|split; [|split]].
    + eapply same_shape_trans; eapply set_cell_same_shape; eauto.
    + eapply set_cell_keys_ok; [|exact E]. eapply set_cell_keys_ok; eauto.
    + pose proof (classesOf_set_cell Ehere Em) as P1.
      assert (Hm : cell_at m i (Conflict.day conflict) (Conflict.slot conflict)
                   = Ok class1).
      { destruct (string_dec (Conflict.day conflict) day) as [Hd|Hd];
          [destruct (string_dec (Conflict.slot conflict) slot) as [Hs|Hs]|].
        - rewrite Hd, Hs. apply (cell_at_set_cell_eq Em).
        - rewrite (cell_at_set_cell_neq Em); [exact Hclass1 | congruence].
        - rewrite (cell_at_set_cell_neq Em); [exact Hclass1 | congruence]. }
      pose proof (classesOf_set_cell Hm E) as P2.
      destruct here; try discriminate; cbn [cls app] in P1, P2;
        apply (Permutation_app_inv_l (cls class1));
        (etransitivity; [exact P2 | exact P1]).
    + eapply no_new_collision_trans.
      * apply (@set_cell_valid o m i day slot class1
                 (testAssignment class1 (Z.of_nat i) day slot)); auto.
        -- now destruct class1.
        -- now destruct class1.
        -- now destruct class1.
        -- intros c ->. split; reflexivity.
      * apply (@set_cell_free m o' i (Conflict.day conflict)
                 (Conflict.slot conflict) CNull); auto.
Qed.

Lemma repair_inv_trans (t o o' : Timetable.t) :
  repair_inv t o -> repair_inv o o' -> repair_inv t o'.
Proof.
  intros (Hs & _ & Hp & Hn) (Hs' & Hk' & Hp' & Hn').
  split; [eapply same_shape_trans; eauto|]. split; [exact Hk'|].
  split; [etransitivity; eauto | eapply no_new_collision_trans; eauto].
Qed.

Lemma resolve_conflict_ensures (g : TimetableGenerator) (o : Timetable.t)
  (conflict : Conflict.t) :
  ids_ok o -> keys_ok o ->
  ensures (resolve_conflict g o conflict) (repair_inv o).
Proof.
  intros Hids Hkeys. unfold resolve_conflict.
  destruct (Conflict.type conflict).
  - intros o' E.
    destruct (cell_at o (fst (Conflict.batches conflict)) (Conflict.day conflict)
                (Conflict.slot conflict)) as [class1|] eqn:E1; [|discriminate].
    cbn [bind] in E.
    destruct (cell_at o (snd (Conflict.batches conflict)) (Conflict.day conflict)
                (Conflict.slot conflict)) as [class2|]; [|discriminate].
    cbn [bind] in E. exact (@resolve_move_ensures o conflict class1 _ Hids Hkeys E1 o' E).
  - intros o' [= <-]. split; [apply same_shape_refl|]. split; [exact Hkeys|].
    split; [reflexivity | apply no_new_collision_refl].
Qed.

Lemma resolveConflictsBySwapping_ensures (g : TimetableGenerator)
  (t : Timetable.t) :
  ids_ok t -> keys_ok t ->
  ensures (resolveConflictsBySwapping g t) (repair_inv t).
Proof.
  intros Hids Hkeys. unfold resolveConflictsBySwapping. cbv zeta.
  assert (H0 : repair_inv t (json_copy t)).
  { split; [apply json_copy_same_shape|]. split; [now apply json_copy_keys_ok|].
    split; [now rewrite classesOf_json_copy|].
    intros kind i j day slot H. now rewrite collision_json_copy in H. }
  unfold resolveConflictsBySwapping_inplace.
  intros o' E. destruct (detectConflicts (json_copy t)) as [conflicts|];
    [|discriminate].
  cbn [bind] in E. revert o' E.
  apply forEach_ensures with (I := repair_inv t); [|exact H0].
  intros o conflict _ Ho o' E.
  apply (repair_inv_trans Ho).
  destruct Ho as (Hs & Hk & _).
  exact (@resolve_conflict_ensures g o conflict (same_shape_ids_ok Hs Hids) Hk o' E).
Qed.

(** X7: whenever [resolveConflictsBySwapping] returns, the result has the
    batches and days of its argument and exactly its classes, counted with
    their repetitions, and two batches collide in the result only where
    they already collided in the argument: the repair moves classes and
    creates no conflict. *)
Theorem resolveConflictsBySwapping_moves (g : TimetableGenerator)
  (t t' : Timetable.t) :
  ids_ok t -> keys_ok t ->
  resolveConflictsBySwapping g t = Ok t' ->
  same_shape t t' /\
  Permutation (classesOf t') (classesOf t) /\
  no_new_collision t t'.
Proof.
  intros Hids Hkeys E.
  destruct (@resolveConflictsBySwapping_ensures g t Hids Hkeys t' E)
    as (Hs & _ & Hp & Hn).
  auto.
Qed.

Lemma clashAtNine_ok : ids_ok clashAtNine /\ keys_ok clashAtNine.
Proof.
  split.
  - intros [|[|[|i]]] b; cbn; intros [= <-]; reflexivity.
  - intros b [<-|[<-|[]]]; (split; [cbn; nodup_strings|]);
      intros day d [[= <- <-]|[]]; cbn; nodup_strings.
Qed.

Lemma resolveConflictsBySwapping_moves_witness :
  exists t',
    resolveConflictsBySwapping twoSlots clashAtNine = Ok t' /\
    cell_at t' 0 "Monday" "09:00-10:00" = Ok CNull /\
    cell_at t' 0 "Monday" "10:00-11:00"
    = Ok (CClass (classInfo "Maths" "Dr. Rao" "Room-101")) /\
    Permutation (classesOf t') (classesOf clashAtNine) /\
    no_new_collision clashAtNine t'.
Proof.
  destruct (resolveConflictsBySwapping twoSlots clashAtNine) as [t'|] eqn:E;
    [|vm_compute in E; discriminate].
  exists t'.
  destruct (@resolveConflictsBySwapping_moves twoSlots clashAtNine t'
              (proj1 clashAtNine_ok) (proj2 clashAtNine_ok) E) as (_ & Hp & Hn).
  split; [reflexivity|].
  vm_compute in E. injection E as <-.
  split; [reflexivity|]. split; [reflexivity|]. split; [exact Hp | exact Hn].
Defined.

(** ** Gap filling only adds classes, and adds no collision *)















(** ** Intensive gap filling *)






Lemma clashAtNine_well_formed : well_formed twoSlots clashAtNine.
Proof.
  split; [repeat constructor|]. split.
  - apply all_classes_Forall. vm_compute.
    repeat (apply Forall_cons; [discriminate|]). apply Forall_nil.
  - repeat constructor; discriminate.
Qed.


(** * The strategies *)

(** ** The empty timetable *)

Lemma createEmptyTimetable_length (g : TimetableGenerator) :
  List.length (Timetable.batches (createEmptyTimetable g))
  = Z.to_nat (Parameters.batches (parameters g)).
Proof. unfold createEmptyTimetable. cbn. now rewrite length_map, length_seq. Qed.



(** ** Rooms *)


(** ** No collision, no conflict *)



(** ** The constraint-first strategy on any number of batches *)



Lemma upto_In (n b : Z) : In b (upto n) -> 0 <= b < n.
Proof.
  unfold upto. intros H. apply in_map_iff in H. destruct H as (k & <- & Hk).
  apply in_seq in Hk. lia.
Qed.







(** ** Tournament selection *)

Lemma fitter_Some (x y : Q) : fitter (Some y) (Some x) = true <-> (x < y)%Q.
Proof.
  cbn [fitter]. unfold Qlt_bool. rewrite negb_true_iff.
  destruct (Qle_bool y x) eqn:E.
  - apply Qle_bool_iff in E. split; [discriminate | intros H; lra].
  - split; [|reflexivity]. intros _.
    destruct (Qlt_le_dec x y) as [H|H]; [exact H|].
    apply Qle_bool_iff in H. congruence.
Qed.

Lemma insert_by_fitness_In {A} (r e : A * option Q) (sorted : list (A * option Q)) :
  In e (insert_by_fitness r sorted) <-> e = r \/ In e sorted.
Proof.
  induction sorted as [|h rest IH]; cbn [insert_by_fitness].
  - cbn. intuition.
  - destruct (fitter (snd r) (snd h)); cbn [In]; [intuition|].
    rewrite IH. intuition.
Qed.

(** The first entry of a sorted list is one of its fittest. *)
Lemma insert_by_fitness_head {A} (r : A * option Q) (sorted : list (A * option Q)) :
  snd r <> None -> Forall (fun e => snd e <> None) sorted ->
  (forall h rest, sorted = h :: rest ->
     forall e, In e sorted -> (fitness_of e <= fitness_of h)%Q) ->
  exists h rest,
    insert_by_fitness r sorted = h :: rest /\
    forall e, In e (h :: rest) -> (fitness_of e <= fitness_of h)%Q.
Proof.
  intros Hr Hall Hmax. destruct sorted as [|h rest]; cbn [insert_by_fitness].
  - exists r, []. split; [reflexivity|]. intros e [<-|[]]. lra.
  - specialize (Hmax h rest eq_refl).
    inversion Hall as [|? ? Hh _]; subst.
    destruct (snd r) as [x|] eqn:Ex; [|congruence].
    destruct (snd h) as [y|] eqn:Ey; [|congruence].
    assert (Fr : fitness_of r = x) by (unfold fitness_of; now rewrite Ex).
    assert (Fh : fitness_of h = y) by (unfold fitness_of; now rewrite Ey).
    destruct (fitter (Some x) (Some y)) eqn:E.
    + apply fitter_Some in E. exists r, (h :: rest). split; [reflexivity|].
      intros e [<-|He]; [lra|]. specialize (Hmax e He).
      rewrite Fh in Hmax. rewrite Fr. lra.
    + exists h, (insert_by_fitness r rest). split; [reflexivity|].
      intros e [<-|He]; [lra|]. apply insert_by_fitness_In in He.
      destruct He as [->|He].
      * rewrite Fr, Fh. destruct (Qlt_le_dec y x) as [H|H]; [|lra].
        apply fitter_Some in H. congruence.
      * apply Hmax. now right.
Qed.

Lemma sort_by_fitness_head {A} (entries : list (A * option Q)) :
  entries <> [] -> Forall (fun e => snd e <> None) entries ->
  exists h rest,
    sort_by_fitness entries = h :: rest /\
    In h entries /\
    forall e, In e entries -> (fitness_of e <= fitness_of h)%Q.
Proof.
  intros Hne Hall. unfold sort_by_fitness.
  assert (H : forall l acc : list (A * option Q),
             Forall (fun e => snd e <> None) l ->
             Forall (fun e => snd e <> None) acc ->
             (forall h rest, acc = h :: rest ->
                forall e, In e acc -> (fitness_of e <= fitness_of h)%Q) ->
             let out := fold_left (fun sorted r => insert_by_fitness r sorted) l acc in
             (forall e, In e out <-> In e l \/ In e acc) /\
             (forall h rest, out = h :: rest ->
                forall e, In e out -> (fitness_of e <= fitness_of h)%Q)).
  { induction l as [|r l IH]; intros acc Hl Hacc Hmax; cbn [fold_left].
    - cbv zeta. split; [intros e; cbn; intuition | exact Hmax].
    - inversion Hl as [|? ? Hr Hl']; subst.
      destruct (@insert_by_fitness_head _ r acc Hr Hacc Hmax) as (h & rest & E & Hh).
      destruct (IH (insert_by_fitness r acc) Hl') as (Hin & Hout).
      + apply Forall_forall. intros e He. apply insert_by_fitness_In in He.
        destruct He as [->|He]; [exact Hr|].
        rewrite Forall_forall in Hacc. now apply Hacc.
      + intros h' rest' E' e He. rewrite E in E'. injection E' as <- <-.
        rewrite E in He. now apply Hh.
      + cbv zeta. split; [|exact Hout].
        intros e. rewrite Hin, insert_by_fitness_In. cbn [In]. intuition. }
  destruct (H entries [] Hall (Forall_nil _)) as (Hin & Hout);
    [intros ? ? [=]|].
  cbv zeta in Hin, Hout.
  destruct (fold_left (fun sorted r => insert_by_fitness r sorted) entries [])
    as [|h rest] eqn:E.
  - exfalso. destruct entries as [|e entries]; [congruence|].
    apply (proj2 (Hin e)). left. now left.
  - exists h, rest. split; [reflexivity|]. split.
    + destruct (proj1 (Hin h) (or_introl eq_refl)) as [H1|[]]. exact H1.
    + intros e He. apply (Hout h rest eq_refl). apply Hin. now left.
Qed.

(** The four draws. *)
Lemma tournament_draws {A} (population : list A) (fitnessScores : list Q)
  (rng : Rng) :
  forEachR (seq 0 4)
    (fun tournament _ => tournament_draw population fitnessScores tournament)
    [] rng
  = Ok (map (fun k =>
               let i := Qfloor (nth k rng 0%Q
                                * inject_Z (Z.of_nat (List.length population))) in
               (arr_get population i, arr_get fitnessScores i))
            (seq 0 4),
        skipn 4 rng).
Proof.
  destruct rng as [|u0 [|u1 [|u2 [|u3 rng]]]]; reflexivity.
Qed.

(** Every draw of a tournament hits an individual and its score. *)
Lemma tournament_entry {A} (population : list A) (fitnessScores : list Q)
  (rng : Rng) (k : nat) :
  population <> [] ->
  List.length fitnessScores = List.length population ->
  rng_ok rng ->
  let i := Qfloor (nth k rng 0%Q * inject_Z (Z.of_nat (List.length population))) in
  exists w f,
    arr_get population i = Some w /\
    arr_get fitnessScores i = Some f /\
    nth_error population (drawn rng (List.length population) k) = Some w /\
    nth_error fitnessScores (drawn rng (List.length population) k) = Some f.
Proof.
  intros Hne Hlen Hrng i.
  assert (Hn : (0 < List.length population)%nat)
    by (destruct population; [congruence | cbn; lia]).
  assert (Hu : (0 <= nth k rng 0 /\ nth k rng 0 < 1)%Q).
  { destruct (nth_in_or_default k rng 0%Q) as [Hin| ->]; [|split; lra].
    unfold rng_ok in Hrng. rewrite Forall_forall in Hrng. now apply Hrng. }
  assert (Hrange : 0 <= i < Z.of_nat (List.length population))
    by (apply random_index_range; tauto).
  destruct (@arr_get_Some _ population i Hrange) as (w & Ew & Nw).
  destruct (@arr_get_Some _ fitnessScores i) as (f & Ef & Nf);
    [now rewrite Hlen|].
  exists w, f. unfold drawn. auto.
Qed.

(** X11: from a population with one score per individual,
    [tournamentSelection] draws four indices and returns the individual of
    the highest score among the four drawn; it uses up four random
    numbers. *)
Theorem tournamentSelection_fittest {A} (population : list A)
  (fitnessScores : list Q) (rng : Rng) :
  population <> [] ->
  List.length fitnessScores = List.length population ->
  rng_ok rng ->
  exists j winner f,
    tournamentSelection population fitnessScores rng
    = Ok (Some winner, skipn 4 rng) /\
    (j < 4)%nat /\
    nth_error population (drawn rng (List.length population) j) = Some winner /\
    nth_error fitnessScores (drawn rng (List.length population) j) = Some f /\
    forall j', (j' < 4)%nat ->
      exists f',
        nth_error fitnessScores (drawn rng (List.length population) j') = Some f' /\
        (f' <= f)%Q.
Proof.
  intros Hne Hlen Hrng.
  pose proof (fun k => @tournament_entry A population fitnessScores rng k
                         Hne Hlen Hrng) as Hentry.
  cbv zeta in Hentry.
  unfold tournamentSelection. cbv zeta. unfold bindR.
  rewrite tournament_draws. cbv zeta.
  set (entries := map _ (seq 0 4)).
  assert (Hall : Forall (fun e : option A * option Q => snd e <> None) entries).
  { apply Forall_forall. intros e He. apply in_map_iff in He.
    destruct He as (k & <- & _). cbn [snd].
    destruct (Hentry k) as (w & f & _ & -> & _). discriminate. }
  destruct (@sort_by_fitness_head _ entries) as (h & rest & Es & Hin & Hmax);
    [discriminate | exact Hall |].
  rewrite Es.
  apply in_map_iff in Hin. destruct Hin as (j & <- & Hj). apply in_seq in Hj.
  destruct (Hentry j) as (w & f & Ew & Ef & Nw & Nf).
  exists j, w, f. cbn [fst]. rewrite Ew. split; [reflexivity|].
  split; [lia|]. split; [exact Nw|]. split; [exact Nf|].
  intros j' Hj'. destruct (Hentry j') as (w' & f' & Ew' & Ef' & _ & Nf').
  exists f'. split; [exact Nf'|].
  specialize (Hmax (arr_get population
                      (Qfloor (nth j' rng 0%Q
                               * inject_Z (Z.of_nat (List.length population)))),
                    arr_get fitnessScores
                      (Qfloor (nth j' rng 0%Q
                               * inject_Z (Z.of_nat (List.length population)))))).
  unfold fitness_of in Hmax. cbn [snd] in Hmax. rewrite Ef, Ef' in Hmax.
  apply Hmax. apply in_map_iff. exists j'. split; [now rewrite Ef'|].
  apply in_seq. lia.
Qed.

Lemma tournamentSelection_fittest_witness :
  exists rng',
    tournamentSelection ["a"; "b"; "c"] [1; 3; 2]%Q [0%Q; 1 # 2; 9 # 10; 1 # 2; 1 # 3]
    = Ok (Some "b", rng') /\ rng' = [1 # 3].
Proof.
  destruct (@tournamentSelection_fittest string ["a"; "b"; "c"] [1; 3; 2]%Q
              [0%Q; 1 # 2; 9 # 10; 1 # 2; 1 # 3])
    as (j & winner & f & E & _).
  - discriminate.
  - reflexivity.
  - repeat constructor; cbn; lra.
  - exists [1 # 3]. split; [|reflexivity].
    rewrite E. vm_compute in E. injection E as <-. reflexivity.
Defined.

(** * The initial population *)


(** A loop that pushes one entry per element, seen through a projection
    of the entries. *)
Lemma forEachR_push_map {A B C} (h : B -> C) (w : A -> C) (f : A -> Rand B)
  (l : list A) (acc : list B) :
  (forall x, In x l -> returnsR (f x) (fun r => h r = w x)) ->
  returnsR (forEachR l (fun acc x => r <~ f x ;; ret (acc ++ [r])) acc)
    (fun acc' => map h acc' = map h acc ++ map w l).
Proof.
  revert acc. induction l as [|x l IH]; intros acc Hf; cbn [forEachR].
  - apply returnsR_ret. cbn. now rewrite app_nil_r.
  - eapply returnsR_bind with (P := fun acc1 => map h acc1 = map h acc ++ [w x]).
    + eapply returnsR_bind; [apply Hf; now left|].
      cbn beta. intros r Hr. apply returnsR_ret.
      rewrite map_app. cbn. now rewrite Hr.
    + cbn beta. intros acc1 E1.
      eapply returnsR_weaken;
        [apply (IH acc1); intros y Hy; apply Hf; now right|].
      cbn beta. intros acc' E'. rewrite E', E1, <- app_assoc. reflexivity.
Qed.

Lemma seed_returns (g : TimetableGenerator) (subject : string) (batch : Z) :
  returnsR (seed g subject batch) (fun s => seed_batch s = batch).
Proof.
  unfold seed. cbv zeta.
  eapply returnsR_bind; [apply returnsR_randomIndex|].
  cbn beta. intros k _.
  eapply returnsR_bind; [apply returnsR_random|].
  cbn beta. intros u _. now apply returnsR_ret.
Qed.

Lemma seeds_subject_returns (g : TimetableGenerator) (classesPerSubject : Z)
  (assignments : list Seed) (subject : string) :
  returnsR (seeds_subject g classesPerSubject assignments subject)
    (fun assignments' =>
       map seed_batch assignments'
       = map seed_batch assignments
         ++ map snd (list_prod (upto classesPerSubject)
                               (upto (Parameters.batches (parameters g))))).
Proof.
  unfold seeds_subject.
  apply (@forEachR_push_map _ _ _ seed_batch snd
           (fun fb => seed g subject (snd fb))).
  intros fb _. apply seed_returns.
Qed.

Lemma seeds_returns (g : TimetableGenerator) (classesPerSubject : Z)
  (subjects : list string) (assignments : list Seed) :
  returnsR (forEachR subjects (seeds_subject g classesPerSubject) assignments)
    (fun assignments' =>
       map seed_batch assignments'
       = map seed_batch assignments
         ++ flat_map (fun _ : string =>
                        map snd (list_prod (upto classesPerSubject)
                                   (upto (Parameters.batches (parameters g)))))
                     subjects).
Proof.
  revert assignments.
  induction subjects as [|subject subjects IH]; intros acc; cbn [forEachR].
  - apply returnsR_ret. cbn. now rewrite app_nil_r.
  - eapply returnsR_bind; [apply seeds_subject_returns|].
    cbn beta. intros acc1 E1.
    eapply returnsR_weaken; [apply (IH acc1)|].
    cbn beta. intros acc' E'. rewrite E', E1, <- app_assoc. reflexivity.
Qed.

(** Each batch of the generator is handed [seedsPerBatch] classes. *)
Lemma count_occ_snd_list_prod {A} (la : list A) (lb : list Z) (b : Z) :
  count_occ Z.eq_dec (map snd (list_prod la lb)) b
  = (List.length la * count_occ Z.eq_dec lb b)%nat.
Proof.
  induction la as [|a la IH]; cbn [list_prod List.length]; [reflexivity|].
  rewrite map_app, count_occ_app, IH, map_map. cbn [snd]. rewrite map_id.
  lia.
Qed.

Lemma count_occ_upto (n : Z) (i : nat) :
  (i < Z.to_nat n)%nat -> count_occ Z.eq_dec (upto n) (Z.of_nat i) = 1%nat.
Proof.
  intros Hi. apply NoDup_count_occ'.
  - unfold upto. apply Finite.Injective_map_NoDup; [|apply seq_NoDup].
    intros x y. apply Nat2Z.inj.
  - unfold upto. apply in_map. apply in_seq. lia.
Qed.

Lemma count_occ_flat_map_const {A} (l : list A) (c : list Z) (b : Z) :
  count_occ Z.eq_dec (flat_map (fun _ : A => c) l) b
  = (List.length l * count_occ Z.eq_dec c b)%nat.
Proof.
  induction l as [|x l IH]; cbn [flat_map List.length]; [reflexivity|].
  rewrite count_occ_app, IH. lia.
Qed.

Lemma upto_length (n : Z) : List.length (upto n) = Z.to_nat n.
Proof. unfold upto. now rewrite length_map, length_seq. Qed.

(** *** Placing one class *)

Lemma packing_ext (g : TimetableGenerator) (t : Timetable.t) (k k' : nat -> nat) :
  (forall i, k i = k' i) -> packing g t k -> packing g t k'.
Proof.
  intros E (Hs & H). split; [exact Hs|].
  intros i j day slot Hi Hj. rewrite <- E. now apply H.
Qed.

Lemma nth_error_app_cons {A} (l1 l2 : list A) (x : A) :
  nth_error (l1 ++ x :: l2) (List.length l1) = Some x.
Proof. rewrite nth_error_app2 by lia. now rewrite Nat.sub_diag. Qed.

Lemma seed_place_returns (g : TimetableGenerator) (a : Seed) (t : Timetable.t)
  (k : nat -> nat) (l1 l2 : list (string * string)) :
  NoDup (gridCoords g) ->
  0 <= seed_batch a < Parameters.batches (parameters g) ->
  gridCoords g = l1 ++ l2 ->
  (List.length l1 <= k (Z.to_nat (seed_batch a)))%nat ->
  packing g t k ->
  returns (seed_place t a g l2)
    (fun t' =>
       packing g t'
         (fun i => if (i =? Z.to_nat (seed_batch a))%nat
                   then Datatypes.S (k i) else k i)).
Proof.
  intros Hnd Hb. set (b := Z.to_nat (seed_batch a)).
  assert (Hbn : (b < Z.to_nat (Parameters.batches (parameters g)))%nat)
    by (unfold b; lia).
  revert l1. induction l2 as [|[day slot] l2 IH]; intros l1 El Hl Hinv;
    cbn [seed_place].
  - apply returns_Ok. destruct Hinv as (Hs & H). split; [exact Hs|].
    intros i j d s Hi Hj. destruct (H i j d s Hi Hj) as (c & Ec & Uc & Tc).
    exists c. split; [exact Ec|]. split; [exact Uc|]. rewrite Tc.
    assert (Hjl : (j < List.length l1)%nat).
    { rewrite app_nil_r in El. rewrite <- El. apply nth_error_Some. congruence. }
    destruct (Nat.eqb_spec i b) as [->|_]; [|reflexivity].
    destruct (Nat.ltb_spec j (k b)); destruct (Nat.ltb_spec j (Datatypes.S (k b)));
      try reflexivity; lia.
  - assert (Hm : nth_error (gridCoords g) (List.length l1) = Some (day, slot))
      by (rewrite El; apply nth_error_app_cons).
    destruct (proj2 Hinv b _ day slot Hbn Hm) as (c & Ec & _ & Tc).
    unfold cell_at, batch_at in Ec.
    destruct (nth_error (Timetable.batches t) b) as [batch|] eqn:Ebatch;
      [|discriminate].
    cbn [bind] in Ec.
    unfold arr_get. destruct (Z.ltb_spec (seed_batch a) 0) as [Hneg|_]; [lia|].
    fold b. rewrite Ebatch, Ec. cbn [bind].
    destruct (truthy c) eqn:Ecell.
    + apply (IH (l1 ++ [(day, slot)])).
      * rewrite <- app_assoc. exact El.
      * rewrite length_app. cbn [List.length].
        symmetry in Tc. apply Nat.ltb_lt in Tc. lia.
      * exact Hinv.
    + symmetry in Tc. apply Nat.ltb_ge in Tc.
      assert (Hk : k b = List.length l1) by lia.
      assert (Hset : exists t',
                 set_cell t b day slot
                   (classOf g (Some (seed_subject a)) (seed_faculty a)
                            (seed_room a)) = Ok t').
      { unfold set_cell, batch_at, schedule_set. rewrite Ebatch. cbn [bind].
        unfold schedule_get in Ec.
        destruct (obj_get day (Batch.schedule batch)); [|discriminate].
        cbn [bind]. eauto. }
      destruct Hset as (t' & Eset). rewrite Eset. apply returns_Ok.
      destruct Hinv as (Hs & H). split.
      * eapply same_shape_trans; [exact Hs|]. eapply set_cell_same_shape; eauto.
      * intros i j d s Hi Hj.
        destruct (H i j d s Hi Hj) as (c' & Ec' & Uc' & Tc').
        destruct (Nat.eq_dec j (List.length l1)) as [Ej|Ej].
        -- subst j. rewrite Hm in Hj. injection Hj as <- <-.
           destruct (Nat.eqb_spec i b) as [->|Hib].
           ++ eexists. split; [eapply cell_at_set_cell_eq; eauto|].
              split; [discriminate|].
              cbn [classOf truthy]. symmetry. apply Nat.ltb_lt. lia.
           ++ exists c'. split; [|auto].
              rewrite (@cell_at_set_cell_neq t t' b i day slot day slot _ Eset);
                [exact Ec'|]. congruence.
        -- exists c'. split.
           ++ rewrite (@cell_at_set_cell_neq t t' b i day slot d s _ Eset);
                [exact Ec'|].
              intros [= -> -> ->]. apply Ej.
              apply (proj1 (NoDup_nth_error (gridCoords g)) Hnd);
                [apply nth_error_Some; congruence | congruence].
           ++ split; [exact Uc'|]. rewrite Tc'. destruct (Nat.eqb_spec i b) as [->|_]; [|reflexivity].
              destruct (Nat.ltb_spec j (k b));
                destruct (Nat.ltb_spec j (Datatypes.S (k b)));
                try reflexivity; lia.
Qed.

Lemma seed_place_all_returns (g : TimetableGenerator) (l : list Seed)
  (t : Timetable.t) (k : nat -> nat) :
  NoDup (gridCoords g) ->
  Forall (fun a => 0 <= seed_batch a < Parameters.batches (parameters g)) l ->
  packing g t k ->
  returns (forEach l (fun timetable assignment =>
                        seed_place timetable assignment g (gridCoords g)) t)
    (fun t' =>
       packing g t'
         (fun i => (k i + count_occ Z.eq_dec (map seed_batch l) (Z.of_nat i))%nat)).
Proof.
  intros Hnd Hl. revert t k.
  induction Hl as [|a l Ha Hl IH]; intros t k Hinv; cbn [forEach].
  - apply returns_Ok. eapply packing_ext; [|exact Hinv].
    intros i. cbn. lia.
  - eapply returns_bind;
      [apply (@seed_place_returns g a t k [] (gridCoords g) Hnd Ha eq_refl);
       [cbn; lia | exact Hinv]|].
    cbn beta. intros t1 Hinv1.
    eapply returns_weaken; [apply (IH t1 _ Hinv1)|].
    cbn beta. intros t' Hinv'. eapply packing_ext; [|exact Hinv'].
    intros i. cbn [map count_occ].
    destruct (Nat.eqb_spec i (Z.to_nat (seed_batch a))) as [->|Hne].
    + rewrite Z2Nat.id by lia.
      destruct (Z.eq_dec (seed_batch a) (seed_batch a)); [lia | congruence].
    + destruct (Z.eq_dec (seed_batch a) (Z.of_nat i)) as [E|_]; [|lia].
      rewrite E, Nat2Z.id in Hne. congruence.
Qed.

Lemma createEmptyTimetable_packing (g : TimetableGenerator) :
  packing g (createEmptyTimetable g) (fun _ => 0%nat).
Proof.
  split; [apply same_shape_refl|].
  intros i j day slot Hi Hj. exists CNull.
  split; [|split; [discriminate | reflexivity]].
  apply nth_error_In in Hj. unfold gridCoords in Hj. apply in_prod_iff in Hj.
  destruct Hj as (Hday & Hslot).
  unfold cell_at, batch_at. rewrite (nth_error_createEmptyTimetable g Hi).
  cbn [bind Batch.schedule]. unfold schedule_get.
  rewrite obj_get_emptySchedule.
  destruct (in_dec string_dec day (days g)); [|contradiction].
  unfold day_get. rewrite obj_get_emptyDay.
  destruct (in_dec string_dec slot (gridSlots g)); [reflexivity | contradiction].
Qed.

(** The classes handed out, placed one after the other. *)
Lemma seeds_placed (g : TimetableGenerator) (assignments : list Seed) :
  NoDup (gridCoords g) ->
  map seed_batch assignments
  = flat_map (fun _ : string =>
                map snd (list_prod (upto (classesPerSubject g))
                           (upto (Parameters.batches (parameters g)))))
             (requestedSubjects g) ->
  returns (forEach assignments
             (fun timetable assignment =>
                seed_place timetable assignment g (gridCoords g))
             (createEmptyTimetable g))
    (fun t => packing g t (fun _ => seedsPerBatch g)).
Proof.
  intros Hnd E.
  eapply returns_weaken.
  - apply (@seed_place_all_returns g assignments (createEmptyTimetable g)
             (fun _ => 0%nat) Hnd); [|apply createEmptyTimetable_packing].
    apply Forall_forall. intros a Ha.
    assert (Hin : In (seed_batch a) (map seed_batch assignments))
      by now apply in_map.
    rewrite E in Hin. apply in_flat_map in Hin. destruct Hin as (_ & _ & Hin).
    apply in_map_iff in Hin. destruct Hin as ([f b] & <- & Hin).
    apply in_prod_iff in Hin. cbn [snd]. apply upto_In. tauto.
  - cbn beta. intros t Hinv.
    destruct Hinv as (Hs & H). split; [exact Hs|].
    intros i j day slot Hi Hj.
    destruct (H i j day slot Hi Hj) as (c & Ec & Uc & Tc).
    exists c. split; [exact Ec|]. split; [exact Uc|]. rewrite Tc. f_equal.
    rewrite E, count_occ_flat_map_const, count_occ_snd_list_prod,
      count_occ_upto, upto_length by exact Hi.
    unfold seedsPerBatch. lia.
Qed.

Lemma createOptimizedRandomTimetable_returns (g : TimetableGenerator) :
  0 <= Parameters.maxClasses (parameters g) ->
  NoDup (days g) -> NoDup (gridSlots g) ->
  returnsR (createOptimizedRandomTimetable g)
    (fun t => packing g t (fun _ => seedsPerBatch g)).
Proof.
  intros Hmax Hdays Hslots.
  assert (Hnd : NoDup (gridCoords g)) by now apply NoDup_list_prod.
  unfold createOptimizedRandomTimetable. cbv zeta.
  change (list_prod (days g) _) with (getOptimalSlotOrder g).
  rewrite (getOptimalSlotOrder_gridCoords g Hmax).
  eapply returnsR_bind; [apply seeds_returns|].
  cbn beta. intros assignments E. cbn [map app] in E.
  apply returnsR_lift. now apply seeds_placed.
Qed.

(** X12: [createOptimizedRandomTimetable] packs each batch from the first
    slot of the first day on: with distinct days and slot labels, every
    batch holds a class at the first [seedsPerBatch] coordinates of the
    grid (day by day, slot by slot) and [null] at every later one, whatever
    the other batches hold. *)
Theorem createOptimizedRandomTimetable_packs (g : TimetableGenerator)
  (rng : Rng) :
  0 <= Parameters.maxClasses (parameters g) ->
  NoDup (days g) -> NoDup (gridSlots g) -> rng_ok rng ->
  exists t rng',
    createOptimizedRandomTimetable g rng = Ok (t, rng') /\
    List.length (Timetable.batches t)
    = Z.to_nat (Parameters.batches (parameters g)) /\
    forall i j day slot,
      (i < Z.to_nat (Parameters.batches (parameters g)))%nat ->
      nth_error (gridCoords g) j = Some (day, slot) ->
      if (j <? seedsPerBatch g)%nat
      then exists c, cell_at t i day slot = Ok (CClass c)
      else cell_at t i day slot = Ok CNull.
Proof.
  intros Hmax Hdays Hslots Hrng.
  destruct (@createOptimizedRandomTimetable_returns g Hmax Hdays Hslots rng Hrng)
    as (t & rng' & E & _ & Hs & H).
  exists t, rng'. split; [exact E|]. split.
  - rewrite (same_shape_length Hs). apply createEmptyTimetable_length.
  - intros i j day slot Hi Hj.
    destruct (H i j day slot Hi Hj) as (c & Ec & Uc & Tc).
    rewrite <- Tc. destruct c as [| |c]; cbn [truthy]; [congruence | exact Ec | eauto].
Qed.

Lemma createOptimizedRandomTimetable_packs_witness :
  exists t rng',
    createOptimizedRandomTimetable tenSlots [1 # 2; 1 # 4; 3 # 4] = Ok (t, rng') /\
    (exists c, cell_at t 1 "Friday" "09:00-10:00" = Ok (CClass c)) /\
    cell_at t 1 "Friday" "10:00-11:00" = Ok CNull.
Proof.
  destruct (@createOptimizedRandomTimetable_packs tenSlots [1 # 2; 1 # 4; 3 # 4])
    as (t & rng' & E & _ & H).
  - cbn. lia.
  - repeat constructor; cbn; intuition discriminate.
  - repeat constructor; cbn; intuition discriminate.
  - repeat constructor; cbn; lra.
  - exists t, rng'. split; [exact E|]. split.
    + exact (H 1%nat 8%nat "Friday" "09:00-10:00" ltac:(cbn; lia) eq_refl).
    + exact (H 1%nat 9%nat "Friday" "10:00-11:00" ltac:(cbn; lia) eq_refl).
Defined.

(** * The populations of the strategies *)

Section Members.
Variable g : TimetableGenerator.
Hypothesis Hdays : NoDup (days g).
Hypothesis Hslots : NoDup (gridSlots g).
Hypothesis Hrooms : rooms g <> [].
Hypothesis Hclass : 1 <= Parameters.classrooms (parameters g).






(** *** The operators keep the population on the grid *)











(** *** Scores *)



End Members.

(** ** The genetic strategy *)


Lemma insert_by_weakness_perm {A} (r : A * option Q) (sorted : list (A * option Q)) :
  Permutation (insert_by_weakness r sorted) (r :: sorted).
Proof.
  induction sorted as [|e rest IH]; cbn [insert_by_weakness]; [reflexivity|].
  destruct (fitter (snd e) (snd r)); [reflexivity|].
  rewrite IH. apply perm_swap.
Qed.

Lemma fold_insert_perm {A} (insert : A -> list A -> list A) (l acc : list A) :
  (forall r sorted, Permutation (insert r sorted) (r :: sorted)) ->
  Permutation (fold_left (fun sorted r => insert r sorted) l acc) (l ++ acc).
Proof.
  intros Hins. revert acc. induction l as [|r l IH]; intros acc; cbn [fold_left app].
  - reflexivity.
  - rewrite IH, Hins. symmetry. apply Permutation_middle.
Qed.


Lemma sort_by_weakness_perm {A} (entries : list (A * option Q)) :
  Permutation (sort_by_weakness entries) entries.
Proof.
  unfold sort_by_weakness.
  rewrite (fold_insert_perm (@insert_by_weakness A) entries []
             (@insert_by_weakness_perm A)).
  now rewrite app_nil_r.
Qed.

Lemma indexedScores_indices (scores : list Q) :
  map fst (indexedScores scores) = seq 0 (List.length scores).
Proof.
  unfold indexedScores.
  assert (H : forall (l : list nat) (l' : list (option Q)),
             List.length l = List.length l' -> map fst (combine l l') = l).
  { induction l as [|x l IH]; intros [|y l'] E; cbn in *; try congruence.
    f_equal. apply IH. lia. }
  apply H. now rewrite length_seq, length_map.
Qed.


Lemma worstIndices_In (scores : list Q) (index : nat) :
  In index (worstIndices scores) -> (index < List.length scores)%nat.
Proof.
  unfold worstIndices. intros H. apply in_map_iff in H.
  destruct H as (e & <- & He).
  assert (Hin : In (fst e) (map fst (sort_by_weakness (indexedScores scores)))).
  { apply in_map. revert He. generalize 7%nat.
    induction (sort_by_weakness (indexedScores scores)) as [|x l IH];
      intros [|n] H; cbn in H; try contradiction.
    destruct H as [->|H]; [now left | right; eauto]. }
  rewrite (Permutation_map fst (sort_by_weakness_perm _)) in Hin.
  rewrite indexedScores_indices in Hin. apply in_seq in Hin. lia.
Qed.







Section Strategies.
Variable g : TimetableGenerator.
Hypothesis Hmax : 0 <= Parameters.maxClasses (parameters g).
Hypothesis Hdays : NoDup (days g).
Hypothesis Hslots : NoDup (gridSlots g).
Hypothesis Hrooms : rooms g <> [].
Hypothesis Hclass : 1 <= Parameters.classrooms (parameters g).
Hypothesis Hne : days g <> [].
Hypothesis Hbatches : 1 <= Parameters.batches (parameters g).

(** *** The initial population *)






(** *** One generation *)





(** *** The result *)






(** ** The hybrid strategy *)




End Strategies.





(** ** The action *)




(** * The checker and the detector *)

(** The entries of the conflict list are the collisions of the
    timetable. *)
Lemma conflictsOf_collision (t : Timetable.t) (x : Conflict.t) :
  keys_ok t -> In x (conflictsOf t) ->
  collision (Conflict.type x) t (fst (Conflict.batches x))
    (snd (Conflict.batches x)) (Conflict.day x) (Conflict.slot x) = true.
Proof.
  intros Hkeys Hin.
  pose proof (@reports_conflictsOf (Conflict.type x) t
                (fst (Conflict.batches x)) (snd (Conflict.batches x))
                (Conflict.day x) (Conflict.slot x) Hkeys) as H.
  destruct (collision _ t _ _ _ _); [reflexivity|]. exfalso.
  unfold reports in H. apply length_zero_iff_nil in H.
  assert (Hx : In x (filter (is_report (Conflict.type x)
                               (fst (Conflict.batches x))
                               (snd (Conflict.batches x))
                               (Conflict.day x) (Conflict.slot x))
                        (conflictsOf t))).
  { apply filter_In. split; [exact Hin|].
    unfold is_report. rewrite !Nat.eqb_refl, !String.eqb_refl.
    now destruct (Conflict.type x). }
  rewrite H in Hx. destruct Hx.
Qed.

Lemma collision_conflictsOf (kind : ConflictType) (t : Timetable.t)
  (i j : nat) (day slot : string) :
  keys_ok t -> collision kind t i j day slot = true ->
  exists x,
    In x (conflictsOf t) /\ Conflict.batches x = (i, j) /\
    Conflict.day x = day /\ Conflict.slot x = slot.
Proof.
  intros Hkeys Hc.
  pose proof (@reports_conflictsOf kind t i j day slot Hkeys) as H.
  rewrite Hc in H. unfold reports in H.
  destruct (filter (is_report kind i j day slot) (conflictsOf t))
    as [|x rest] eqn:E; [discriminate|].
  assert (Hx : In x (filter (is_report kind i j day slot) (conflictsOf t)))
    by (rewrite E; now left).
  apply filter_In in Hx. destruct Hx as (Hin & Hr).
  exists x. split; [exact Hin|]. unfold is_report in Hr.
  apply andb_prop in Hr; destruct Hr as (Hr & Hslot).
  apply andb_prop in Hr; destruct Hr as (Hr & Hday).
  apply andb_prop in Hr; destruct Hr as (Hr & Hj).
  apply andb_prop in Hr; destruct Hr as (_ & Hi).
  apply Nat.eqb_eq in Hi, Hj. apply String.eqb_eq in Hday, Hslot.
  split; [destruct (Conflict.batches x); cbn in *; congruence | auto].
Qed.

(** X16: the checker and the detector agree.  On a timetable on the grid
    whose batches are numbered by position, for a class that names its
    room, [isValidAssignment] accepts the class for batch [i] at a day and
    slot exactly when, once the class is written there, no conflict that
    [detectConflicts] reports at that day and slot involves batch [i]. *)
Theorem isValidAssignment_agrees (g : TimetableGenerator) (t t' : Timetable.t)
  (i : nat) (day slot : string) (c : ClassInfo.t) :
  grid_ok g t -> keys_ok t -> rooms_ok t -> ids_ok t ->
  In day (days g) -> ClassInfo.room c <> None ->
  set_cell t i day slot (CClass c) = Ok t' ->
  exists verdict conflicts,
    isValidAssignment t
      {| Assignment.subject := ClassInfo.subject c;
         Assignment.faculty := ClassInfo.faculty c;
         Assignment.room := ClassInfo.room c;
         Assignment.batch := Z.of_nat i;
         Assignment.day := day;
         Assignment.slot := slot |} = Ok verdict /\
    detectConflicts t' = Ok conflicts /\
    (verdict = true <->
     forall x, In x conflicts ->
       Conflict.day x = day -> Conflict.slot x = slot ->
       fst (Conflict.batches x) <> i /\ snd (Conflict.batches x) <> i).
Proof.
  intros Hgrid Hkeys Hrooms Hids Hday Hroom Hset.
  set (a := {| Assignment.subject := ClassInfo.subject c;
               Assignment.faculty := ClassInfo.faculty c;
               Assignment.room := ClassInfo.room c;
               Assignment.batch := Z.of_nat i;
               Assignment.day := day;
               Assignment.slot := slot |}).
  assert (Hgrid' : grid_ok g t')
    by (eapply same_shape_grid_ok; [eapply set_cell_same_shape; eauto | exact Hgrid]).
  assert (Hrooms' : rooms_ok t')
    by exact (@set_cell_rooms_ok t t' i day slot (CClass c) Hrooms Hroom Hset).
  assert (Hkeys' : keys_ok t') by (eapply set_cell_keys_ok; eauto).
  assert (Hhere : cell_at t' i day slot = Ok (CClass c))
    by (eapply cell_at_set_cell_eq; eauto).
  assert (Hother : forall j, j <> i -> cell_at t' j day slot = cell_at t j day slot).
  { intros j Hj. eapply cell_at_set_cell_neq; eauto. congruence. }
  destruct (@isValidAssignment_loop_spec (Timetable.batches t) a)
    as (verdict & Ev & Hfalse).
  { intros batch Hin _. cbn [a Assignment.day].
    unfold grid_ok in Hgrid. rewrite Forall_forall in Hgrid.
    now rewrite (Hgrid batch Hin). }
  { exact Hroom. }
  exists verdict, (conflictsOf t'). split; [exact Ev|].
  split; [now apply (@detectConflicts_pure g)|].
  split.
  - intros -> x Hx Hd Hs.
    pose proof (@conflictsOf_collision t' x Hkeys' Hx) as Hc. rewrite Hd, Hs in Hc.
    assert (Hno : forall kind j, collision kind t' i j day slot = false).
    { intros kind j. unfold collision.
      destruct (Nat.eqb_spec i j) as [<-|Hij]; [reflexivity|]. cbn [negb andb].
      rewrite Hhere, (Hother j) by congruence.
      unfold cell_at, batch_at.
      destruct (nth_error (Timetable.batches t) j) as [bj|] eqn:Ej;
        [|reflexivity].
      cbn [bind].
      destruct (schedule_get (Batch.schedule bj) day slot) as [[| |c2]|] eqn:E2;
        try reflexivity.
      apply (@isValidAssignment_loop_true (Timetable.batches t) a Ev bj c2 kind c).
      - eapply nth_error_In; eauto.
      - rewrite (Hids j bj Ej). cbn [a Assignment.batch]. lia.
      - exact E2.
      - reflexivity.
      - reflexivity. }
    split; intros <-.
    + now rewrite Hno in Hc.
    + rewrite collision_sym, Hno in Hc. discriminate.
  - intros Hnone. destruct verdict; [reflexivity|]. exfalso.
    destruct (proj1 Hfalse eq_refl) as (bj & c2 & Hin & Hid & E2 & Hclash).
    cbn [a Assignment.batch Assignment.day Assignment.slot] in Hid, E2.
    apply In_nth_error in Hin. destruct Hin as (j & Ej).
    assert (Hji : j <> i) by (intros ->; apply Hid; now rewrite (Hids i bj Ej)).
    assert (Hcell : cell_at t' j day slot = Ok (CClass c2)).
    { rewrite (Hother j Hji). unfold cell_at, batch_at. now rewrite Ej. }
    assert (Hc : exists kind, collision kind t' i j day slot = true).
    { unfold clashes in Hclash. cbn [a Assignment.faculty Assignment.room] in Hclash.
      destruct Hclash as [Hf|(Hr & r & Er & Hlab)].
      - exists faculty_conflict. unfold collision.
        rewrite Hhere, Hcell. cbn [collide].
        rewrite (proj2 (Nat.eqb_neq i j)) by congruence. cbn [negb andb].
        apply jsstring_eqb_eq. congruence.
      - exists room_conflict. unfold collision.
        rewrite Hhere, Hcell. cbn [collide].
        rewrite (proj2 (Nat.eqb_neq i j)) by congruence. cbn [negb andb].
        rewrite (proj2 (jsstring_eqb_eq _ _)) by congruence.
        rewrite Er. cbn [jsstring_text]. now rewrite Hlab. }
    destruct Hc as (kind & Hc).
    destruct (@collision_conflictsOf kind t' i j day slot Hkeys' Hc)
      as (x & Hx & Hb & Hd & Hs).
    destruct (Hnone x Hx Hd Hs) as (Hfst & _). rewrite Hb in Hfst. now apply Hfst.
Qed.

Lemma isValidAssignment_agrees_witness :
  exists t' conflicts,
    set_cell clashAtNine 0 "Monday" "10:00-11:00"
      (CClass (classInfo "Physics" "Dr. Rao" "Room-102")) = Ok t' /\
    isValidAssignment clashAtNine
      {| Assignment.subject := Some "Physics";
         Assignment.faculty := Some "Dr. Rao";
         Assignment.room := Some "Room-102";
         Assignment.batch := 0;
         Assignment.day := "Monday";
         Assignment.slot := "10:00-11:00" |} = Ok true /\
    detectConflicts t' = Ok conflicts /\
    forall x, In x conflicts ->
      Conflict.day x = "Monday" -> Conflict.slot x = "10:00-11:00" ->
      fst (Conflict.batches x) <> 0%nat /\ snd (Conflict.batches x) <> 0%nat.
Proof.
  destruct (set_cell clashAtNine 0 "Monday" "10:00-11:00"
              (CClass (classInfo "Physics" "Dr. Rao" "Room-102")))
    as [t'|] eqn:Hset; [|discriminate].
  destruct (@isValidAssignment_agrees twoSlots clashAtNine t' 0 "Monday"
              "10:00-11:00" (classInfo "Physics" "Dr. Rao" "Room-102"))
    as (verdict & conflicts & Ev & Ec & Hiff).
  - apply clashAtNine_well_formed.
  - apply clashAtNine_ok.
  - apply clashAtNine_well_formed.
  - apply clashAtNine_ok.
  - now left.
  - discriminate.
  - exact Hset.
  - exists t', conflicts. split; [reflexivity|].
    assert (Hv : verdict = true) by (vm_compute in Ev; congruence).
    subst verdict. split; [exact Ev|]. split; [exact Ec|].
    now apply Hiff.
Defined.

(** * What crossover writes *)

Lemma merge_cell_idem (a b : Result Cell) :
  merge_cell (merge_cell a b) b = merge_cell a b.
Proof.
  destruct a as [o|], b as [t|]; cbn [merge_cell]; try reflexivity.
  destruct (truthy t) eqn:Et, (truthy o) eqn:Eo; cbn [andb negb merge_cell];
    try rewrite Et; try rewrite Eo; reflexivity.
Qed.

Lemma keys_same_refl (o : Timetable.t) : keys_same o o.
Proof. split; [apply same_shape_refl | reflexivity]. Qed.

Lemma keys_same_trans (o o1 o2 : Timetable.t) :
  keys_same o o1 -> keys_same o1 o2 -> keys_same o o2.
Proof.
  intros (Hs & Hk) (Hs' & Hk'). split; [eapply same_shape_trans; eauto|].
  intros i day. now rewrite Hk', Hk.
Qed.

Lemma present_keys_same (o o' : Timetable.t) (i : nat) (day slot : string) :
  keys_same o o' -> present o' i day slot = present o i day slot.
Proof. intros (_ & Hk). unfold present. now rewrite Hk. Qed.

Lemma day_keys_shape (o o' : Timetable.t) (i : nat) :
  same_shape o o' -> day_keys o' i = day_keys o i.
Proof.
  intros Hs. unfold day_keys, batch_at.
  destruct (nth_error (Timetable.batches o) i) as [b|] eqn:Eb.
  - destruct (same_shape_nth i Hs Eb) as (b' & -> & E).
    unfold shape in E. congruence.
  - apply nth_error_None in Eb. rewrite <- (same_shape_length Hs) in Eb.
    apply nth_error_None in Eb. now rewrite Eb.
Qed.

Lemma day_keys_same (o o' : Timetable.t) (i : nat) :
  keys_same o o' -> day_keys o' i = day_keys o i.
Proof. intros (Hs & _). now apply day_keys_shape. Qed.

Lemma patched_refl (parent2 o : Timetable.t) :
  patched parent2 (fun _ _ _ => false) o o.
Proof. split; [apply keys_same_refl | reflexivity]. Qed.

Lemma patched_ext (parent2 : Timetable.t) (r r' : nat -> string -> string -> bool)
  (o o' : Timetable.t) :
  (forall i day slot, r i day slot = r' i day slot) ->
  patched parent2 r o o' -> patched parent2 r' o o'.
Proof.
  intros E (Hk & H). split; [exact Hk|].
  intros i day slot. rewrite <- E. apply H.
Qed.

Lemma patched_trans (parent2 : Timetable.t)
  (r1 r2 : nat -> string -> string -> bool) (o o1 o2 : Timetable.t) :
  patched parent2 r1 o o1 -> patched parent2 r2 o1 o2 ->
  patched parent2 (fun i day slot => r1 i day slot || r2 i day slot) o o2.
Proof.
  intros (Hk1 & H1) (Hk2 & H2). split; [eapply keys_same_trans; eauto|].
  intros i day slot. rewrite H2, H1.
  destruct (r1 i day slot), (r2 i day slot); cbn [orb]; try reflexivity.
  apply merge_cell_idem.
Qed.

(** A timetable is the patch of itself on cells that merging leaves as
    they are. *)
Lemma patched_same (parent2 : Timetable.t) (r : nat -> string -> string -> bool)
  (o : Timetable.t) :
  (forall i day slot,
     r i day slot = true ->
     merge_cell (cell_at o i day slot) (cell_at parent2 i day slot)
     = cell_at o i day slot) ->
  patched parent2 r o o.
Proof.
  intros H. split; [apply keys_same_refl|].
  intros i day slot. destruct (r i day slot) eqn:E; [|reflexivity].
  symmetry. now apply H.
Qed.

Lemma present_In (o : Timetable.t) (i : nat) (day slot : string) :
  present o i day slot = true ->
  exists b d,
    nth_error (Timetable.batches o) i = Some b /\
    obj_get day (Batch.schedule b) = Some d /\ In slot (obj_keys d).
Proof.
  unfold present, slot_keys, batch_at, keys_of_day.
  destruct (nth_error (Timetable.batches o) i) as [b|] eqn:Eb; [|discriminate].
  cbn [bind].
  destruct (obj_get day (Batch.schedule b)) as [d|] eqn:Ed; [|discriminate].
  intros H. apply existsb_exists in H. destruct H as (s & Hs & E).
  apply String.eqb_eq in E. subst s. exists b, d. auto.
Qed.

(** Writing a slot that is there changes no key. *)
Lemma set_cell_keys_same (o o' : Timetable.t) (i : nat) (day slot : string)
  (v : Cell) :
  present o i day slot = true -> set_cell o i day slot v = Ok o' ->
  keys_same o o'.
Proof.
  intros Hp Hset. split; [eapply set_cell_same_shape; eauto|].
  destruct (present_In _ _ _ _ Hp) as (b & d & Hb & Hd & Hin).
  destruct (set_cell_inv Hset) as (b0 & d0 & Hb0 & Hd0 & ->).
  rewrite Hb in Hb0. injection Hb0 as <-. rewrite Hd in Hd0. injection Hd0 as <-.
  intros i' day'. unfold slot_keys, batch_at. cbn [Timetable.batches with_batches].
  destruct (Nat.eq_dec i' i) as [->|Hne].
  - rewrite nth_error_arr_set_eq by (apply nth_error_Some; congruence).
    rewrite Hb. cbn [bind with_schedule Batch.schedule]. unfold keys_of_day.
    destruct (String.eqb_spec day' day) as [->|Hday].
    + rewrite obj_get_set_eq, Hd. f_equal. now apply obj_keys_set_present.
    + now rewrite obj_get_set_neq.
  - now rewrite nth_error_arr_set_neq by congruence.
Qed.

Lemma crossover_slot_patched (parent2 o : Timetable.t) (i : nat)
  (day slot : string) :
  present o i day slot = true ->
  ensures (crossover_slot parent2 i day o slot)
    (patched parent2
       (fun i' d' s' => Nat.eqb i' i && String.eqb d' day && String.eqb s' slot)
       o).
Proof.
  intros Hp o' E. unfold crossover_slot in E.
  destruct (batch_at parent2 i) as [b2|] eqn:Eb2; [|discriminate].
  cbn [bind] in E.
  destruct (schedule_get (Batch.schedule b2) day slot) as [theirs|] eqn:Et;
    [|discriminate].
  cbn [bind] in E.
  assert (Htheirs : cell_at parent2 i day slot = Ok theirs)
    by (unfold cell_at; now rewrite Eb2).
  assert (Hregion : forall i' d' s',
            Nat.eqb i' i && String.eqb d' day && String.eqb s' slot = true ->
            i' = i /\ d' = day /\ s' = slot).
  { intros i' d' s' H. apply andb_prop in H. destruct H as (H & Hs).
    apply andb_prop in H. destruct H as (Hi & Hd).
    apply Nat.eqb_eq in Hi. apply String.eqb_eq in Hd, Hs. auto. }
  destruct (truthy theirs) eqn:Etruthy.
  - destruct (cell_at o i day slot) as [ours|] eqn:Eours; [|discriminate].
    cbn [bind] in E. destruct (truthy ours) eqn:Eo; cbn [negb] in E.
    + injection E as <-. apply patched_same. intros i' d' s' H.
      destruct (Hregion _ _ _ H) as (-> & -> & ->).
      rewrite Eours, Htheirs. cbn [merge_cell]. now rewrite Eo, andb_false_r.
    + split; [eapply set_cell_keys_same; eauto|].
      intros i' d' s'.
      destruct (Nat.eqb i' i && String.eqb d' day && String.eqb s' slot) eqn:R.
      * destruct (Hregion _ _ _ R) as (-> & -> & ->).
        rewrite Eours, Htheirs. cbn [merge_cell]. rewrite Etruthy, Eo.
        cbn [andb negb]. eapply cell_at_set_cell_eq; eauto.
      * eapply cell_at_set_cell_neq; eauto. intros [= -> -> ->].
        now rewrite Nat.eqb_refl, !String.eqb_refl in R.
  - injection E as <-. apply patched_same. intros i' d' s' H.
    destruct (Hregion _ _ _ H) as (-> & -> & ->).
    rewrite Htheirs. destruct (cell_at o i day slot) as [ours|]; [|reflexivity].
    cbn [merge_cell]. now rewrite Etruthy.
Qed.

Lemma crossover_slots_patched (parent2 : Timetable.t) (i : nat) (day : string)
  (slots : list string) (o : Timetable.t) :
  (forall s, In s slots -> present o i day s = true) ->
  ensures (forEach slots (crossover_slot parent2 i day) o)
    (patched parent2
       (fun i' d' s' =>
          Nat.eqb i' i && String.eqb d' day && existsb (String.eqb s') slots)
       o).
Proof.
  revert o. induction slots as [|s slots IH]; intros o Hp; cbn [forEach].
  - intros o' [= <-]. eapply patched_ext; [|apply patched_refl].
    intros i' d' s'. cbn [existsb]. now rewrite andb_false_r.
  - eapply ensures_bind;
      [apply crossover_slot_patched; apply Hp; now left|].
    cbn beta. intros o1 H1.
    eapply ensures_weaken.
    + apply IH. intros s' Hs'.
      rewrite (present_keys_same _ _ _ (proj1 H1)). apply Hp. now right.
    + cbn beta. intros o' H'.
      eapply patched_ext; [|exact (patched_trans H1 H')].
      intros i' d' s'. cbn [existsb].
      destruct (Nat.eqb i' i), (String.eqb d' day), (String.eqb s' s),
        (existsb (String.eqb s') slots); reflexivity.
Qed.

Lemma crossover_day_patched (g : TimetableGenerator) (parent2 o : Timetable.t)
  (i k : nat) (day : string) :
  ensures (crossover_day g parent2 i o k day)
    (patched parent2
       (fun i' d' s' =>
          Nat.eqb i' i && String.eqb d' day && second_half g k
          && present o i day s')
       o).
Proof.
  unfold crossover_day. fold (second_half g k).
  destruct (second_half g k).
  - intros o' E.
    destruct (batch_at o i) as [b|] eqn:Eb; [|discriminate]. cbn [bind] in E.
    destruct (keys_of_day (Batch.schedule b) day) as [slots|] eqn:Ek;
      [|discriminate].
    cbn [bind] in E.
    assert (Hkeys : slot_keys o i day = Ok slots)
      by (unfold slot_keys; now rewrite Eb).
    assert (Hp : forall s, present o i day s = existsb (String.eqb s) slots)
      by (intros s; unfold present; now rewrite Hkeys).
    eapply patched_ext;
      [|apply (@crossover_slots_patched parent2 i day slots o); [|exact E]].
    + intros i' d' s'. rewrite Hp.
      destruct (Nat.eqb i' i), (String.eqb d' day); reflexivity.
    + intros s Hs. rewrite Hp. apply existsb_exists. exists s.
      split; [exact Hs | apply String.eqb_refl].
  - intros o' [= <-]. eapply patched_ext; [|apply patched_refl].
    intros i' d' s'. now rewrite andb_false_r.
Qed.

Lemma index_of_None (day : string) (keys : list string) :
  ~ In day keys -> index_of day keys = None.
Proof.
  induction keys as [|k keys IH]; intros H; cbn [index_of]; [reflexivity|].
  destruct (String.eqb_spec day k) as [->|_]; [exfalso; apply H; now left|].
  rewrite IH; [reflexivity|]. intros Hin. apply H. now right.
Qed.

Lemma index_of_nth (day : string) (keys : list string) (k : nat) :
  NoDup keys -> nth_error keys k = Some day -> index_of day keys = Some k.
Proof.
  intros Hnd. revert k. induction Hnd as [|x keys Hx Hnd IH]; intros [|k] H;
    cbn in H; try discriminate.
  - injection H as ->. cbn [index_of]. now rewrite String.eqb_refl.
  - cbn [index_of]. destruct (String.eqb_spec day x) as [->|_].
    + exfalso. apply Hx. eapply nth_error_In; eauto.
    + now rewrite (IH k H).
Qed.

Lemma crossover_days_patched (g : TimetableGenerator) (parent2 : Timetable.t)
  (i : nat) (keys : list string) (k0 : nat) (o : Timetable.t) :
  NoDup keys ->
  ensures (forEachFrom k0 keys (crossover_day g parent2 i) o)
    (patched parent2 (visited_days g o i k0 keys) o).
Proof.
  intros Hnd. revert k0 o.
  induction Hnd as [|day keys Hday Hnd IH]; intros k0 o; cbn [forEachFrom].
  - intros o' [= <-]. eapply patched_ext; [|apply patched_refl].
    intros i' d' s'. unfold visited_days. cbn [index_of].
    now rewrite andb_false_r.
  - eapply ensures_bind; [apply crossover_day_patched|].
    cbn beta. intros o1 H1.
    eapply ensures_weaken; [apply (IH (Datatypes.S k0) o1)|].
    cbn beta. intros o' H'.
    eapply patched_ext; [|exact (patched_trans H1 H')].
    intros i' d' s'. unfold visited_days. cbn [index_of].
    rewrite (present_keys_same _ _ _ (proj1 H1)).
    destruct (String.eqb_spec d' day) as [->|Hne].
    + rewrite (@index_of_None day keys Hday). cbn [option_map].
      rewrite Nat.add_0_r, !andb_false_r, orb_false_r.
      destruct (Nat.eqb i' i); reflexivity.
    + cbn [andb]. rewrite !andb_false_r. cbn [orb].
      destruct (index_of d' keys) as [j|]; cbn [option_map]; [|reflexivity].
      now rewrite Nat.add_succ_r.
Qed.

Lemma crossover_batch_patched (g : TimetableGenerator) (parent2 o : Timetable.t)
  (i : nat) :
  NoDup (day_keys o i) ->
  ensures (crossover_batch g parent2 o i) (patched parent2 (visited g o [i]) o).
Proof.
  intros Hnd o' E. unfold crossover_batch in E.
  assert (Hkeys : day_keys o i
                  = match batch_at o i with
                    | Ok b => obj_keys (Batch.schedule b)
                    | TypeError => []
                    end) by reflexivity.
  destruct (batch_at o i) as [b|]; [|discriminate]. cbn [bind] in E.
  rewrite Hkeys in Hnd. unfold forEachIndexed in E.
  eapply patched_ext;
    [|apply (@crossover_days_patched g parent2 i _ 0 o Hnd o' E)].
  intros i' d' s'. unfold visited. cbn [existsb]. rewrite orb_false_r.
  unfold visited_days. destruct (Nat.eqb_spec i' i) as [->|_]; [|reflexivity].
  rewrite Nat.eqb_refl, Hkeys. reflexivity.
Qed.

Lemma crossover_batches_patched (g : TimetableGenerator)
  (parent2 : Timetable.t) (l : list nat) (o : Timetable.t) :
  (forall i, NoDup (day_keys o i)) ->
  ensures (forEach l (crossover_batch g parent2) o)
    (patched parent2 (visited g o l) o).
Proof.
  revert o. induction l as [|i l IH]; intros o Hnd; cbn [forEach].
  - intros o' [= <-]. eapply patched_ext; [|apply patched_refl].
    reflexivity.
  - eapply ensures_bind; [apply crossover_batch_patched, Hnd|].
    cbn beta. intros o1 H1.
    eapply ensures_weaken.
    + apply IH. intros j. rewrite (@day_keys_same o o1 j (proj1 H1)). apply Hnd.
    + cbn beta. intros o' H'.
      eapply patched_ext; [|exact (patched_trans H1 H')].
      intros i' d' s'. unfold visited, visited_days. cbn [existsb].
      rewrite (@day_keys_same o o1 i' (proj1 H1)),
        (present_keys_same _ _ _ (proj1 H1)).
      destruct (Nat.eqb i' i), (existsb (Nat.eqb i') l); cbn [orb andb];
        try reflexivity.
      * apply orb_diag.
      * apply orb_false_r.
Qed.

(** The copy of a timetable has the slots that hold something other than
    [undefined]. *)
Lemma present_json_copy (t : Timetable.t) (i : nat) (day slot : string)
  (ours : Cell) :
  keys_ok t -> cell_at t i day slot = Ok ours ->
  present (json_copy t) i day slot
  = match ours with CUndefined => false | _ => true end.
Proof.
  intros Hkeys Hcell. unfold cell_at, batch_at in Hcell.
  destruct (nth_error (Timetable.batches t) i) as [b|] eqn:Eb; [|discriminate].
  cbn [bind] in Hcell. unfold schedule_get in Hcell.
  destruct (obj_get day (Batch.schedule b)) as [d|] eqn:Ed; [|discriminate].
  injection Hcell as Hours.
  assert (Hnd : NoDup (obj_keys d)).
  { destruct (Hkeys b (nth_error_In _ _ Eb)) as (_ & H).
    apply (H day). now apply obj_get_Some_In. }
  unfold present, slot_keys, batch_at, json_copy. cbn [Timetable.batches].
  rewrite nth_error_map, Eb. cbn [option_map bind json_batch Batch.schedule].
  unfold keys_of_day. rewrite obj_get_json_schedule, Ed. cbn [option_map].
  pose proof (@day_get_json_day d slot Hnd) as Hget. rewrite Hours in Hget.
  unfold day_get in Hget.
  destruct (existsb (String.eqb slot) (obj_keys (json_day d))) eqn:E.
  - apply existsb_exists in E. destruct E as (s & Hs & Es).
    apply String.eqb_eq in Es. subst s.
    apply obj_get_In in Hs.
    destruct (obj_get slot (json_day d)) as [v|] eqn:Ev; [|congruence].
    rewrite <- Hget. apply obj_get_Some_In in Ev. unfold json_day in Ev.
    apply filter_In in Ev. destruct Ev as (_ & Hv). cbn [snd] in Hv.
    destruct v; [discriminate | reflexivity | reflexivity].
  - destruct (obj_get slot (json_day d)) as [v|] eqn:Ev.
    + exfalso. assert (Hin : In slot (obj_keys (json_day d)))
        by (apply obj_get_In; congruence).
      assert (Hex : existsb (String.eqb slot) (obj_keys (json_day d)) = true)
        by (apply existsb_exists; exists slot; split;
            [exact Hin | apply String.eqb_refl]).
      congruence.
    + now rewrite <- Hget.
Qed.

(** X17: [crossover] is a one-point crossover on the week.  For parents on
    the grid of the generator with as many batches, the offspring holds in
    the first half of the working days (positions below [days.length / 2])
    what parent 1 holds; in the second half it holds the class of parent 2
    wherever parent 1 has [null] and parent 2 a class, and what parent 1
    holds everywhere else. *)
Theorem crossover_one_point (g : TimetableGenerator)
  (parent1 parent2 : Timetable.t) :
  grid_ok g parent1 -> grid_ok g parent2 -> keys_ok parent1 ->
  List.length (Timetable.batches parent1)
  = List.length (Timetable.batches parent2) ->
  exists offspring,
    crossover g parent1 parent2 = Ok offspring /\
    forall i k day slot ours theirs,
      nth_error (days g) k = Some day ->
      cell_at parent1 i day slot = Ok ours ->
      cell_at parent2 i day slot = Ok theirs ->
      cell_at offspring i day slot
      = Ok (if second_half g k && is_null ours && truthy theirs
            then theirs else ours).
Proof.
  intros Hg1 Hg2 Hkeys Hlen.
  destruct (crossover_returns Hg1 Hg2 Hlen) as (offspring & E & _).
  exists offspring. split; [exact E|].
  pose proof (json_copy_same_shape parent1) as Hshape.
  assert (Hdk : forall i, NoDup (day_keys (json_copy parent1) i)).
  { intros i. rewrite (@day_keys_shape parent1 (json_copy parent1) i Hshape). unfold day_keys, batch_at.
    destruct (nth_error (Timetable.batches parent1) i) as [b|] eqn:Eb;
      [|constructor].
    apply (Hkeys b). eapply nth_error_In; eauto. }
  unfold crossover, crossover_inplace in E. cbv zeta in E.
  destruct (@crossover_batches_patched g parent2 _ (json_copy parent1) Hdk
              offspring E) as (_ & Hcells).
  intros i k day slot ours theirs Hk Hours Htheirs.
  rewrite Hcells, (@cell_at_json_copy parent1 i day slot Hkeys), Hours, Htheirs.
  assert (Hb : exists b, nth_error (Timetable.batches parent1) i = Some b).
  { unfold cell_at, batch_at in Hours.
    destruct (nth_error (Timetable.batches parent1) i) as [b|]; [eauto|].
    discriminate. }
  destruct Hb as (b & Eb).
  assert (Hdays : day_keys (json_copy parent1) i = days g).
  { rewrite (@day_keys_shape parent1 (json_copy parent1) i Hshape).
    unfold day_keys, batch_at. rewrite Eb.
    exact (grid_ok_nth _ Hg1 Eb). }
  assert (Hnd : NoDup (days g)) by (rewrite <- Hdays; apply Hdk).
  unfold visited, visited_days.
  rewrite Hdays, (@index_of_nth day (days g) k Hnd Hk), Nat.eqb_refl,
    (@present_json_copy parent1 i day slot ours Hkeys Hours).
  assert (Hin : existsb (Nat.eqb i)
                  (seq 0 (List.length (Timetable.batches (json_copy parent1))))
                = true).
  { apply existsb_exists. exists i. split; [|apply Nat.eqb_refl].
    apply in_seq. rewrite (same_shape_length Hshape).
    split; [lia|]. apply nth_error_Some. congruence. }
  rewrite Hin. cbn [andb Nat.add].
  destruct (second_half g k), ours as [| |c], (truthy theirs) eqn:Et;
    cbn [andb is_null merge_cell truthy negb]; try rewrite Et; reflexivity.
Qed.

Lemma crossover_one_point_witness :
  exists offspring,
    crossover twoDays parentFree parentB = Ok offspring /\
    cell_at offspring 0 "Monday" "09:00-10:00" = Ok CNull /\
    cell_at offspring 0 "Tuesday" "09:00-10:00"
    = Ok (CClass (classInfo "Physics" "Dr. Iyer" "Room-101")).
Proof.
  destruct (@crossover_one_point twoDays parentFree parentB)
    as (offspring & E & H).
  - repeat constructor.
  - repeat constructor.
  - intros b [<-|[]]. split; [cbn; nodup_strings|].
    intros day d [[= <- <-]|[[= <- <-]|[]]]; cbn; nodup_strings.
  - reflexivity.
  - exists offspring. split; [exact E|]. split.
    + exact (H 0%nat 0%nat "Monday" "09:00-10:00" CNull
               (CClass (classInfo "Physics" "Dr. Iyer" "Room-101"))
               eq_refl eq_refl eq_refl).
    + exact (H 0%nat 1%nat "Tuesday" "09:00-10:00" CNull
               (CClass (classInfo "Physics" "Dr. Iyer" "Room-101"))
               eq_refl eq_refl eq_refl).
Defined.

(** * The statistics shown after a run *)

Lemma countGaps_loop_penalty (l : list Cell) (inSequence : bool) (n : Z) :
  calculateGapPenalty_loop l inSequence (2 * n)
  = 2 * countGaps_loop l inSequence n.
Proof.
  revert inSequence n. induction l as [|c l IH]; intros b n;
    cbn [calculateGapPenalty_loop countGaps_loop]; [reflexivity|].
  destruct (truthy c); [apply IH|].
  destruct b; [|apply IH].
  destruct (existsb truthy l); [|apply IH].
  replace (2 * n + 2) with (2 * (n + 1)) by lia. apply IH.
Qed.

Lemma stats_days_tally (g : TimetableGenerator) (ds : list DaySchedule)
  (acc : Tally) (total filled gaps : Z) :
  (forall d, In d ds -> obj_keys d = gridSlots g) ->
  totalSlots acc = total -> filledSlots acc = filled ->
  gapPenalty acc = 2 * gaps ->
  let '(total', filled', gaps') := fold_left stats_day ds (total, filled, gaps) in
  totalSlots (fold_left (tally_day g) ds acc) = total' /\
  filledSlots (fold_left (tally_day g) ds acc) = filled' /\
  gapPenalty (fold_left (tally_day g) ds acc) = 2 * gaps'.
Proof.
  revert acc total filled gaps.
  induction ds as [|d ds IH]; intros acc total filled gaps Hkeys Ht Hf Hg;
    cbn [fold_left].
  - auto.
  - cbn [stats_day]. apply IH.
    + intros d' Hd'. apply Hkeys. now right.
    + cbn [tally_day totalSlots]. now rewrite Ht.
    + cbn [tally_day filledSlots]. now rewrite Hf.
    + cbn [tally_day gapPenalty]. rewrite Hg.
      rewrite (Hkeys d (or_introl eq_refl)). unfold calculateGapPenalty.
      fold (gridSlots g).
      rewrite <- (countGaps_loop_penalty _ false gaps).
      generalize (map (day_get d) (gridSlots g)) as l. intros l.
      assert (H : forall l b p q,
                 calculateGapPenalty_loop l b (p + q)
                 = p + calculateGapPenalty_loop l b q).
      { clear. induction l as [|c l IHl]; intros b p q;
          cbn [calculateGapPenalty_loop]; [reflexivity|].
        destruct (truthy c); [apply IHl|]. destruct b; [|apply IHl].
        destruct (existsb truthy l); [|apply IHl].
        rewrite <- Z.add_assoc. apply IHl. }
      rewrite <- (H l false (2 * gaps) 0). f_equal. lia.
Qed.

Lemma stats_tally (g : TimetableGenerator) (bs : list Batch.t) (acc : Tally)
  (total filled gaps : Z) :
  (forall b day d, In b bs -> In (day, d) (Batch.schedule b) ->
                   obj_keys d = gridSlots g) ->
  totalSlots acc = total -> filledSlots acc = filled ->
  gapPenalty acc = 2 * gaps ->
  let '(total', filled', gaps') :=
    fold_left
      (fun acc batch =>
         fold_left stats_day (obj_values (Batch.schedule batch)) acc)
      bs (total, filled, gaps) in
  let acc' :=
    fold_left
      (fun acc batch =>
         fold_left (tally_day g) (obj_values (Batch.schedule batch)) acc)
      bs acc in
  totalSlots acc' = total' /\ filledSlots acc' = filled' /\
  gapPenalty acc' = 2 * gaps'.
Proof.
  revert acc total filled gaps.
  induction bs as [|b bs IH]; intros acc total filled gaps Hkeys Ht Hf Hg;
    cbn [fold_left].
  - cbv zeta. auto.
  - assert (Hb : forall d, In d (obj_values (Batch.schedule b)) ->
                           obj_keys d = gridSlots g).
    { intros d Hd. unfold obj_values in Hd. apply in_map_iff in Hd.
      destruct Hd as ([day d'] & <- & Hin). apply (Hkeys b day d'); auto.
      now left. }
    pose proof (@stats_days_tally g (obj_values (Batch.schedule b)) acc
                  total filled gaps Hb Ht Hf Hg) as H.
    destruct (fold_left stats_day (obj_values (Batch.schedule b))
                (total, filled, gaps)) as [[total1 filled1] gaps1].
    destruct H as (Ht1 & Hf1 & Hg1).
    apply IH; auto.
    intros b' day d Hb' Hd. apply (Hkeys b' day d); auto. now right.
Qed.

(** X18: the statistics shown after a run agree with the fitness
    evaluator.  On a timetable whose days list the slots of the grid,
    [calculateUtilizationStats] counts the slots and the filled slots that
    [calculateFitness] counts, its gap count is half the gap penalty, and
    its utilization is the fill ratio in percent. *)
Theorem calculateUtilizationStats_agrees (g : TimetableGenerator)
  (t : Timetable.t) :
  slots_ok g t ->
  let stats := calculateUtilizationStats t in
  Stats.totalSlots stats = totalSlots (tally g t) /\
  Stats.filledSlots stats = filledSlots (tally g t) /\
  2 * Stats.gapCount stats = gapPenalty (tally g t) /\
  (Stats.utilization stats == fillRatio (tally g t) * 100)%Q.
Proof.
  intros Hslots. cbv zeta. unfold calculateUtilizationStats, tally.
  pose proof (@stats_tally g (Timetable.batches t)
                {| filledSlots := 0; totalSlots := 0; gapPenalty := 0 |}
                0 0 0 Hslots eq_refl eq_refl eq_refl) as H.
  destruct (fold_left
              (fun acc batch =>
                 fold_left stats_day (obj_values (Batch.schedule batch)) acc)
              (Timetable.batches t) (0, 0, 0)) as [[total filled] gaps].
  cbv zeta in H. destruct H as (Ht & Hf & Hg).
  cbn [Stats.totalSlots Stats.filledSlots Stats.gapCount Stats.utilization].
  split; [now rewrite Ht|]. split; [now rewrite Hf|]. split; [now rewrite Hg|].
  unfold fillRatio. rewrite Ht, Hf.
  destruct (total >? 0); [reflexivity | lra].
Qed.

Lemma calculateUtilizationStats_agrees_witness :
  Stats.totalSlots (calculateUtilizationStats seventeenOfTwenty) = 20 /\
  Stats.gapCount (calculateUtilizationStats seventeenOfTwenty) = 0 /\
  (fillRatio (tally fourByFive seventeenOfTwenty) * 100 == 85)%Q.
Proof.
  destruct (@calculateUtilizationStats_agrees fourByFive seventeenOfTwenty)
    as (Ht & _ & Hg & Hu).
  - intros b day d [<-|[]] Hd. cbn in Hd.
    destruct Hd as [[= <- <-]|[[= <- <-]|[[= <- <-]|[[= <- <-]|[]]]]];
      reflexivity.
  - split; [reflexivity|]. split; [reflexivity|].
    rewrite <- Hu. reflexivity.
Defined.

(** * Elitism *)











Section Elitism.
Variable g : TimetableGenerator.
Hypothesis Hmax : 0 <= Parameters.maxClasses (parameters g).
Hypothesis Hdays : NoDup (days g).
Hypothesis Hslots : NoDup (gridSlots g).
Hypothesis Hrooms : rooms g <> [].
Hypothesis Hclass : 1 <= Parameters.classrooms (parameters g).
Hypothesis Hne : days g <> [].
Hypothesis Hbatches : 1 <= Parameters.batches (parameters g).






End Elitism.



(** * The detector at the edges *)

(** X20: a timetable with at most one batch has no conflict, whatever its
    schedule holds: [detectConflicts] returns the empty list and never
    throws on it. *)
Theorem detectConflicts_lone_batch (t : Timetable.t) :
  (List.length (Timetable.batches t) <= 1)%nat -> detectConflicts t = Ok [].
Proof.
  intros Hlen. unfold detectConflicts.
  destruct (Timetable.batches t) as [|b [|b' bs]] eqn:Eb;
    [reflexivity | | cbn in Hlen; lia].
  unfold forEachIndexed. cbn [forEachFrom].
  assert (H : returns (forEach (obj_keys (Batch.schedule b))
                         (detectConflicts_day t 0 b) [])
                (fun conflicts => conflicts = [])).
  { apply forEach_returns; [|reflexivity].
    intros conflicts day Hday ->. unfold detectConflicts_day.
    apply obj_get_In in Hday.
    destruct (obj_get day (Batch.schedule b)) as [d|] eqn:Ed; [|congruence].
    apply forEach_returns; [|reflexivity].
    intros conflicts slot _ ->. unfold detectConflicts_slot, schedule_get.
    rewrite Ed. cbn [bind].
    destruct (day_get d slot) as [| |class1]; try now apply returns_Ok.
    rewrite Eb. unfold forEachIndexed. cbn [forEachFrom].
    unfold detectConflicts_pair. cbn [Nat.eqb bind]. now apply returns_Ok. }
  destruct H as (conflicts & -> & ->). reflexivity.
Qed.

Lemma detectConflicts_lone_batch_witness :
  detectConflicts seventeenOfTwenty = Ok [].
Proof.
  apply detectConflicts_lone_batch. cbn. lia.
Defined.





(** * The teaching plan *)

(** ** Computations run on values of [Math.random] *)






Lemma keepsR_ensuresR {A} (m : Rand A) (P Q : A -> Prop) :
  keepsR m P -> ensuresR m Q -> keepsR m (fun a => P a /\ Q a).
Proof.
  intros HP HQ rng a rng' Hrng E. destruct (HP _ _ _ Hrng E) as (Hrng' & Ha).
  split; [exact Hrng'|]. split; [exact Ha | exact (HQ _ _ _ E)].
Qed.

Lemma returnsR_keepsR {A} (m : Rand A) (P Q : A -> Prop) :
  returnsR m P -> keepsR m Q -> returnsR m (fun a => P a /\ Q a).
Proof.
  intros HP HQ rng Hrng. destruct (HP rng Hrng) as (a & rng' & E & Hrng' & Ha).
  exists a, rng'. split; [exact E|]. split; [exact Hrng'|].
  split; [exact Ha | exact (proj2 (HQ _ _ _ Hrng E))].
Qed.




(** ** Classes of the plan under the updates *)





(** ** The subject [fillGaps] selects *)






(** ** [fillGaps] follows the plan *)




(** ** The moves keep the plan *)





(** ** The constraint-first strategy follows the plan *)






(** ** The hybrid strategy follows the plan *)












